(** * Tiny Kingdom: state store and transition mediation

    A shallow embedding of [src/db.py] (compaction and saving of the world
    state), [src/llm.py] (normalisation of summaries and validation of the
    backend's reply) and of [create_kingdom] from [src/server.py], followed
    by the properties of the specification that concern them.

    The program handles untyped JSON documents, so the embedding starts with
    the Python values such a document is made of and with the built-in
    operations the program applies to them ([list], [dict], [int], slicing,
    [str.replace], [str.strip], [json.dumps]).  An operation that raises in
    Python returns [Err] with the class of the exception. *)

From Stdlib Require Import ZArith NArith List Lia Bool String Ascii.
From Stdlib Require Import SpecFloat DecimalString.
Import ListNotations.

Local Open Scope Z_scope.

(** ** Results of operations that may raise *)

Inductive exn : Type :=
| TypeError
| ValueError
| OverflowError
| AttributeError
| RuntimeError.

Inductive result (A : Type) : Type :=
| Ok (a : A)
| Err (e : exn).

Arguments Ok {A} a.
Arguments Err {A} e.

Definition bind {A B : Type} (r : result A) (k : A -> result B) : result B :=
  match r with
  | Ok a => k a
  | Err e => Err e
  end.

Declare Scope result_scope.
Delimit Scope result_scope with result.
Notation "x <- r ;; k" := (bind r (fun x => k))
  (at level 61, r at next level, right associativity) : result_scope.
Notation "' pat <- r ;; k" := (bind r (fun x => match x with pat => k end))
  (at level 61, pat pattern, r at next level, right associativity) : result_scope.

(** ** Python values *)

Module Py.

(** A [str] is a sequence of Unicode code points; [len] counts them. *)
Definition pystr : Type := list N.

(** ASCII text written as a Rocq string. *)
Definition py (s : string) : pystr :=
  List.map N_of_ascii (list_ascii_of_string s).

(** A [float] is given by its binary value.  The one thing the program
    observes that the value does not give directly is the text of
    [float.__repr__], which [json.dumps] writes for a finite float; that text
    travels with the value. *)
Record pyfloat : Type := mk_float {
  fl_val : spec_float;
  fl_repr : pystr
}.

(** The hashable values that occur, i.e. the possible dictionary keys. *)
Inductive atom : Type :=
| ANone
| ABool (b : bool)
| AInt (z : Z)
| AFloat (f : pyfloat)
| AStr (s : pystr).

(** [Any]: what [json.loads] builds, closed under the conversions the program
    performs.  A dictionary keeps its insertion order. *)
#[local] Unset Elimination Schemes.
Inductive any : Type :=
| VAtom (a : atom)
| VList (l : list any)
| VDict (d : list (atom * any)).
#[local] Set Elimination Schemes.

Definition dict : Type := list (atom * any).

Definition VNone : any := VAtom ANone.
Definition VBool (b : bool) : any := VAtom (ABool b).
Definition VInt (z : Z) : any := VAtom (AInt z).
Definition VStr (s : pystr) : any := VAtom (AStr s).

(** [len] as a Python integer. *)
Definition len {A : Type} (l : list A) : Z := Z.of_nat (List.length l).

(** *** Strings *)

Fixpoint str_eqb (s t : pystr) : bool :=
  match s, t with
  | [], [] => true
  | c :: s', d :: t' => N.eqb c d && str_eqb s' t'
  | _, _ => false
  end.

(** [t.startswith(p)] *)
Fixpoint startswith (p t : pystr) : bool :=
  match p, t with
  | [], _ => true
  | c :: p', d :: t' => N.eqb c d && startswith p' t'
  | _ :: _, [] => false
  end.

(** [sub in t] *)
Fixpoint contains (sub t : pystr) : bool :=
  startswith sub t ||
  match t with
  | [] => false
  | _ :: t' => contains sub t'
  end.

(** [t.replace(old, new)] for a non-empty [old] (every call site passes a
    non-empty literal): occurrences are found from the left and do not
    overlap.  [skip] counts the characters of a match still to be dropped. *)
Fixpoint replace_from (old new : pystr) (skip : nat) (t : pystr) : pystr :=
  match t with
  | [] => []
  | c :: t' =>
      match skip with
      | S k => replace_from old new k t'
      | O =>
          if startswith old t
          then new ++ replace_from old new (List.length old - 1)%nat t'
          else c :: replace_from old new O t'
      end
  end.

Definition replace (old new t : pystr) : pystr := replace_from old new O t.

(** [str.isspace] of one character: the code points CPython treats as white
    space. *)
Definition isspace (c : N) : bool :=
  ((9 <=? c) && (c <=? 13) || (28 <=? c) && (c <=? 32) || (c =? 133)
   || (c =? 160) || (c =? 5760) || (8192 <=? c) && (c <=? 8202)
   || (c =? 8232) || (c =? 8233) || (c =? 8239) || (c =? 8287)
   || (c =? 12288))%N.

Fixpoint lstrip (t : pystr) : pystr :=
  match t with
  | [] => []
  | c :: t' => if isspace c then lstrip t' else t
  end.

Definition rstrip (t : pystr) : pystr := rev (lstrip (rev t)).

Definition strip (t : pystr) : pystr := rstrip (lstrip t).

(** *** Slices *)

(** [l[:j]] *)
Definition slice_to {A : Type} (j : Z) (l : list A) : list A :=
  firstn (Z.to_nat (if j <? 0 then Z.max 0 (len l + j) else j)) l.

(** [l[i:]] *)
Definition slice_from {A : Type} (i : Z) (l : list A) : list A :=
  skipn (Z.to_nat (if i <? 0 then Z.max 0 (len l + i) else i)) l.

(** *** Truth value, as tested by [or], [if] and [not] *)

Definition float_is_zero (f : spec_float) : bool :=
  match f with
  | S754_zero _ => true
  | _ => false
  end.

Definition truthy (v : any) : bool :=
  match v with
  | VAtom ANone => false
  | VAtom (ABool b) => b
  | VAtom (AInt z) => negb (z =? 0)
  | VAtom (AFloat f) => negb (float_is_zero (fl_val f))
  | VAtom (AStr s) => match s with [] => false | _ => true end
  | VList l => match l with [] => false | _ => true end
  | VDict d => match d with [] => false | _ => true end
  end.

(** [x or y] *)
Definition py_or (x y : any) : any := if truthy x then x else y.

(** *** Dictionaries *)

(** The integer a float is equal to, if any. *)
Definition float_integral (f : spec_float) : option Z :=
  match f with
  | S754_zero _ => Some 0
  | S754_finite s m e =>
      let sign := if s then -1 else 1 in
      if 0 <=? e then Some (sign * (Z.pos m * 2 ^ e))
      else if Z.pos m mod 2 ^ (- e) =? 0
           then Some (sign * (Z.pos m / 2 ^ (- e)))
           else None
  | _ => None
  end.

(** [f == g] on floats: equality of the values, a NaN being equal to
    nothing. *)
Definition float_eqb (f g : spec_float) : bool :=
  match f, g with
  | S754_zero _, S754_zero _ => true
  | S754_infinity s, S754_infinity t => Bool.eqb s t
  | S754_finite s m e, S754_finite t n d =>
      Bool.eqb s t &&
      (Z.pos m * 2 ^ (e - Z.min e d) =? Z.pos n * 2 ^ (d - Z.min e d))
  | _, _ => false
  end.

(** Equality of keys is Python's [==]: numbers of different types are
    compared by value ([True == 1 == 1.0]). *)
Definition key_eqb (a b : atom) : bool :=
  match a, b with
  | ANone, ANone => true
  | AStr s, AStr t => str_eqb s t
  | ABool x, ABool y => Bool.eqb x y
  | ABool x, AInt z | AInt z, ABool x => Z.b2z x =? z
  | AInt x, AInt y => x =? y
  | ABool x, AFloat f | AFloat f, ABool x =>
      match float_integral (fl_val f) with
      | Some n => Z.b2z x =? n
      | None => false
      end
  | AInt z, AFloat f | AFloat f, AInt z =>
      match float_integral (fl_val f) with
      | Some n => z =? n
      | None => false
      end
  | AFloat f, AFloat g => float_eqb (fl_val f) (fl_val g)
  | _, _ => false
  end.

(** The value bound to [k], if there is one. *)
Fixpoint dict_get (k : atom) (d : dict) : option any :=
  match d with
  | [] => None
  | (k', v) :: d' => if key_eqb k k' then Some v else dict_get k d'
  end.

(** [d.get(k)]: [None] for a missing key. *)
Definition get (k : atom) (d : dict) : any :=
  match dict_get k d with
  | Some v => v
  | None => VNone
  end.

(** [d[k] = v]: an existing key keeps its place (and its key object), a new
    one goes last. *)
Fixpoint dict_set (k : atom) (v : any) (d : dict) : dict :=
  match d with
  | [] => [(k, v)]
  | (k', v') :: d' =>
      if key_eqb k k' then (k', v) :: d' else (k', v') :: dict_set k v d'
  end.

(** [d.setdefault(k, v)], for its effect on [d]. *)
Definition dict_setdefault (k : atom) (v : any) (d : dict) : dict :=
  match dict_get k d with
  | Some _ => d
  | None => dict_set k v d
  end.

Definition keys (d : dict) : list any :=
  List.map (fun kv => VAtom (fst kv)) d.

Definition chars (s : pystr) : list any :=
  List.map (fun c => VStr [c]) s.

(** *** Conversions *)

Local Open Scope result_scope.

(** [list(x)] *)
Definition py_list (x : any) : result (list any) :=
  match x with
  | VList l => Ok l
  | VDict d => Ok (keys d)
  | VAtom (AStr s) => Ok (chars s)
  | VAtom _ => Err TypeError
  end.

(** One element of the sequence given to [dict]: it must itself be a
    sequence, of length two. *)
Definition pair_of (item : any) : result (any * any) :=
  fast <- match item with
          | VAtom (AStr s) => Ok (chars s)
          | VList l => Ok l
          | VDict d => Ok (keys d)
          | VAtom _ => Err TypeError
          end ;;
  match fast with
  | [k; v] => Ok (k, v)
  | _ => Err ValueError
  end.

Definition hashable (k : any) : result atom :=
  match k with
  | VAtom a => Ok a
  | _ => Err TypeError
  end.

Fixpoint merge_pairs (items : list any) (d : dict) : result dict :=
  match items with
  | [] => Ok d
  | item :: rest =>
      '(k, v) <- pair_of item ;;
      a <- hashable k ;;
      merge_pairs rest (dict_set a v d)
  end.

(** [dict(x)]: a copy of a dictionary; any other iterable is read as a
    sequence of key/value pairs. *)
Definition py_dict (x : any) : result dict :=
  match x with
  | VDict d => Ok d
  | VList l => merge_pairs l []
  | VAtom (AStr s) => merge_pairs (chars s) []
  | VAtom _ => Err TypeError
  end.

(** [int] reads the decimal digits of every script.  They come in runs of
    ten consecutive characters, the digits 0 to 9; the list gives the zero
    of each run (the characters of decimal value 0 in Unicode 14.0, the
    version CPython 3.11 carries), in increasing order. *)
Definition decimal_zeros : list N :=
  [48; 1632; 1776; 1984; 2406; 2534; 2662; 2790; 2918; 3046; 3174; 3302;
   3430; 3558; 3664; 3792; 3872; 4160; 4240; 6112; 6160; 6470; 6608; 6784;
   6800; 6992; 7088; 7232; 7248; 42528; 43216; 43264; 43472; 43504; 43600;
   44016; 65296; 66720; 68912; 69734; 69872; 69942; 70096; 70384; 70736;
   70864; 71248; 71360; 71472; 71904; 72016; 72784; 73040; 73120; 92768;
   92864; 93008; 120782; 120792; 120802; 120812; 120822; 123200; 123632;
   125264; 130032]%N.

Definition digit_of (c : N) : option Z :=
  match List.find (fun zero => (zero <=? c) && (c <=? zero + 9))%N
                  decimal_zeros with
  | Some zero => Some (Z.of_N (c - zero))
  | None => None
  end.

Definition is_digit (c : N) : bool :=
  match digit_of c with
  | Some _ => true
  | None => false
  end.

(** Digits with single underscores between them. *)
Fixpoint parse_digits (s : pystr) (acc : Z) (after_digit : bool) : option Z :=
  match s with
  | [] => if after_digit then Some acc else None
  | c :: rest =>
      match digit_of c with
      | Some d => parse_digits rest (10 * acc + d) true
      | None =>
          if (c =? 95)%N && after_digit
          then match rest with
               | [] => None
               | _ :: _ => parse_digits rest acc false
               end
          else None
      end
  end.

(** The white space [int] skips around a number: that of C's [isspace] in
    ASCII and, beyond ASCII, that of [str.isspace] ([int] first rewrites
    such a character to a space).  The separators U+001C to U+001F, which
    [str.strip] removes, are not white space here. *)
Definition int_space (c : N) : bool :=
  ((9 <=? c) && (c <=? 13) || (c =? 32) || (127 <=? c) && isspace c)%N.

Fixpoint skip_spaces (t : pystr) : pystr :=
  match t with
  | [] => []
  | c :: t' => if int_space c then skip_spaces t' else t
  end.

(** [sys.int_info.default_max_str_digits]: the conversions between [int] and
    [str] raise [ValueError] past this number of digits. *)
Definition MAX_STR_DIGITS : Z := 4300.

(** [int(s)] for a string, in base ten: white space, a sign, digits, white
    space.  Anything else in the string, a missing digit, a misplaced
    underscore or more than [MAX_STR_DIGITS] digits raise [ValueError]. *)
Definition int_of_str (s : pystr) : result Z :=
  let body := rev (skip_spaces (rev (skip_spaces s))) in
  let '(negative, digits) :=
    match body with
    | 43%N :: digits => (false, digits)
    | 45%N :: digits => (true, digits)
    | _ => (false, body)
    end in
  match parse_digits digits 0 false with
  | Some z =>
      if len (List.filter is_digit digits) >? MAX_STR_DIGITS
      then Err ValueError
      else Ok (if negative then - z else z)
  | None => Err ValueError
  end.

(** [int(f)] for a float: truncation towards zero. *)
Definition int_of_float (f : spec_float) : result Z :=
  match f with
  | S754_zero _ => Ok 0
  | S754_infinity _ => Err OverflowError
  | S754_nan => Err ValueError
  | S754_finite s m e =>
      let magnitude :=
        if 0 <=? e then Z.pos m * 2 ^ e else Z.pos m / 2 ^ (- e) in
      Ok (if s then - magnitude else magnitude)
  end.

(** [int(x)] *)
Definition py_int (x : any) : result Z :=
  match x with
  | VAtom (AInt z) => Ok z
  | VAtom (ABool b) => Ok (Z.b2z b)
  | VAtom (AFloat f) => int_of_float (fl_val f)
  | VAtom (AStr s) => int_of_str s
  | VAtom ANone | VList _ | VDict _ => Err TypeError
  end.

(** *** [json.dumps(x, ensure_ascii=False)] *)

(** [str(z)] *)
Definition str_of_int (z : Z) : pystr :=
  py (NilZero.string_of_int (Z.to_int z)).

Definition hex_digit (n : N) : N :=
  (if n <? 10 then 48 + n else 87 + n)%N.

(** One character inside a JSON string: the quote, the backslash and the
    control characters are escaped, everything else is written as it is. *)
Definition escape_char (c : N) : pystr :=
  (if c =? 34 then [92; 34]
   else if c =? 92 then [92; 92]
   else if c =? 10 then [92; 110]
   else if c =? 13 then [92; 114]
   else if c =? 9 then [92; 116]
   else if c =? 8 then [92; 98]
   else if c =? 12 then [92; 102]
   else if c <? 32 then [92; 117; 48; 48; hex_digit (c / 16); hex_digit (c mod 16)]
   else [c])%N.

Definition encode_str (s : pystr) : pystr :=
  34%N :: List.flat_map escape_char s ++ [34%N].

Definition float_text (f : pyfloat) : pystr :=
  match fl_val f with
  | S754_nan => py "NaN"
  | S754_infinity false => py "Infinity"
  | S754_infinity true => py "-Infinity"
  | _ => fl_repr f
  end.

Definition dumps_atom (a : atom) : pystr :=
  match a with
  | ANone => py "null"
  | ABool true => py "true"
  | ABool false => py "false"
  | AInt z => str_of_int z
  | AFloat f => float_text f
  | AStr s => encode_str s
  end.

(** A key is written as a string, whatever its type. *)
Definition dumps_key (a : atom) : pystr :=
  match a with
  | AStr s => encode_str s
  | _ => 34%N :: dumps_atom a ++ [34%N]
  end.

(** [sep.join(parts)] *)
Fixpoint join (sep : pystr) (parts : list pystr) : pystr :=
  match parts with
  | [] => []
  | [p] => p
  | p :: rest => p ++ sep ++ join sep rest
  end.

(** The default separators are [", "] and [": "].  This is the text
    [json.dumps] returns when it returns; [dumps_raises] below tells when it
    does not. *)
Fixpoint dumps (x : any) : pystr :=
  match x with
  | VAtom a => dumps_atom a
  | VList l => py "[" ++ join (py ", ") (List.map dumps l) ++ py "]"
  | VDict d =>
      py "{" ++
      join (py ", ")
        (List.map (fun kv => let '(k, v) := kv in
                             dumps_key k ++ py ": " ++ dumps v) d) ++
      py "}"
  end.

(** An integer is written with [int.__repr__], which raises [ValueError]
    when the number has more than [MAX_STR_DIGITS] digits, the sign not
    counted. *)
Definition int_too_long (z : Z) : bool :=
  len (str_of_int (Z.abs z)) >? MAX_STR_DIGITS.

Definition unwritable (a : atom) : bool :=
  match a with
  | AInt z => int_too_long z
  | _ => false
  end.

(** Whether [json.dumps] raises.  The values of [any] hold no foreign
    object and no cycle, every key is of a type [json.dumps] accepts and
    [allow_nan] is left on, so what remains is an integer too long to be
    written, as a value or as a key.  (Documents are taken to nest less
    deeply than the interpreter's recursion limit allows.) *)
Fixpoint dumps_raises (x : any) : bool :=
  match x with
  | VAtom a => unwritable a
  | VList l => List.existsb dumps_raises l
  | VDict d =>
      List.existsb (fun kv => let '(k, v) := kv in
                              unwritable k || dumps_raises v) d
  end.

(** [json.dumps(x, ensure_ascii=False)] *)
Definition try_dumps (x : any) : result pystr :=
  if dumps_raises x then Err ValueError else Ok (dumps x).

(** The length of the UTF-8 encoding of a text, in bytes (a lone surrogate
    counted as the three bytes it would take). *)
Definition utf8_width (c : N) : Z :=
  if (c <? 128)%N then 1
  else if (c <? 2048)%N then 2
  else if (c <? 65536)%N then 3
  else 4.

Definition utf8_len (t : pystr) : Z :=
  fold_right (fun c n => utf8_width c + n) 0 t.

End Py.

(** ** The world outside the process

    The program talks to three things: the Supabase table that holds the
    document, the clock, and the chat-completion endpoint.  Their state is
    threaded through the operations that use them; an exception leaves the
    effects that happened before it in place. *)

Module Env.
Import Py.

(** What lines 101-105 of [llm.py] see of the backend's answer: the
    [content] of the first choice, read by [json.loads].  The parser belongs
    to the Python library and is taken by its outcome. *)
Inductive completion : Type :=
| NoContent                (* [content] is [None] or empty: ["{}"] is parsed *)
| BadJson                  (* [json.loads(content)] raises *)
| Json (parsed : any).     (* [json.loads(content)] returns [parsed] *)

(** The columns of the row besides its [id]. *)
Record row : Type := mk_row {
  world_state : any;
  last_updated : pystr
}.

Record world : Type := mk_world {
  (* [SUPABASE_URL] and [SUPABASE_SERVICE_KEY] are both set *)
  supabase_configured : bool;
  (* the row of table [kingdom] whose [id] is [ROW_ID] *)
  kingdom : option row;
  (* the successive readings of the clock, and how many were taken *)
  clock : nat -> pystr;
  ticks : nat;
  (* the backend's answer to a user payload, and the payloads sent so far *)
  llm : any -> completion;
  llm_requests : list any
}.

Definition M (A : Type) : Type := world -> result A * world.

Definition ret {A : Type} (a : A) : M A := fun w => (Ok a, w).

Definition raise {A : Type} (e : exn) : M A := fun w => (Err e, w).

Definition lift {A : Type} (r : result A) : M A := fun w => (r, w).

Definition mbind {A B : Type} (c : M A) (k : A -> M B) : M B :=
  fun w =>
    match c w with
    | (Ok a, w') => k a w'
    | (Err e, w') => (Err e, w')
    end.

Declare Scope io_scope.
Delimit Scope io_scope with io.
Notation "x <- c ;; k" := (mbind c (fun x => k))
  (at level 61, c at next level, right associativity) : io_scope.
Notation "' pat <- c ;; k" := (mbind c (fun x => match x with pat => k end))
  (at level 61, pat pattern, c at next level, right associativity) : io_scope.
Notation "c ;; k" := (mbind c (fun _ => k))
  (at level 61, right associativity) : io_scope.

End Env.

(** ** [src/db.py] *)

Module Db.
Import Py Env.

Definition MAX_JSON_BYTES : Z := 200000.
Definition MAX_EVENTS : Z := 200.
Definition KEEP_EVENTS : Z := 100.

Definition k_events_log : atom := AStr (py "events_log").
Definition k_events_log_compacted : atom := AStr (py "events_log_compacted").
Definition k_context : atom := AStr (py "context").

Section Compaction.
Local Open Scope result_scope.

(** Lines 41-48: [events] is a list copy of the log; past [MAX_EVENTS] only
    its last [KEEP_EVENTS] entries are kept and the counter grows by the
    number removed.  Returns [ws] and [events]. *)
Definition trim_events (ws : dict) : result (dict * list any) :=
  events <- py_list (py_or (get k_events_log ws) (VList [])) ;;
  if len events >? MAX_EVENTS then
    let removed := len events - KEEP_EVENTS in
    let events := slice_from (- KEEP_EVENTS) events in
    let ws := dict_set k_events_log (VList events) ws in
    prev <- py_int (py_or (get k_events_log_compacted ws) (VInt 0)) ;;
    let ws := dict_set k_events_log_compacted (VInt (prev + removed)) ws in
    Ok (ws, events)
  else Ok (ws, events).

(** Lines 53-55, the body of the loop over [["weather", "news"]]. *)
Definition clamp_key (ctx : dict) (key : pystr) : dict :=
  match get (AStr key) ctx with
  | VAtom (AStr val) =>
      if len val >? 300
      then dict_set (AStr key) (VStr (slice_to 300 val)) ctx
      else ctx
  | _ => ctx
  end.

(** Lines 52-55, the loop. *)
Definition clamp_all (ctx : dict) : dict :=
  fold_left clamp_key [py "weather"; py "news"] ctx.

(** Lines 51-56 *)
Definition clamp_context (ws : dict) : result dict :=
  ctx <- py_dict (py_or (get k_context ws) (VDict [])) ;;
  let ctx := clamp_all ctx in
  Ok (dict_set k_context (VDict ctx) ws).

(** Lines 63-70, entered when the size is over the limit. *)
Definition aggressive_trim (ws : dict) (events : list any) : result dict :=
  if truthy (VList events) then
    let keep := slice_from (-25) events in
    let extra_removed := len events - len keep in
    let ws := dict_set k_events_log (VList keep) ws in
    prev <- py_int (py_or (get k_events_log_compacted ws) (VInt 0)) ;;
    Ok (dict_set k_events_log_compacted (VInt (prev + Z.max 0 extra_removed)) ws)
  else Ok ws.

(** The state after the first two stages, with the local [events]. *)
Definition stage2 (state : dict) : result (dict * list any) :=
  '(ws, events) <- trim_events state ;;
  ws <- clamp_context ws ;;
  Ok (ws, events).

(** [compact_world_state].  [ws = dict(state)] is a shallow copy and every
    later update rebinds a key of that copy, so the caller's dictionary is
    not touched and the function is a function of the value of [state].
    Lines 58-61: when [json.dumps] raises, the state of the first two stages
    is returned as it is. *)
Definition compact_world_state (state : dict) : result dict :=
  '(ws, events) <- stage2 state ;;
  match try_dumps (VDict ws) with
  | Err _ => Ok ws
  | Ok text =>
      let size := len text in
      if size >? MAX_JSON_BYTES then aggressive_trim ws events else Ok ws
  end.

End Compaction.

(** The size line 59 measures when [json.dumps] returns: the number of
    characters of the text. *)
Definition json_size (ws : dict) : Z := len (dumps (VDict ws)).

(** The size of the same text in bytes, which is what the name of
    [MAX_JSON_BYTES] and its comment ([~200KB]) speak of. *)
Definition json_bytes (ws : dict) : Z := utf8_len (dumps (VDict ws)).

(** The log and the counter as [compact_world_state] reads them (lines 41,
    47 and 69): the statements below measure a state by these readings. *)
Definition events_of (ws : dict) : result (list any) :=
  py_list (py_or (get k_events_log ws) (VList [])).

Definition compacted_of (ws : dict) : result Z :=
  py_int (py_or (get k_events_log_compacted ws) (VInt 0)).

(** A context string is short when it has at most 300 characters. *)
Definition short (key : pystr) (ctx : dict) : Prop :=
  forall val, get (AStr key) ctx = VStr val -> len val <= 300.

Local Open Scope io_scope.

(** [_get_supabase]: the client, or [RuntimeError] without the settings. *)
Definition _get_supabase : M unit :=
  fun w => if supabase_configured w then (Ok tt, w) else (Err RuntimeError, w).

(** [_utc_now_iso]: the next reading of the clock. *)
Definition _utc_now_iso : M pystr :=
  fun w =>
    (Ok (clock w (ticks w)),
     mk_world (supabase_configured w) (kingdom w) (clock w) (S (ticks w))
              (llm w) (llm_requests w)).

(** [sb.table(TABLE).upsert({"id": ROW_ID, ...}).execute()], for a store
    that answers: the row is replaced.  A failure of the client library or
    of the service is not part of the model, here and in [_get_supabase]
    ([create_client]); what is stated below of a save or a load that returns
    is stated of the runs in which the store answered. *)
Definition upsert (r : row) : M unit :=
  fun w =>
    (Ok tt,
     mk_world (supabase_configured w) (Some r) (clock w) (ticks w)
              (llm w) (llm_requests w)).

Definition save_world_state (updated_world_state : dict) : M pystr :=
  _get_supabase ;;
  now <- _utc_now_iso ;;
  compacted <- lift (compact_world_state updated_world_state) ;;
  upsert (mk_row (VDict compacted) now) ;;
  ret now.

End Db.

(** ** [src/llm.py] *)

Module Llm.
Import Py Env.

(** ["•"], ["- "], ["– "], ["— "] *)
Definition bullets : list pystr :=
  [[8226%N]; py "- "; [8211%N; 32%N]; [8212%N; 32%N]].

(** Lines 26-27, [while "  " in t: t = t.replace("  ", " ")].  Every turn of
    the loop shortens [t], so [len(t)] turns are enough to leave it
    ([collapse_spaces_exits] below). *)
Fixpoint collapse_loop (fuel : nat) (t : pystr) : pystr :=
  match fuel with
  | O => t
  | S fuel' =>
      if contains (py "  ") t
      then collapse_loop fuel' (replace (py "  ") (py " ") t)
      else t
  end.

Definition collapse_spaces (t : pystr) : pystr :=
  collapse_loop (List.length t) t.

Definition _normalize_summary (text : any) (max_len : Z) : pystr :=
  match text with
  | VAtom (AStr text) =>
      let t := replace [13%N] (py " ") (replace [10%N] (py " ") text) in
      let t := fold_left (fun t b => replace b [] t) bullets t in
      let t := collapse_spaces t in
      let t := strip t in
      if len t >? max_len
      then rstrip (slice_to (max_len - 1) t) ++ [8230%N]
      else t
  | _ => []
  end.

Definition k (s : string) : atom := AStr (py s).

(** Lines 79-89 *)
Definition user_payload (intent : any) (current_world_state : dict) : any :=
  VDict
    [(k "intent", intent);
     (k "current_world_state", VDict current_world_state);
     (k "requirements",
      VDict
        [(k "response_shape",
          VDict
            [(k "updated_world_state", VStr (py "object"));
             (k "summary", VStr (py "string"));
             (k "metadata", VDict [(k "changed", VStr (py "boolean"))])])])].

(** Lines 91-101: the request goes out and the answer comes back.  The
    system prompt, the model and the temperature are the same at every call,
    so the answer is a function of the user payload.  The client is taken to
    exist, the payload to be written by [json.dumps] and the endpoint to
    answer with a first choice: a failure of [OpenAI()], of the call or of
    [choices[0]] is not part of the model, and what is stated below of a
    reply is stated of the runs in which one came back. *)
Definition chat_completions_create (payload : any) : M completion :=
  fun w =>
    (Ok (llm w payload),
     mk_world (supabase_configured w) (kingdom w) (clock w) (ticks w)
              (llm w) (llm_requests w ++ [payload])).

(** [parsed.get(key)]: only a dictionary has the method. *)
Definition parsed_get (key : atom) (parsed : any) : result any :=
  match parsed with
  | VDict d => Ok (get key d)
  | _ => Err AttributeError
  end.

(** [isinstance(summary, str) and summary] *)
Definition nonempty_str (v : any) : bool :=
  match v with
  | VAtom (AStr (_ :: _)) => true
  | _ => false
  end.

Definition PARSE_FAILED : pystr :=
  py "An update occurred, but I couldn't parse details.".
Definition NO_CHANGES : pystr := py "No changes were applied.".
Definition NOTHING_NOTEWORTHY : pystr :=
  py "The kingdom stirs, but nothing noteworthy happened.".

(** Lines 107-116: the state and the summary that are chosen, the summary
    not yet normalised. *)
Definition choose (parsed : any) (current_world_state : dict)
  : result (dict * any) :=
  (updated_world_state <- parsed_get (k "updated_world_state") parsed ;;
   summary <- parsed_get (k "summary") parsed ;;
   let '(updated_world_state, summary) :=
     match updated_world_state with
     | VDict d => (d, summary)
     | _ =>
         (current_world_state,
          if nonempty_str summary then summary else VStr NO_CHANGES)
     end in
   let summary :=
     if nonempty_str summary then summary else VStr NOTHING_NOTEWORTHY in
   Ok (updated_world_state, summary))%result.

(** Lines 101-120 *)
Definition read_completion (c : completion) (current_world_state : dict)
  : result (dict * pystr) :=
  match c with
  | BadJson => Ok (current_world_state, PARSE_FAILED)
  | NoContent =>
      ('(updated_world_state, summary) <- choose (VDict []) current_world_state ;;
       Ok (updated_world_state, _normalize_summary summary 220))%result
  | Json parsed =>
      ('(updated_world_state, summary) <- choose parsed current_world_state ;;
       Ok (updated_world_state, _normalize_summary summary 220))%result
  end.

Definition llm_transform_world_state (intent : any) (current_world_state : dict)
  : M (dict * pystr) :=
  (c <- chat_completions_create (user_payload intent current_world_state) ;;
   lift (read_completion c current_world_state))%io.

End Llm.

(** ** [src/server.py]: [create_kingdom] *)

Module Server.
Import Py Env.

(** The fields of the answer that depend on the run.  The others
    ([backstory], [starting_point], [playbook], [system_prompt]) present
    [updated_state] and constants to the caller and change nothing. *)
Record reply : Type := mk_reply {
  summary : pystr;
  last_updated : pystr
}.

(** Lines 187-189 *)
Definition init_intent (kingdom_name : pystr) (theme : option pystr) : dict :=
  let intent :=
    [(Llm.k "type", VStr (py "init")); (Llm.k "kingdom_name", VStr kingdom_name)] in
  match theme with
  | Some (c :: th) => dict_set (Llm.k "theme") (VStr (c :: th)) intent
  | _ => intent
  end.

(** [llm_transform] returns a dictionary on every path, so the two
    [isinstance(updated_state, dict)] tests of lines 193 and 196 hold. *)
Definition create_kingdom (kingdom_name : pystr) (theme : option pystr)
  : M reply :=
  ('(updated_state, summary) <-
     Llm.llm_transform_world_state (VDict (init_intent kingdom_name theme)) [] ;;
   let updated_state :=
     dict_setdefault (Llm.k "kingdom_name") (VStr kingdom_name) updated_state in
   last_updated <- Db.save_world_state updated_state ;;
   ret (mk_reply summary last_updated))%io.

(** The same world with another row stored. *)
Definition with_row (r : option row) (w : world) : world :=
  mk_world (supabase_configured w) r (clock w) (ticks w) (llm w)
           (llm_requests w).

End Server.

(** ** Sample documents *)

Module Samples.
Import Py Env.

(** A log entry [{type, description, at}], numbered to tell entries apart. *)
Definition event (i : nat) : any :=
  VDict
    [(Llm.k "type", VStr (py "note"));
     (Llm.k "description", VStr (py "entry " ++ str_of_int (Z.of_nat i)));
     (Llm.k "at", VStr (py "2025-01-01T00:00:00+00:00"))].

(** [count] entries, from number [first] on. *)
Definition events (first count : nat) : list any :=
  List.map event (seq first count).

Definition with_events (count : nat) : dict :=
  [(Llm.k "kingdom_name", VStr (py "Verdant Vale"));
   (Llm.k "day", VInt 3);
   (Db.k_events_log, VList (events 0 count))].

(** 201 entries next to a backstory of 200,001 characters. *)
Definition oversized : dict :=
  [(Llm.k "backstory", VStr (repeat 120%N (Z.to_nat 200001)));
   (Db.k_events_log, VList (events 0 201))].

(** The same document with an integer of 4301 digits in it, which
    [json.dumps] cannot write. *)
Definition unwritable : dict :=
  oversized ++ [(Llm.k "gold", VInt (10 ^ 4300))].

(** Three entries and a counter of 2.5 next to the same backstory. *)
Definition two_and_a_half : pyfloat :=
  mk_float (S754_finite false 5 (-1)) (py "2.5").

Definition half_counted : dict :=
  [(Llm.k "backstory", VStr (repeat 120%N (Z.to_nat 200001)));
   (Db.k_events_log, VList (events 0 3));
   (Db.k_events_log_compacted, VAtom (AFloat two_and_a_half))].

(** A weather report of 500 characters. *)
Definition long_weather : pystr := repeat 119%N 300 ++ repeat 120%N 200.

Definition with_weather : dict :=
  [(Llm.k "day", VInt 3);
   (Db.k_context, VDict [(Llm.k "weather", VStr long_weather)])].

(** The same context next to a log that is a number. *)
Definition with_number_log : dict :=
  [(Db.k_events_log, VInt 7);
   (Db.k_context, VDict [(Llm.k "weather", VStr long_weather)])].


(** A reply that brings a state with a name of its own. *)
Definition renaming_reply : any :=
  VDict
    [(Llm.k "updated_world_state",
      VDict [(Llm.k "kingdom_name", VStr (py "Sunspire")); (Llm.k "day", VInt 1)]);
     (Llm.k "summary", VStr (py "A realm is born."))].

Definition some_world (answer : completion) : world :=
  mk_world true None (fun n => py "2025-01-01T00:00:0" ++ str_of_int (Z.of_nat n))
           0 (fun _ => answer) [].

End Samples.

(** ** [src/db.py]: [load_world_state] *)

Module Store.
Import Py Env Db.
Local Open Scope io_scope.

(** The two columns asked for in line 77, as the response carries them. *)
Definition row_data (r : row) : any :=
  VDict [(Llm.k "world_state", world_state r);
         (Llm.k "last_updated", VStr (last_updated r))].

Section Select.

(** What the query of line 77 comes to when no row has the id [ROW_ID].
    That is the client library's affair ([single().execute()] may raise, or
    answer without data) and is left open: an exception, or the [data] of
    the response. *)
Variable no_row : result any.

(** [getattr(res, "data", None)] for the response to the query of line 77. *)
Definition select_single : M any :=
  fun w =>
    match kingdom w with
    | Some r => (Ok (row_data r), w)
    | None => (no_row, w)
    end.

(** [load_world_state]: the state and the time stamp of the row; with no
    data, the row is written with an empty state first (lines 82-89). *)
Definition load_world_state : M (dict * any) :=
  _get_supabase ;;
  res_data <- select_single ;;
  let data := py_or res_data (VDict []) in
  field <- lift (Llm.parsed_get (Llm.k "world_state") data) ;;
  let ws := match field with VDict d => d | _ => [] end in
  last_updated <- lift (Llm.parsed_get (Llm.k "last_updated") data) ;;
  if truthy data then ret (ws, last_updated)
  else
    now <- _utc_now_iso ;;
    upsert (mk_row (VDict []) now) ;;
    ret ([], VStr now).

End Select.

End Store.

(** ** [src/server.py]: the tools that go through the store *)

Module Tools.
Import Py Env Db Llm Store.
Local Open Scope io_scope.

(** [params or {}] for an optional dictionary. *)
Definition or_empty (params : option dict) : dict :=
  match params with
  | Some d => d
  | None => []
  end.

(** [{"ok": True, "summary": summary, "last_updated": last_updated}] *)
Definition summary_answer (summary last_updated : pystr) : any :=
  VDict [(k "ok", VBool true); (k "summary", VStr summary);
         (k "last_updated", VStr last_updated)].

Definition action_intent (action : pystr) (params : option dict) : any :=
  VDict [(k "type", VStr (py "action")); (k "name", VStr action);
         (k "params", VDict (or_empty params))].

Definition query_intent (question : pystr) : any :=
  VDict [(k "type", VStr (py "query")); (k "question", VStr question)].

Definition cheat_intent (name : pystr) (params : option dict) : any :=
  VDict [(k "type", VStr (py "cheat")); (k "name", VStr name);
         (k "params", VDict (or_empty params))].

(** Lines 302-309: the location as [set_realm_location] builds it. *)
Definition build_location (reference_city : option pystr)
  (lat lon : option pyfloat) (climate_theme : option pystr) : dict :=
  let location := [] in
  let location :=
    match reference_city with
    | Some (c :: city) => dict_set (k "city") (VStr (c :: city)) location
    | _ => location
    end in
  let location :=
    match lat, lon with
    | Some lat, Some lon =>
        dict_set (k "lon") (VAtom (AFloat lon))
          (dict_set (k "lat") (VAtom (AFloat lat)) location)
    | _, _ => location
    end in
  match climate_theme with
  | Some (c :: theme) => dict_set (k "climate_theme") (VStr (c :: theme)) location
  | _ => location
  end.

(** Lines 288-291 and 355-358: [ws] with [ctx[key] = value] in a copy of its
    context. *)
Definition with_context_key (key : pystr) (value : any) (world_state : dict)
  : result dict :=
  (ctx <- py_dict (py_or (get k_context world_state) (VDict [])) ;;
   Ok (dict_set k_context (VDict (dict_set (AStr key) value ctx)) world_state))%result.

Section Tools.

Variable no_row : result any.

(** The context providers of [integrations.py], taken by what they return:
    a string or [None]. *)
Variable fetch_weather_summary : pystr -> option pystr.
Variable fetch_trending_news_summary : option pystr.

Definition _perform_kingdom_action (action : pystr) (params : option dict)
  : M any :=
  '(world_state, _) <- load_world_state no_row ;;
  '(updated_state, summary) <-
     llm_transform_world_state (action_intent action params) world_state ;;
  last_updated <- save_world_state updated_state ;;
  ret (summary_answer summary last_updated).

Definition _perform_kingdom_query (question : pystr) : M any :=
  '(world_state, _) <- load_world_state no_row ;;
  '(updated_state, summary) <-
     llm_transform_world_state (query_intent question) world_state ;;
  last_updated <- save_world_state updated_state ;;
  ret (summary_answer summary last_updated).

Definition apply_cheat (name : pystr) (params : option dict) : M any :=
  '(world_state, _) <- load_world_state no_row ;;
  '(updated_state, summary) <-
     llm_transform_world_state (cheat_intent name params) world_state ;;
  last_updated <- save_world_state updated_state ;;
  ret (summary_answer summary last_updated).

Definition kingdom_action (action : pystr) (params : option dict) : M any :=
  _perform_kingdom_action action params.

Definition kingdom_query (question : pystr) : M any :=
  _perform_kingdom_query question.

Definition advance_day : M any := _perform_kingdom_action (py "advance_day") (Some []).

Definition daily_tick : M any := _perform_kingdom_action (py "daily_tick") (Some []).

Definition get_world_state : M any :=
  '(world_state, last_updated) <- load_world_state no_row ;;
  ret (VDict [(k "ok", VBool true); (k "world_state", VDict world_state);
              (k "last_updated", last_updated)]).

Definition set_realm_location (reference_city : option pystr)
  (lat lon : option pyfloat) (climate_theme : option pystr) : M any :=
  '(world_state, _) <- load_world_state no_row ;;
  let location := build_location reference_city lat lon climate_theme in
  ws <- lift (with_context_key (py "location") (VDict location) world_state) ;;
  last_updated <- save_world_state ws ;;
  ret (VDict [(k "ok", VBool true); (k "location", VDict location);
              (k "last_updated", VStr last_updated)]).

Definition update_weather_context (city : pystr) : M any :=
  '(world_state, _) <- load_world_state no_row ;;
  match fetch_weather_summary city with
  | Some (c :: text) =>
      let summary := c :: text in
      ws <- lift (with_context_key (py "weather") (VStr summary) world_state) ;;
      last_updated <- save_world_state ws ;;
      ret (VDict [(k "ok", VBool true); (k "weather", VStr summary);
                  (k "last_updated", VStr last_updated)])
  | _ =>
      ret (VDict [(k "ok", VBool false);
                  (k "message", VStr (py "Could not fetch weather"))])
  end.

Definition update_news_context : M any :=
  '(world_state, _) <- load_world_state no_row ;;
  match fetch_trending_news_summary with
  | Some (c :: text) =>
      let blurb := c :: text in
      ws <- lift (with_context_key (py "news") (VStr blurb) world_state) ;;
      last_updated <- save_world_state ws ;;
      ret (VDict [(k "ok", VBool true); (k "news", VStr blurb);
                  (k "last_updated", VStr last_updated)])
  | _ =>
      ret (VDict [(k "ok", VBool false);
                  (k "message", VStr (py "Could not fetch news"))])
  end.

End Tools.

(** The three tools that pass an intent to the mediator. *)
Inductive mediated_tool : Type :=
| Action (action : pystr) (params : option dict)
| Query (question : pystr)
| Cheat (name : pystr) (params : option dict).

Definition tool_intent (t : mediated_tool) : any :=
  match t with
  | Action action params => action_intent action params
  | Query question => query_intent question
  | Cheat name params => cheat_intent name params
  end.

Definition run_tool (no_row : result any) (t : mediated_tool) : M any :=
  match t with
  | Action action params => _perform_kingdom_action no_row action params
  | Query question => _perform_kingdom_query no_row question
  | Cheat name params => apply_cheat no_row name params
  end.

End Tools.

(** ** [src/integrations.py]: [fetch_media_url], and [find_media_url] *)

Module Media.
Import Py.

(** Subscripting adds two classes of exception to those met so far. *)
Inductive error : Type :=
| Exn (e : exn)
| KeyError
| IndexError.

Inductive outcome (A : Type) : Type :=
| Return (a : A)
| Raise (e : error).

Arguments Return {A} a.
Arguments Raise {A} e.

Definition obind {A B : Type} (o : outcome A) (f : A -> outcome B) : outcome B :=
  match o with
  | Return a => f a
  | Raise e => Raise e
  end.

Declare Scope outcome_scope.
Delimit Scope outcome_scope with outcome.
Notation "x <- o ;; f" := (obind o (fun x => f))
  (at level 61, o at next level, right associativity) : outcome_scope.

Local Open Scope outcome_scope.

(** [x.get(key)] *)
Definition dot_get (key : string) (x : any) : outcome any :=
  match x with
  | VDict d => Return (get (Llm.k key) d)
  | _ => Raise (Exn AttributeError)
  end.

(** [x[0]] *)
Definition first (x : any) : outcome any :=
  match x with
  | VList (a :: _) => Return a
  | VList [] => Raise IndexError
  | VAtom (AStr (c :: _)) => Return (VStr [c])
  | VAtom (AStr []) => Raise IndexError
  | VDict d =>
      match dict_get (AInt 0) d with
      | Some v => Return v
      | None => Raise KeyError
      end
  | VAtom _ => Raise (Exn TypeError)
  end.

(** What the code reads of a response: its status, and the value of
    [res.json()], absent when the body is not JSON ([json()] then raises a
    [ValueError]).  The endpoints are taken to answer. *)
Record response : Type := mk_response {
  status_code : Z;
  body : option any
}.

(** [res.json() or {}] *)
Definition json_or_empty (res : response) : outcome any :=
  match body res with
  | Some v => Return (py_or v (VDict []))
  | None => Raise (Exn ValueError)
  end.

(** Lines 149-152: the first of the renditions that has a true [url]. *)
Fixpoint giphy_url (images : any) (renditions : list string)
  : outcome (option any) :=
  match renditions with
  | [] => Return None
  | key :: rest =>
      rendition <- dot_get key images ;;
      url <- dot_get "url" (py_or rendition (VDict [])) ;;
      if truthy url then Return (Some url) else giphy_url images rest
  end.

(** Lines 141-152 *)
Definition from_giphy (res : response) : outcome (option any) :=
  if status_code res =? 200 then
    data <- json_or_empty res ;;
    items <- dot_get "data" data ;;
    let items := py_or items (VList []) in
    if truthy items then
      gif <- first items ;;
      images <- dot_get "images" gif ;;
      giphy_url (py_or images (VDict []))
        ["downsized_medium"; "downsized"; "original"]%string
    else Return None
  else Return None.

(** Lines 166-169: the first of the fields that is a string starting with
    ["http"]. *)
Fixpoint openverse_url (item : any) (fields : list string)
  : outcome (option any) :=
  match fields with
  | [] => Return None
  | key :: rest =>
      val <- dot_get key item ;;
      match val with
      | VAtom (AStr text) =>
          if startswith (py "http") text then Return (Some val)
          else openverse_url item rest
      | _ => openverse_url item rest
      end
  end.

(** Lines 160-169 *)
Definition from_openverse (res : response) : outcome (option any) :=
  if status_code res =? 200 then
    o <- json_or_empty res ;;
    results <- dot_get "results" o ;;
    let results := py_or results (VList []) in
    if truthy results then
      item <- first results ;;
      openverse_url item ["url"; "thumbnail"]%string
    else Return None
  else Return None.

(** Lines 190-193: the first page with image information decides. *)
Fixpoint commons_url (pages : dict) : outcome (option any) :=
  match pages with
  | [] => Return None
  | (_, page) :: rest =>
      info <- dot_get "imageinfo" page ;;
      let info := py_or info (VList []) in
      if truthy info then
        head <- first info ;;
        thumburl <- dot_get "thumburl" head ;;
        if truthy thumburl then Return (Some thumburl)
        else
          head <- first info ;;
          url <- dot_get "url" head ;;
          Return (Some url)
      else commons_url rest
  end.

(** [pages.items()] *)
Definition items (pages : any) : outcome dict :=
  match pages with
  | VDict d => Return d
  | _ => Raise (Exn AttributeError)
  end.

(** Lines 187-193 *)
Definition from_commons (res : response) : outcome (option any) :=
  if status_code res =? 200 then
    j <- json_or_empty res ;;
    query <- dot_get "query" j ;;
    pages <- dot_get "pages" (py_or query (VDict [])) ;;
    pages <- items (py_or pages (VDict [])) ;;
    commons_url pages
  else Return None.

(** [fetch_media_url], given the answers of the three services.  A request
    is only made when the services before it gave nothing; [giphy_key] is
    [GIPHY_API_KEY]. *)
Definition fetch_media_url (giphy_key : option pystr)
  (giphy openverse commons : response) : outcome any :=
  found <- match giphy_key with
           | Some (_ :: _) => from_giphy giphy
           | _ => Return None
           end ;;
  match found with
  | Some url => Return url
  | None =>
      found <- from_openverse openverse ;;
      match found with
      | Some url => Return url
      | None =>
          found <- from_commons commons ;;
          match found with
          | Some url => Return url
          | None => Return VNone
          end
      end
  end.

(** [find_media_url] of [server.py] *)
Definition find_media_url (giphy_key : option pystr)
  (giphy openverse commons : response) : outcome any :=
  url <- fetch_media_url giphy_key giphy openverse commons ;;
  if truthy url
  then Return (VDict [(Llm.k "ok", VBool true); (Llm.k "url", url)])
  else Return (VDict [(Llm.k "ok", VBool false);
                      (Llm.k "message", VStr (py "No media found"))]).

End Media.

(** ** The stages of [_normalize_summary], named *)

Module Stages.
Import Py Llm.

(** Lines 21-24: newlines and carriage returns turned into spaces, bullet
    markers removed. *)
Definition unbulleted (text : pystr) : pystr :=
  fold_left (fun t b => replace b [] t) bullets
    (replace [13%N] (py " ") (replace [10%N] (py " ") text)).

(** Lines 21-28: then runs of spaces collapsed and the ends stripped. *)
Definition cleaned (text : pystr) : pystr :=
  strip (collapse_spaces (unbulleted text)).

(** The text is empty or starts with a character that is not white space. *)
Definition starts_clean (t : pystr) : Prop :=
  match t with
  | [] => True
  | c :: _ => isspace c = false
  end.

End Stages.

(** * Properties *)

Import Py Env.

(** ** Keys and dictionaries *)

Lemma str_eqb_refl (s : pystr) : str_eqb s s = true.
Proof.
  induction s as [|c s IH]; simpl; [reflexivity|].
  now rewrite N.eqb_refl, IH.
Qed.

Lemma str_eqb_eq (s t : pystr) : str_eqb s t = true -> s = t.
Proof.
  revert t; induction s as [|c s IH]; intros [|d t]; simpl; try discriminate.
  - reflexivity.
  - intros H. apply andb_prop in H as [Hc Hs].
    apply N.eqb_eq in Hc. apply IH in Hs. now subst.
Qed.

(** A string is equal, as a key, to itself only. *)
Lemma key_eqb_str_l (s : pystr) (a : atom) :
  key_eqb (AStr s) a = true -> a = AStr s.
Proof.
  destruct a; simpl; try discriminate.
  intros H. apply str_eqb_eq in H. now subst.
Qed.

Lemma key_eqb_str_r (s : pystr) (a : atom) :
  key_eqb a (AStr s) = true -> a = AStr s.
Proof.
  destruct a; simpl; try discriminate.
  intros H. apply str_eqb_eq in H. now subst.
Qed.

Lemma key_eqb_str_refl (s : pystr) : key_eqb (AStr s) (AStr s) = true.
Proof. apply str_eqb_refl. Qed.

Lemma dict_get_set_same (s : pystr) (v : any) (d : dict) :
  dict_get (AStr s) (dict_set (AStr s) v d) = Some v.
Proof.
  induction d as [|[k' v'] d IH]; cbn [dict_get dict_set].
  - now rewrite key_eqb_str_refl.
  - destruct (key_eqb (AStr s) k') eqn:E; cbn [dict_get]; now rewrite E.
Qed.

(** Binding a string key leaves the other keys as they were. *)
Lemma dict_get_set_other (a : atom) (s : pystr) (v : any) (d : dict) :
  key_eqb a (AStr s) = false ->
  dict_get a (dict_set (AStr s) v d) = dict_get a d.
Proof.
  intros Ha. induction d as [|[k' v'] d IH]; cbn [dict_get dict_set].
  - now rewrite Ha.
  - destruct (key_eqb (AStr s) k') eqn:E; cbn [dict_get].
    + apply key_eqb_str_l in E. subst k'. now rewrite Ha.
    + now rewrite IH.
Qed.

(** Binding a key to the value it has changes nothing. *)
Lemma dict_set_same_value (s : pystr) (v : any) (d : dict) :
  dict_get (AStr s) d = Some v -> dict_set (AStr s) v d = d.
Proof.
  induction d as [|[k' v'] d IH]; cbn [dict_get dict_set]; [discriminate|].
  destruct (key_eqb (AStr s) k') eqn:E.
  - intros H. now inversion H.
  - intros H. now rewrite IH.
Qed.

Lemma get_set_same (s : pystr) (v : any) (d : dict) :
  get (AStr s) (dict_set (AStr s) v d) = v.
Proof. unfold get. now rewrite dict_get_set_same. Qed.

Lemma get_set_other (a : atom) (s : pystr) (v : any) (d : dict) :
  key_eqb a (AStr s) = false ->
  get a (dict_set (AStr s) v d) = get a d.
Proof. intros H. unfold get. now rewrite dict_get_set_other. Qed.

(** ** Slices *)

Lemma len_nonneg {A : Type} (l : list A) : 0 <= len l.
Proof. unfold len. lia. Qed.

Lemma len_slice_from_neg {A : Type} (n : Z) (l : list A) :
  n < 0 -> len (slice_from n l) = Z.min (- n) (len l).
Proof.
  intros Hn. unfold slice_from, len.
  destruct (n <? 0) eqn:E; [|apply Z.ltb_ge in E; lia].
  rewrite length_skipn. lia.
Qed.

Lemma slice_from_neg_short {A : Type} (n : Z) (l : list A) :
  n < 0 -> len l <= - n -> slice_from n l = l.
Proof.
  intros Hn Hl. unfold slice_from.
  destruct (n <? 0) eqn:E; [|apply Z.ltb_ge in E; lia].
  replace (Z.to_nat (Z.max 0 (len l + n))) with O by lia.
  reflexivity.
Qed.

Lemma len_slice_to {A : Type} (n : Z) (l : list A) :
  0 <= n -> len (slice_to n l) = Z.min n (len l).
Proof.
  intros Hn. unfold slice_to, len.
  destruct (n <? 0) eqn:E; [apply Z.ltb_lt in E; lia|].
  rewrite length_firstn. lia.
Qed.

Lemma slice_to_firstn {A : Type} (n : nat) (l : list A) :
  slice_to (Z.of_nat n) l = firstn n l.
Proof.
  unfold slice_to.
  destruct (Z.of_nat n <? 0) eqn:E; [apply Z.ltb_lt in E; lia|].
  now rewrite Nat2Z.id.
Qed.

(** ** Conversions *)

(** [int] on strings: white space and underscores, the separators that
    only [str.strip] takes for white space, digits of other scripts, and
    the limit on the number of digits. *)
Example int_of_str_samples :
  int_of_str (py " 42 ") = Ok 42 /\
  int_of_str (py "-1_000") = Ok (-1000) /\
  int_of_str (py "1__0") = Err ValueError /\
  int_of_str (py "+") = Err ValueError /\
  int_of_str [28; 53]%N = Err ValueError /\
  int_of_str [160; 53; 8195]%N = Ok 5 /\
  int_of_str [1635; 65300]%N = Ok 34 /\
  int_of_str (repeat 48%N 4300) = Ok 0 /\
  int_of_str (repeat 48%N 4301) = Err ValueError.
Proof. repeat split; vm_compute; reflexivity. Qed.

(** ** Compaction *)

Import Db.

Lemma keys_distinct :
  key_eqb k_events_log k_events_log_compacted = false /\
  key_eqb k_events_log k_context = false /\
  key_eqb k_events_log_compacted k_events_log = false /\
  key_eqb k_events_log_compacted k_context = false /\
  key_eqb k_context k_events_log = false /\
  key_eqb k_context k_events_log_compacted = false.
Proof. repeat split; reflexivity. Qed.

(** Looks up a key through a pile of bindings of the three keys. *)
Ltac dict_lookup :=
  unfold k_context, k_events_log, k_events_log_compacted;
  repeat first
    [ rewrite dict_get_set_same
    | rewrite dict_get_set_other by reflexivity
    | rewrite get_set_same
    | rewrite get_set_other by reflexivity ].

Lemma py_list_or_list (l : list any) :
  py_list (py_or (VList l) (VList [])) = Ok l.
Proof. destruct l; reflexivity. Qed.

Lemma py_dict_or_dict (d : dict) :
  py_dict (py_or (VDict d) (VDict [])) = Ok d.
Proof. destruct d; reflexivity. Qed.

Lemma py_int_or_int (z : Z) : py_int (py_or (VInt z) (VInt 0)) = Ok z.
Proof.
  unfold py_or, VInt. cbn [truthy].
  destruct (z =? 0) eqn:E; cbn [negb py_int]; [|reflexivity].
  apply Z.eqb_eq in E. now subst.
Qed.

(** For a log that is a list, [events_of] is that list. *)
Lemma events_of_list (ws : dict) (l : list any) :
  dict_get k_events_log ws = Some (VList l) -> events_of ws = Ok l.
Proof.
  intros H. unfold events_of, get. rewrite H. apply py_list_or_list.
Qed.

Lemma clamp_key_short (key : pystr) (ctx : dict) :
  short key ctx -> clamp_key ctx key = ctx.
Proof.
  unfold short, clamp_key. intros H.
  destruct (get (AStr key) ctx) as [[| | | |val]| |]; try reflexivity.
  specialize (H val eq_refl).
  destruct (len val >? 300) eqn:E; [|reflexivity].
  apply Z.gtb_lt in E. lia.
Qed.

Lemma clamp_key_makes_short (key : pystr) (ctx : dict) :
  short key (clamp_key ctx key).
Proof.
  unfold short, clamp_key. intros val.
  destruct (get (AStr key) ctx) as [[| | | |val0]| |] eqn:G;
    try (rewrite G; discriminate).
  destruct (len val0 >? 300) eqn:E.
  - rewrite get_set_same. intros H. inversion H; subst.
    rewrite len_slice_to by lia. lia.
  - rewrite G. intros H. inversion H; subst.
    destruct (Z.gtb_spec (len val) 300); [discriminate|lia].
Qed.

Lemma clamp_key_other (key key' : pystr) (ctx : dict) :
  key_eqb (AStr key') (AStr key) = false ->
  get (AStr key') (clamp_key ctx key) = get (AStr key') ctx.
Proof.
  intros Hk. unfold clamp_key.
  destruct (get (AStr key) ctx) as [[| | | |val0]| |]; try reflexivity.
  destruct (len val0 >? 300); [|reflexivity].
  now apply get_set_other.
Qed.

Lemma clamp_all_short (ctx : dict) :
  short (py "weather") (clamp_all ctx) /\ short (py "news") (clamp_all ctx).
Proof.
  unfold clamp_all. cbn [fold_left]. split.
  - unfold short. intros val. rewrite clamp_key_other by reflexivity.
    apply clamp_key_makes_short.
  - apply clamp_key_makes_short.
Qed.

Lemma clamp_all_idem (ctx : dict) : clamp_all (clamp_all ctx) = clamp_all ctx.
Proof.
  destruct (clamp_all_short ctx) as [Hw Hn].
  unfold clamp_all at 1. cbn [fold_left].
  rewrite (clamp_key_short _ _ Hw). now rewrite (clamp_key_short _ _ Hn).
Qed.

(** What [trim_events] returns: the dictionary, with the log it now holds. *)
Lemma trim_events_spec (s ws : dict) (ev : list any) :
  trim_events s = Ok (ws, ev) ->
  events_of ws = Ok ev /\ len ev <= MAX_EVENTS /\
  dict_get k_context ws = dict_get k_context s.
Proof.
  unfold trim_events. fold (events_of s).
  destruct (events_of s) as [ev0|e] eqn:Hev; cbn [bind]; [|discriminate].
  destruct (len ev0 >? MAX_EVENTS) eqn:Hlen.
  - destruct (py_int _) as [prev|e]; cbn [bind]; [|discriminate].
    intros H. inversion H; subst ws ev; clear H.
    apply Z.gtb_lt in Hlen. unfold MAX_EVENTS, KEEP_EVENTS in *.
    repeat split.
    + unfold events_of, k_events_log, k_events_log_compacted.
      rewrite get_set_other by reflexivity. rewrite get_set_same.
      apply py_list_or_list.
    + rewrite len_slice_from_neg by lia. lia.
    + unfold k_context, k_events_log, k_events_log_compacted.
      now rewrite !dict_get_set_other by reflexivity.
  - intros H. inversion H; subst ws ev; clear H.
    repeat split; [assumption|].
    destruct (Z.gtb_spec (len ev0) MAX_EVENTS); [discriminate|lia].
Qed.

Lemma trim_events_small (ws : dict) (ev : list any) :
  events_of ws = Ok ev -> len ev <= MAX_EVENTS -> trim_events ws = Ok (ws, ev).
Proof.
  intros Hev Hlen. unfold trim_events. fold (events_of ws).
  rewrite Hev. cbn [bind].
  destruct (Z.gtb_spec (len ev) MAX_EVENTS); [lia|reflexivity].
Qed.

Lemma clamp_context_spec (ws ws' : dict) :
  clamp_context ws = Ok ws' ->
  exists ctx, ws' = dict_set k_context (VDict (clamp_all ctx)) ws.
Proof.
  unfold clamp_context.
  destruct (py_dict _) as [ctx|e]; cbn [bind]; [|discriminate].
  intros H. inversion H. now exists ctx.
Qed.

(** A dictionary whose context is already a clamped mapping is left as it
    is. *)
Lemma clamp_context_fixed (ws ctx : dict) :
  dict_get k_context ws = Some (VDict (clamp_all ctx)) ->
  clamp_context ws = Ok ws.
Proof.
  intros H. unfold clamp_context, get. rewrite H.
  rewrite py_dict_or_dict. cbn [bind].
  rewrite clamp_all_idem. unfold k_context in *.
  now rewrite dict_set_same_value.
Qed.

(** The first two stages: what they return, and that they are settled on
    it. *)
Lemma stage2_spec (s ws : dict) (ev : list any) :
  stage2 s = Ok (ws, ev) ->
  events_of ws = Ok ev /\ len ev <= MAX_EVENTS /\
  (exists ctx, dict_get k_context ws = Some (VDict (clamp_all ctx))) /\
  stage2 ws = Ok (ws, ev).
Proof.
  unfold stage2 at 1.
  destruct (trim_events s) as [[ws1 ev1]|e] eqn:Ht; cbn [bind]; [|discriminate].
  destruct (clamp_context ws1) as [ws2|e] eqn:Hc; cbn [bind]; [|discriminate].
  intros H. inversion H; subst ws2 ev1; clear H.
  apply trim_events_spec in Ht as (Hev & Hlen & _).
  apply clamp_context_spec in Hc as [ctx ->].
  assert (Hev' : events_of (dict_set k_context (VDict (clamp_all ctx)) ws1) = Ok ev).
  { unfold events_of in *. unfold k_context, k_events_log in *.
    now rewrite get_set_other by reflexivity. }
  assert (Hctx : dict_get k_context (dict_set k_context (VDict (clamp_all ctx)) ws1)
                 = Some (VDict (clamp_all ctx))).
  { unfold k_context. apply dict_get_set_same. }
  repeat split; try assumption.
  - now exists ctx.
  - unfold stage2. rewrite (trim_events_small _ _ Hev' Hlen). cbn [bind].
    rewrite (clamp_context_fixed _ _ Hctx). reflexivity.
Qed.

Lemma compacted_of_set_events (v : any) (ws : dict) :
  compacted_of (dict_set k_events_log v ws) = compacted_of ws.
Proof.
  unfold compacted_of, k_events_log, k_events_log_compacted.
  now rewrite get_set_other by reflexivity.
Qed.

Lemma compacted_of_set_context (v : any) (ws : dict) :
  compacted_of (dict_set k_context v ws) = compacted_of ws.
Proof.
  unfold compacted_of, k_context, k_events_log_compacted.
  now rewrite get_set_other by reflexivity.
Qed.

Lemma compacted_of_set_compacted (z : Z) (ws : dict) :
  compacted_of (dict_set k_events_log_compacted (VInt z) ws) = Ok z.
Proof.
  unfold compacted_of, k_events_log_compacted.
  rewrite get_set_same. apply py_int_or_int.
Qed.

Lemma events_of_set_events (l : list any) (ws : dict) :
  events_of (dict_set k_events_log (VList l) ws) = Ok l.
Proof.
  unfold events_of, k_events_log. rewrite get_set_same. apply py_list_or_list.
Qed.

Lemma events_of_set_compacted (v : any) (ws : dict) :
  events_of (dict_set k_events_log_compacted v ws) = events_of ws.
Proof.
  unfold events_of, k_events_log, k_events_log_compacted.
  now rewrite get_set_other by reflexivity.
Qed.

Lemma events_of_set_context (v : any) (ws : dict) :
  events_of (dict_set k_context v ws) = events_of ws.
Proof.
  unfold events_of, k_events_log, k_context.
  now rewrite get_set_other by reflexivity.
Qed.

(** The two ways through [trim_events]. *)
Lemma trim_events_cases (s ws : dict) (ev : list any) :
  trim_events s = Ok (ws, ev) ->
  exists ev0, events_of s = Ok ev0 /\
    ((len ev0 <= MAX_EVENTS /\ ws = s /\ ev = ev0) \/
     (MAX_EVENTS < len ev0 /\ ev = slice_from (- KEEP_EVENTS) ev0 /\
      exists prev, compacted_of s = Ok prev /\
        ws = dict_set k_events_log_compacted
               (VInt (prev + (len ev0 - KEEP_EVENTS)))
               (dict_set k_events_log (VList ev) s))).
Proof.
  unfold trim_events. fold (events_of s).
  destruct (events_of s) as [ev0|e] eqn:Hev; cbn [bind]; [|discriminate].
  destruct (Z.gtb_spec (len ev0) MAX_EVENTS) as [Hlen|Hlen].
  - fold (compacted_of (dict_set k_events_log
                          (VList (slice_from (- KEEP_EVENTS) ev0)) s)).
    rewrite compacted_of_set_events.
    destruct (compacted_of s) as [prev|e]; cbn [bind]; [|discriminate].
    intros H. inversion H; subst ws ev; clear H.
    exists ev0. split; [reflexivity|].
    right. repeat split; try assumption. now exists prev.
  - intros H. inversion H; subst ws ev.
    exists ev0. split; [reflexivity|]. left. repeat split. assumption.
Qed.

(** The two ways through [aggressive_trim]. *)
Lemma aggressive_trim_cases (ws ws' : dict) (ev : list any) :
  aggressive_trim ws ev = Ok ws' ->
  (ev = [] /\ ws' = ws) \/
  (ev <> [] /\
   exists prev, compacted_of ws = Ok prev /\
     ws' = dict_set k_events_log_compacted
             (VInt (prev + (len ev - len (slice_from (-25) ev))))
             (dict_set k_events_log (VList (slice_from (-25) ev)) ws)).
Proof.
  unfold aggressive_trim. destruct ev as [|x ev]; cbn [truthy].
  - intros H. inversion H. now left.
  - assert (Hne : x :: ev <> []) by discriminate.
    remember (x :: ev) as l eqn:Hl. clear Hl.
    fold (compacted_of (dict_set k_events_log (VList (slice_from (-25) l)) ws)).
    rewrite compacted_of_set_events.
    destruct (compacted_of ws) as [prev|e]; cbn [bind]; [|discriminate].
    intros H. inversion H; clear H. right. split; [assumption|].
    exists prev. split; [reflexivity|].
    pose proof (len_slice_from_neg (-25) l ltac:(lia)) as Hk.
    pose proof (len_nonneg l).
    rewrite Z.max_r by lia. reflexivity.
Qed.

(** Once the log has at most 25 entries and the counter is an integer, the
    aggressive trim changes nothing. *)
Lemma aggressive_trim_fixed (ws : dict) (keep : list any) (c : Z) :
  dict_get k_events_log ws = Some (VList keep) ->
  dict_get k_events_log_compacted ws = Some (VInt c) ->
  len keep <= 25 ->
  aggressive_trim ws keep = Ok ws.
Proof.
  intros He Hc Hlen. unfold aggressive_trim.
  destruct (truthy (VList keep)); [|reflexivity].
  rewrite slice_from_neg_short by lia.
  unfold k_events_log in *. rewrite (dict_set_same_value _ _ _ He).
  unfold get. rewrite Hc. fold (VInt c). rewrite py_int_or_int. cbn [bind].
  replace (c + Z.max 0 (len keep - len keep)) with c by lia.
  unfold k_events_log_compacted in *. now rewrite dict_set_same_value.
Qed.

(** [compact_world_state] once the first two stages have returned. *)
Lemma compact_after_stage2 (s ws : dict) (ev : list any) :
  stage2 s = Ok (ws, ev) ->
  compact_world_state s =
    if dumps_raises (VDict ws) then Ok ws
    else if json_size ws >? MAX_JSON_BYTES then aggressive_trim ws ev
         else Ok ws.
Proof.
  intros H. unfold compact_world_state, try_dumps, json_size.
  rewrite H. cbn [bind]. destruct (dumps_raises (VDict ws)); reflexivity.
Qed.

Lemma compact_reaches_stage2 (s s' : dict) :
  compact_world_state s = Ok s' -> exists ws ev, stage2 s = Ok (ws, ev).
Proof.
  unfold compact_world_state.
  destruct (stage2 s) as [[ws ev]|e]; cbn [bind]; [|discriminate].
  intros _. now exists ws, ev.
Qed.

Lemma compact_world_state_fixed (s s' : dict) :
  compact_world_state s = Ok s' -> compact_world_state s' = Ok s'.
Proof.
  intros Hc. destruct (compact_reaches_stage2 _ _ Hc) as (ws & ev & H2).
  rewrite (compact_after_stage2 _ _ _ H2) in Hc.
  destruct (stage2_spec _ _ _ H2) as (Hev & Hlen & [ctx Hctx] & Hfix).
  destruct (dumps_raises (VDict ws)) eqn:Hr.
  { inversion Hc; subst s'. rewrite (compact_after_stage2 _ _ _ Hfix), Hr.
    reflexivity. }
  destruct (json_size ws >? MAX_JSON_BYTES) eqn:Hsize.
  - destruct (aggressive_trim_cases _ _ _ Hc) as [[-> ->]|[Hne [prev [Hprev ->]]]].
    + rewrite (compact_after_stage2 _ _ _ Hfix), Hr, Hsize. exact Hc.
    + set (keep := slice_from (-25) ev).
      set (ws' := dict_set k_events_log_compacted _ _).
      assert (Hkeep : len keep <= 25).
      { unfold keep. rewrite len_slice_from_neg by lia. lia. }
      assert (He' : dict_get k_events_log ws' = Some (VList keep)).
      { unfold ws', k_events_log, k_events_log_compacted.
        rewrite dict_get_set_other by reflexivity. apply dict_get_set_same. }
      assert (Hc' : exists c, dict_get k_events_log_compacted ws' = Some (VInt c)).
      { eexists. unfold ws', k_events_log_compacted. apply dict_get_set_same. }
      destruct Hc' as [c Hc'].
      assert (Hctx' : dict_get k_context ws' = Some (VDict (clamp_all ctx))).
      { unfold ws', k_events_log, k_events_log_compacted, k_context in *.
        now rewrite !dict_get_set_other by reflexivity. }
      assert (H2' : stage2 ws' = Ok (ws', keep)).
      { unfold stage2. rewrite (trim_events_small ws' keep).
        - cbn [bind]. rewrite (clamp_context_fixed _ _ Hctx'). reflexivity.
        - unfold events_of, get. rewrite He'. apply py_list_or_list.
        - unfold MAX_EVENTS. lia. }
      rewrite (compact_after_stage2 _ _ _ H2').
      destruct (dumps_raises (VDict ws')); [reflexivity|].
      destruct (json_size ws' >? MAX_JSON_BYTES); [|reflexivity].
      now apply aggressive_trim_fixed with (c := c).
  - inversion Hc; subst s'. rewrite (compact_after_stage2 _ _ _ Hfix), Hr, Hsize.
    reflexivity.
Qed.

(** The state after the first two stages, written out. *)
Lemma stage2_cases (s ws : dict) (ev : list any) :
  stage2 s = Ok (ws, ev) ->
  exists ev0 ctx,
    events_of s = Ok ev0 /\
    py_dict (py_or (get k_context s) (VDict [])) = Ok ctx /\
    ((len ev0 <= MAX_EVENTS /\ ev = ev0 /\
      ws = dict_set k_context (VDict (clamp_all ctx)) s) \/
     (MAX_EVENTS < len ev0 /\ ev = slice_from (- KEEP_EVENTS) ev0 /\
      exists prev, compacted_of s = Ok prev /\
        ws = dict_set k_context (VDict (clamp_all ctx))
               (dict_set k_events_log_compacted
                  (VInt (prev + (len ev0 - KEEP_EVENTS)))
                  (dict_set k_events_log (VList ev) s)))).
Proof.
  unfold stage2.
  destruct (trim_events s) as [[ws1 ev1]|e] eqn:Ht; cbn [bind]; [|discriminate].
  unfold clamp_context.
  destruct (py_dict (py_or (get k_context ws1) (VDict []))) as [ctx|e] eqn:Hc;
    cbn [bind]; [|discriminate].
  intros H. inversion H; subst ws ev1; clear H.
  destruct (trim_events_cases _ _ _ Ht)
    as (ev0 & Hev0 & [(Hlen & -> & ->)|(Hlen & -> & prev & Hprev & ->)]).
  - exists ev0, ctx. repeat split; try assumption. left. now repeat split.
  - exists ev0, ctx. split; [assumption|]. split.
    + rewrite <- Hc. unfold k_context, k_events_log, k_events_log_compacted.
      now rewrite !get_set_other by reflexivity.
    + right. repeat split; try assumption. now exists prev.
Qed.

(** The two ways out of [compact_world_state]: with the state of the first
    two stages, when it cannot be serialised or is within the limit, and
    through the aggressive trim. *)
Lemma compact_cases (s s' : dict) :
  compact_world_state s = Ok s' ->
  exists ws ev, stage2 s = Ok (ws, ev) /\
    (((dumps_raises (VDict ws) = true \/ json_size ws <= MAX_JSON_BYTES) /\
      s' = ws) \/
     ((dumps_raises (VDict ws) = false /\ MAX_JSON_BYTES < json_size ws) /\
      aggressive_trim ws ev = Ok s')).
Proof.
  intros Hc. destruct (compact_reaches_stage2 _ _ Hc) as (ws & ev & H2).
  rewrite (compact_after_stage2 _ _ _ H2) in Hc.
  exists ws, ev. split; [assumption|].
  destruct (dumps_raises (VDict ws)).
  - left. split; [now left|congruence].
  - destruct (Z.gtb_spec (json_size ws) MAX_JSON_BYTES) as [Hs|Hs].
    + right. now repeat split.
    + left. split; [now right|congruence].
Qed.

(** In UTF-8 a character takes at least one byte, so a text has at least as
    many bytes as characters. *)
Lemma len_le_utf8_len (t : pystr) : len t <= utf8_len t.
Proof.
  unfold len. induction t as [|c t IH]; cbn [List.length utf8_len fold_right].
  - lia.
  - fold (utf8_len t). unfold utf8_width.
    destruct (c <? 128)%N, (c <? 2048)%N, (c <? 65536)%N; lia.
Qed.

Lemma json_size_le_bytes (ws : dict) : json_size ws <= json_bytes ws.
Proof. apply len_le_utf8_len. Qed.

Lemma len_app {A : Type} (l1 l2 : list A) : len (l1 ++ l2) = len l1 + len l2.
Proof. unfold len. rewrite length_app. lia. Qed.

(** A slice [l[i:]] is what is left of [l] after dropping a prefix. *)
Lemma slice_from_split {A : Type} (i : Z) (l : list A) :
  exists dropped, l = dropped ++ slice_from i l.
Proof.
  unfold slice_from. eexists. symmetry. apply firstn_skipn.
Qed.

Lemma compacted_of_same_counter (ws ws' : dict) :
  dict_get k_events_log_compacted ws' = dict_get k_events_log_compacted ws ->
  compacted_of ws' = compacted_of ws.
Proof. intros H. unfold compacted_of, get. now rewrite H. Qed.

Lemma compacted_of_int (ws : dict) (z : Z) :
  dict_get k_events_log_compacted ws = Some (VInt z) -> compacted_of ws = Ok z.
Proof.
  intros H. unfold compacted_of, get. rewrite H. apply py_int_or_int.
Qed.

(** The first two stages keep count: either nothing is dropped and the
    counter is not touched, or the counter is read and bound to the integer
    read plus the number of entries dropped. *)
Lemma stage2_conservation (s ws : dict) (ev : list any) :
  stage2 s = Ok (ws, ev) ->
  exists dropped, events_of s = Ok (dropped ++ ev) /\ events_of ws = Ok ev /\
    ((dropped = [] /\
      dict_get k_events_log_compacted ws = dict_get k_events_log_compacted s) \/
     (exists c, compacted_of s = Ok c /\
        dict_get k_events_log_compacted ws = Some (VInt (c + len dropped)))).
Proof.
  intros H2.
  destruct (stage2_cases _ _ _ H2)
    as (ev0 & ctx & Hev0 & _ & [(Hlen & -> & ->)|(Hlen & -> & prev & Hprev & ->)]).
  - exists []. rewrite events_of_set_context.
    repeat split; try assumption. left. split; [reflexivity|].
    now dict_lookup.
  - destruct (slice_from_split (- KEEP_EVENTS) ev0) as [dropped Hd].
    exists dropped. rewrite events_of_set_context.
    rewrite events_of_set_compacted, events_of_set_events.
    assert (Hl : len ev0 = len dropped + len (slice_from (- KEEP_EVENTS) ev0)).
    { rewrite Hd at 1. apply len_app. }
    unfold MAX_EVENTS, KEEP_EVENTS in *.
    rewrite len_slice_from_neg in Hl by lia.
    repeat split; [congruence|]. right. exists prev. split; [assumption|].
    dict_lookup. do 2 f_equal. lia.
Qed.

(** So does the aggressive trim. *)
Lemma aggressive_trim_conservation (ws ws' : dict) (ev : list any) :
  aggressive_trim ws ev = Ok ws' -> events_of ws = Ok ev ->
  exists dropped ev', ev = dropped ++ ev' /\ events_of ws' = Ok ev' /\
    ((dropped = [] /\ ws' = ws) \/
     (exists c, compacted_of ws = Ok c /\
        dict_get k_events_log_compacted ws' = Some (VInt (c + len dropped)))).
Proof.
  intros Ha Hev.
  destruct (aggressive_trim_cases _ _ _ Ha) as [[-> ->]|(Hne & prev & Hprev & ->)].
  - exists [], []. repeat split; try assumption. now left.
  - destruct (slice_from_split (-25) ev) as [dropped Hd].
    exists dropped, (slice_from (-25) ev).
    rewrite events_of_set_compacted, events_of_set_events.
    assert (Hl : len ev = len dropped + len (slice_from (-25) ev)).
    { rewrite Hd at 1. apply len_app. }
    repeat split; [assumption|]. right. exists prev. split; [assumption|].
    dict_lookup. do 2 f_equal. lia.
Qed.

(** After the aggressive trim the log has at most 25 entries. *)
Lemma aggressive_trim_bound (ws ws' : dict) (ev : list any) :
  aggressive_trim ws ev = Ok ws' -> events_of ws = Ok ev ->
  exists ev', events_of ws' = Ok ev' /\ len ev' <= 25 /\ len ev' <= len ev.
Proof.
  intros Ha Hev.
  destruct (aggressive_trim_cases _ _ _ Ha) as [[-> ->]|(Hne & prev & Hprev & ->)].
  - exists []. repeat split; try assumption; cbn; lia.
  - exists (slice_from (-25) ev).
    rewrite events_of_set_compacted, events_of_set_events.
    pose proof (len_slice_from_neg (-25) ev ltac:(lia)).
    repeat split; lia.
Qed.

(** ** Running the stages forward *)

Lemma slice_from_neg_twice {A : Type} (a b : Z) (l : list A) :
  a <= b -> b < 0 -> slice_from b (slice_from a l) = slice_from b l.
Proof.
  intros Hab Hb. pose proof (len_slice_from_neg a l ltac:(lia)) as Hl.
  unfold slice_from at 1 3.
  destruct (b <? 0) eqn:E; [|apply Z.ltb_ge in E; lia].
  rewrite Hl. unfold slice_from.
  destruct (a <? 0) eqn:E'; [|apply Z.ltb_ge in E'; lia].
  rewrite skipn_skipn. f_equal. pose proof (len_nonneg l). lia.
Qed.

Lemma trim_events_big (s : dict) (ev : list any) (c : Z) :
  events_of s = Ok ev -> MAX_EVENTS < len ev -> compacted_of s = Ok c ->
  trim_events s =
    Ok (dict_set k_events_log_compacted (VInt (c + (len ev - KEEP_EVENTS)))
          (dict_set k_events_log (VList (slice_from (- KEEP_EVENTS) ev)) s),
        slice_from (- KEEP_EVENTS) ev).
Proof.
  intros Hev Hlen Hc. unfold trim_events. fold (events_of s). rewrite Hev.
  cbn [bind]. destruct (Z.gtb_spec (len ev) MAX_EVENTS); [|lia].
  fold (compacted_of (dict_set k_events_log
                        (VList (slice_from (- KEEP_EVENTS) ev)) s)).
  rewrite compacted_of_set_events, Hc. reflexivity.
Qed.

(** A state whose log and counter can be read and whose context converts is
    compacted without an exception. *)
Lemma compact_succeeds (s ctx : dict) (ev : list any) (c : Z) :
  events_of s = Ok ev -> compacted_of s = Ok c ->
  py_dict (py_or (get k_context s) (VDict [])) = Ok ctx ->
  exists s', compact_world_state s = Ok s'.
Proof.
  intros Hev Hc Hctx.
  assert (H2 : exists ws ev2 c2, stage2 s = Ok (ws, ev2) /\
                                 compacted_of ws = Ok c2).
  { unfold stage2. destruct (Z_le_gt_dec (len ev) MAX_EVENTS) as [Hle|Hgt].
    - rewrite (trim_events_small _ _ Hev Hle). cbn [bind].
      unfold clamp_context. rewrite Hctx. cbn [bind].
      do 3 eexists. split; [reflexivity|].
      rewrite compacted_of_set_context. eassumption.
    - rewrite (trim_events_big _ _ _ Hev ltac:(lia) Hc). cbn [bind].
      unfold clamp_context, k_context, k_events_log, k_events_log_compacted in *.
      rewrite !get_set_other by reflexivity. rewrite Hctx. cbn [bind].
      do 3 eexists. split; [reflexivity|].
      fold k_context k_events_log_compacted.
      rewrite compacted_of_set_context. apply compacted_of_set_compacted. }
  destruct H2 as (ws & ev2 & c2 & H2 & Hc2).
  rewrite (compact_after_stage2 _ _ _ H2).
  destruct (dumps_raises (VDict ws)); [now eexists|].
  destruct (json_size ws >? MAX_JSON_BYTES); [|now eexists].
  unfold aggressive_trim. destruct (truthy (VList ev2)); [|now eexists].
  fold (compacted_of (dict_set k_events_log (VList (slice_from (-25) ev2)) ws)).
  rewrite compacted_of_set_events, Hc2. cbn [bind]. now eexists.
Qed.

(** ** Saving *)

Lemma save_world_state_spec (s s' : dict) (w : world) :
  supabase_configured w = true ->
  compact_world_state s = Ok s' ->
  save_world_state s w =
    (Ok (clock w (ticks w)),
     mk_world true (Some (mk_row (VDict s') (clock w (ticks w)))) (clock w)
              (S (ticks w)) (llm w) (llm_requests w)).
Proof.
  intros Hcfg Hc. destruct w as [cfg row0 clk n f reqs]. cbn in Hcfg. subst cfg.
  unfold save_world_state, mbind, _get_supabase, _utc_now_iso, lift, upsert, ret.
  cbn. rewrite Hc. reflexivity.
Qed.

(** ** The claims on compaction *)

(** C2. Compaction is idempotent: compacting the result of a compaction
    returns it unchanged, [compact(compact(s)) == compact(s)].  Where
    [compact(s)] raises, so does the composition, with the same exception. *)
Theorem compact_idempotent (s : dict) :
  bind (compact_world_state s) compact_world_state = compact_world_state s.
Proof.
  destruct (compact_world_state s) as [s'|e] eqn:H; cbn [bind].
  - exact (compact_world_state_fixed s s' H).
  - reflexivity.
Qed.

Lemma Ok_pair_inj {A B : Type} (a a' : A) (b b' : B) :
  Ok (a, b) = Ok (a', b') -> a = a' /\ b = b'.
Proof. intros H. inversion H. now split. Qed.

Lemma try_dumps_ok (x : any) (text : pystr) :
  try_dumps x = Ok text -> dumps_raises x = false /\ text = dumps x.
Proof.
  unfold try_dumps. destruct (dumps_raises x); [discriminate|].
  intros H. inversion H. now split.
Qed.

(** The sample with 201 entries and a long backstory after the first two
    stages: the last 100 entries, a counter of 101, and a text that
    [json.dumps] writes in more than 200,000 characters. *)
Lemma oversized_stage2 :
  let ws := dict_set k_context (VDict [])
              (dict_set k_events_log_compacted (VInt 101)
                 (dict_set k_events_log (VList (Samples.events 101 100))
                    Samples.oversized)) in
  stage2 Samples.oversized = Ok (ws, Samples.events 101 100) /\
  dumps_raises (VDict ws) = false /\
  try_dumps (VDict ws) = Ok (dumps (VDict ws)) /\
  MAX_JSON_BYTES < json_size ws.
Proof. cbv zeta. repeat split; vm_compute; reflexivity. Qed.

(** Lines 58-61 at work: the document with 201 entries, a long backstory
    and an integer that cannot be written is returned as the first two
    stages left it, with 100 entries. *)
Example unwritable_state_is_returned :
  match compact_world_state Samples.unwritable with
  | Ok s' => (dict_get k_events_log s', dict_get k_events_log_compacted s')
  | Err _ => (None, None)
  end = (Some (VList (Samples.events 101 100)), Some (VInt 101)).
Proof. vm_compute. reflexivity. Qed.

(** C1, as the code has it.  The log of a compacted state has at most
    [MAX_EVENTS] = 200 entries; at most [KEEP_EVENTS] = 100 when the log it
    came from had more than 200; and at most 25 when [json.dumps] writes the
    state of the first two stages in more than 200,000 characters, a text
    that takes more than 200,000 bytes as well ([json_size_le_bytes]).  A
    text of more than 200,000 bytes in at most 200,000 characters is left
    out of the statement. *)
Theorem events_log_bound (s s' : dict) :
  compact_world_state s = Ok s' ->
  exists ev', events_of s' = Ok ev' /\
    len ev' <= MAX_EVENTS /\
    (forall ev, events_of s = Ok ev -> MAX_EVENTS < len ev ->
                len ev' <= KEEP_EVENTS) /\
    (forall ws ev2 text, stage2 s = Ok (ws, ev2) ->
                         try_dumps (VDict ws) = Ok text ->
                         MAX_JSON_BYTES < len text -> len ev' <= 25).
Proof.
  intros Hc.
  destruct (compact_cases _ _ Hc) as (ws & ev & H2 & Hout).
  destruct (stage2_spec _ _ _ H2) as (Hev & Hlen & _ & _).
  assert (Hbig : forall ev0, events_of s = Ok ev0 -> MAX_EVENTS < len ev0 ->
                             len ev <= KEEP_EVENTS).
  { intros ev0 Hev0 Hgt.
    destruct (stage2_cases _ _ _ H2)
      as (ev1 & ctx & Hev1 & _ & [(Hle & _)|(_ & -> & _)]);
      rewrite Hev0 in Hev1; inversion Hev1; subst ev1; [lia|].
    unfold MAX_EVENTS, KEEP_EVENTS in *.
    rewrite len_slice_from_neg by lia. lia. }
  destruct Hout as [[Hsize ->]|[Hsize Ha]].
  - exists ev. repeat split; try assumption.
    intros ws0 ev2 text H2' Htext Hlong. rewrite H2 in H2'. inversion H2'; subst.
    destruct (try_dumps_ok _ _ Htext) as [Hr ->].
    destruct Hsize as [Hraises|Hsmall]; [congruence|].
    unfold json_size in Hsmall. lia.
  - destruct (aggressive_trim_bound _ _ _ Ha Hev) as (ev' & Hev' & H25 & Hle).
    exists ev'. repeat split; try assumption; try lia.
    intros ev0 Hev0 Hgt. specialize (Hbig ev0 Hev0 Hgt). lia.
Qed.

(** C6, as the code has it.  Conservation: the entries one call removes
    from the log (by the trim of the first stage and by the aggressive trim
    together) are a prefix [dropped] of it.  Either none is removed and the
    counter [events_log_compacted] is left as it was, or the counter is read
    as the integer [c = int(x or 0)] and bound to [c] plus their number.
    Read that way, the counter of the result is always the counter of the
    input plus the number of entries removed. *)
Theorem removed_equals_increment (s s' : dict) :
  compact_world_state s = Ok s' ->
  exists dropped ev',
    events_of s = Ok (dropped ++ ev') /\ events_of s' = Ok ev' /\
    ((dropped = [] /\
      dict_get k_events_log_compacted s' = dict_get k_events_log_compacted s) \/
     (exists c, compacted_of s = Ok c /\
        dict_get k_events_log_compacted s' = Some (VInt (c + len dropped)))) /\
    (forall c, compacted_of s = Ok c ->
               compacted_of s' = Ok (c + len dropped)).
Proof.
  intros Hc.
  assert (Hmain : exists dropped ev',
    events_of s = Ok (dropped ++ ev') /\ events_of s' = Ok ev' /\
    ((dropped = [] /\
      dict_get k_events_log_compacted s' = dict_get k_events_log_compacted s) \/
     (exists c, compacted_of s = Ok c /\
        dict_get k_events_log_compacted s' = Some (VInt (c + len dropped))))).
  { destruct (compact_cases _ _ Hc) as (ws & ev & H2 & Hout).
    destruct (stage2_conservation _ _ _ H2) as (d1 & Hev0 & Hev & Hcnt).
    destruct Hout as [[_ ->]|[_ Ha]]; [now exists d1, ev|].
    destruct (aggressive_trim_conservation _ _ _ Ha Hev)
      as (d2 & ev' & -> & Hev' & Hcnt').
    exists (d1 ++ d2), ev'. rewrite <- app_assoc.
    split; [assumption|]. split; [assumption|].
    destruct Hcnt as [[-> Hsame]|(c & Hread & Hws)].
    - destruct Hcnt' as [[-> ->]|(c2 & Hread2 & Hws')].
      + left. now split.
      + right. exists c2. split; [|assumption].
        now rewrite <- (compacted_of_same_counter _ _ Hsame).
    - right. exists c. split; [assumption|].
      destruct Hcnt' as [[-> ->]|(c2 & Hread2 & Hws')].
      + now rewrite app_nil_r.
      + rewrite (compacted_of_int _ _ Hws) in Hread2. inversion Hread2; subst c2.
        rewrite Hws', len_app. do 2 f_equal. lia. }
  destruct Hmain as (dropped & ev' & Hev & Hev' & Hcnt).
  exists dropped, ev'. repeat split; try assumption.
  intros c Hread.
  destruct Hcnt as [[-> Hsame]|(c0 & Hread0 & Hs')].
  - rewrite (compacted_of_same_counter _ _ Hsame), Hread. f_equal. cbn. lia.
  - rewrite Hread in Hread0. inversion Hread0; subst c0.
    exact (compacted_of_int _ _ Hs').
Qed.

(** C1, as stated, fails: a log of 150 entries in a small document is left
    alone, so the compacted state holds more than 100 entries although the
    state after the second stage is far below 200,000 bytes. *)
Lemma events_log_bound_100_fails :
  let s := Samples.with_events 150 in
  let s' := dict_set k_context (VDict []) s in
  stage2 s = Ok (s', Samples.events 0 150) /\
  json_bytes s' <= MAX_JSON_BYTES /\
  compact_world_state s = Ok s' /\
  events_of s' = Ok (Samples.events 0 150) /\
  ~ len (Samples.events 0 150) <= 100.
Proof.
  cbv zeta. repeat split; try (vm_compute; reflexivity).
  - vm_compute. discriminate.
  - vm_compute. intros H. now apply H.
Qed.

(** The bounds at work: 205 entries in a small document come out as at most
    100, and the sample with a long backstory as at most 25. *)
Lemma events_log_bound_witness :
  (exists s' ev',
     compact_world_state (Samples.with_events 205) = Ok s' /\
     events_of (Samples.with_events 205) = Ok (Samples.events 0 205) /\
     MAX_EVENTS < len (Samples.events 0 205) /\
     events_of s' = Ok ev' /\ len ev' <= KEEP_EVENTS) /\
  (exists s' ws ev',
     compact_world_state Samples.oversized = Ok s' /\
     stage2 Samples.oversized = Ok (ws, Samples.events 101 100) /\
     try_dumps (VDict ws) = Ok (dumps (VDict ws)) /\
     MAX_JSON_BYTES < len (dumps (VDict ws)) /\
     events_of s' = Ok ev' /\ len ev' <= 25).
Proof.
  split.
  - destruct (compact_succeeds (Samples.with_events 205) []
                (Samples.events 0 205) 0 eq_refl eq_refl eq_refl) as [s' Hs'].
    destruct (events_log_bound _ _ Hs') as (ev' & Hev' & _ & H100 & _).
    exists s', ev'. split; [assumption|]. split; [reflexivity|].
    split; [reflexivity|]. split; [assumption|].
    apply (H100 (Samples.events 0 205)); reflexivity.
  - destruct (compact_succeeds Samples.oversized []
                (Samples.events 0 201) 0 eq_refl eq_refl eq_refl) as [s' Hs'].
    destruct (events_log_bound _ _ Hs') as (ev' & Hev' & _ & _ & H25).
    destruct oversized_stage2 as (H2 & _ & Htext & Hlong).
    eexists s', _, ev'. split; [assumption|]. split; [exact H2|].
    split; [exact Htext|]. split; [exact Hlong|]. split; [assumption|].
    exact (H25 _ _ _ H2 Htext Hlong).
Defined.

(** C6, as stated, fails: three entries and a counter of 2.5 in a document
    that is too large.  The aggressive trim has nothing to remove from a log
    of three entries, yet it reads the counter with [int] and stores 2: the
    log is as it was and the counter has gone from 2.5 to 2. *)
Lemma counter_rounded_without_removal :
  let s := Samples.half_counted in
  events_of s = Ok (Samples.events 0 3) /\
  dict_get k_events_log_compacted s =
    Some (VAtom (AFloat Samples.two_and_a_half)) /\
  match compact_world_state s with
  | Ok s' => (events_of s', dict_get k_events_log_compacted s')
  | Err e => (Err e, None)
  end = (Ok (Samples.events 0 3), Some (VInt 2)).
Proof. cbv zeta. repeat split; vm_compute; reflexivity. Qed.

Lemma removed_equals_increment_witness :
  let s := Samples.with_events 205 in
  let s' :=
    dict_set k_context (VDict [])
      (dict_set k_events_log_compacted (VInt 105)
         (dict_set k_events_log (VList (Samples.events 105 100)) s)) in
  compact_world_state s = Ok s' /\
  exists dropped ev',
    events_of s = Ok (dropped ++ ev') /\ events_of s' = Ok ev' /\
    ((dropped = [] /\
      dict_get k_events_log_compacted s' = dict_get k_events_log_compacted s) \/
     (exists c, compacted_of s = Ok c /\
        dict_get k_events_log_compacted s' = Some (VInt (c + len dropped)))) /\
    (forall c, compacted_of s = Ok c ->
               compacted_of s' = Ok (c + len dropped)).
Proof.
  cbv zeta. split; [vm_compute; reflexivity|].
  apply (removed_equals_increment (Samples.with_events 205)).
  vm_compute. reflexivity.
Defined.

(** C5, as stated, fails: with a log of 201 entries next to a backstory of
    200,001 characters (ASCII, so as many bytes) the state is still too
    large after the first two stages, and the aggressive trim leaves the
    most recent 25 entries, not the most recent 100; the counter grows by
    176. *)
Lemma keeps_100_fails :
  let s := Samples.oversized in
  dict_get k_events_log s = Some (VList (Samples.events 0 201)) /\
  MAX_EVENTS < len (Samples.events 0 201) /\
  match compact_world_state s with
  | Ok s' => (dict_get k_events_log s', dict_get k_events_log_compacted s')
  | Err _ => (None, None)
  end = (Some (VList (Samples.events 176 25)), Some (VInt 176)) /\
  Samples.events 176 25 <> slice_from (-100) (Samples.events 0 201).
Proof.
  cbv zeta. repeat split; try (vm_compute; reflexivity).
  intros H. apply (f_equal (@List.length any)) in H. vm_compute in H.
  discriminate.
Qed.

(** C5, as the code has it.  When the log has more than 200 entries and
    compaction returns, the counter was read as an integer [c] and the
    state of the first two stages holds the most recent 100 entries.  That
    is the result, with the counter at [c] plus the number of entries
    dropped, when the state cannot be serialised or its serialisation takes
    at most 200,000 bytes; when the serialisation has more than 200,000
    characters, the result holds the most recent 25 entries and the counter
    has grown by the number dropped all in all.  (Between the two, more than
    200,000 bytes in at most 200,000 characters, nothing is stated.)
    [save] stores the result. *)
Theorem trim_keeps_most_recent (s s' : dict) (ev : list any) :
  events_of s = Ok ev ->
  MAX_EVENTS < len ev ->
  compact_world_state s = Ok s' ->
  exists ws c,
    stage2 s = Ok (ws, slice_from (-100) ev) /\
    compacted_of s = Ok c /\
    (dumps_raises (VDict ws) = true \/ json_bytes ws <= MAX_JSON_BYTES ->
     dict_get k_events_log s' = Some (VList (slice_from (-100) ev)) /\
     dict_get k_events_log_compacted s' = Some (VInt (c + (len ev - 100)))) /\
    (dumps_raises (VDict ws) = false -> MAX_JSON_BYTES < json_size ws ->
     dict_get k_events_log s' = Some (VList (slice_from (-25) ev)) /\
     dict_get k_events_log_compacted s' = Some (VInt (c + (len ev - 25)))) /\
    (forall w, supabase_configured w = true ->
       exists w',
         save_world_state s w = (Ok (clock w (ticks w)), w') /\
         kingdom w' = Some (mk_row (VDict s') (clock w (ticks w)))).
Proof.
  intros Hev Hlen Hc.
  destruct (compact_cases _ _ Hc) as (ws & ev1 & H2 & Hout).
  destruct (stage2_cases _ _ _ H2)
    as (ev0 & ctx & Hev0 & _ & [(Hle & _)|(_ & Hev1 & prev & Hprev & Hws)]);
    rewrite Hev in Hev0; inversion Hev0; subst ev0; [lia|].
  change (- KEEP_EVENTS) with (-100) in Hev1.
  change KEEP_EVENTS with 100 in Hws. subst ev1.
  set (last100 := slice_from (-100) ev) in *.
  assert (Hl100 : len last100 = 100).
  { unfold last100. rewrite len_slice_from_neg by lia.
    unfold MAX_EVENTS in Hlen. lia. }
  assert (Hlog : dict_get k_events_log ws = Some (VList last100))
    by (rewrite Hws; now dict_lookup).
  assert (Hcnt : dict_get k_events_log_compacted ws =
                 Some (VInt (prev + (len ev - 100))))
    by (rewrite Hws; now dict_lookup).
  pose proof (json_size_le_bytes ws) as Hbytes.
  exists ws, prev. split; [exact H2|]. split; [exact Hprev|].
  split; [|split].
  - intros Hfits. destruct Hout as [[_ ->]|[[Hr Hbig] _]]; [now split|].
    destruct Hfits as [Hraises|Hsmall]; [congruence|lia].
  - intros Hr Hbig. destruct Hout as [[[Hraises|Hsmall] _]|[_ Ha]];
      [congruence|lia|].
    destruct (aggressive_trim_cases _ _ _ Ha) as [[Hnil _]|(_ & c2 & Hc2 & ->)].
    { rewrite Hnil in Hl100. cbn in Hl100. lia. }
    rewrite (compacted_of_int _ _ Hcnt) in Hc2. inversion Hc2; subst c2.
    rewrite Hl100. rewrite len_slice_from_neg by lia. rewrite Hl100.
    unfold last100. rewrite slice_from_neg_twice by lia.
    dict_lookup. split; [reflexivity|]. do 2 f_equal. lia.
  - intros w Hw. rewrite (save_world_state_spec _ _ _ Hw Hc).
    eexists. split; reflexivity.
Qed.

(** Scenario A and the sample with a long backstory, through the theorem:
    205 small entries come out as the entries numbered 105 to 204 with a
    counter of 105; the 201 entries of the large document as those numbered
    176 to 200 with a counter of 176. *)
Lemma trim_keeps_most_recent_witness :
  (exists s',
     events_of (Samples.with_events 205) = Ok (Samples.events 0 205) /\
     MAX_EVENTS < len (Samples.events 0 205) /\
     compact_world_state (Samples.with_events 205) = Ok s' /\
     dict_get k_events_log s' = Some (VList (Samples.events 105 100)) /\
     dict_get k_events_log_compacted s' = Some (VInt 105) /\
     forall w, supabase_configured w = true ->
       exists w',
         save_world_state (Samples.with_events 205) w =
           (Ok (clock w (ticks w)), w') /\
         kingdom w' = Some (mk_row (VDict s') (clock w (ticks w)))) /\
  (exists s',
     events_of Samples.oversized = Ok (Samples.events 0 201) /\
     MAX_EVENTS < len (Samples.events 0 201) /\
     compact_world_state Samples.oversized = Ok s' /\
     dict_get k_events_log s' = Some (VList (Samples.events 176 25)) /\
     dict_get k_events_log_compacted s' = Some (VInt 176)).
Proof.
  split.
  - destruct (compact_succeeds (Samples.with_events 205) []
                (Samples.events 0 205) 0 eq_refl eq_refl eq_refl) as [s' Hs'].
    destruct (trim_keeps_most_recent (Samples.with_events 205) s'
                (Samples.events 0 205) eq_refl eq_refl Hs')
      as (ws & c & H2 & Hc & H100 & _ & Hsave).
    assert (H2' : stage2 (Samples.with_events 205) =
              Ok (dict_set k_context (VDict [])
                    (dict_set k_events_log_compacted (VInt 105)
                       (dict_set k_events_log (VList (Samples.events 105 100))
                          (Samples.with_events 205))),
                  slice_from (-100) (Samples.events 0 205)))
      by (vm_compute; reflexivity).
    rewrite H2' in H2. apply Ok_pair_inj in H2 as [Hws _]. subst ws.
    assert (Hc' : compacted_of (Samples.with_events 205) = Ok 0) by reflexivity.
    rewrite Hc' in Hc. injection Hc as <-.
    destruct H100 as [Hlog Hcnt]; [right; vm_compute; discriminate|].
    exists s'. repeat split; try assumption; reflexivity.
  - destruct (compact_succeeds Samples.oversized []
                (Samples.events 0 201) 0 eq_refl eq_refl eq_refl) as [s' Hs'].
    destruct (trim_keeps_most_recent Samples.oversized s'
                (Samples.events 0 201) eq_refl eq_refl Hs')
      as (ws & c & H2 & Hc & _ & H25 & _).
    destruct oversized_stage2 as (H2' & Hr & _ & Hlong).
    rewrite H2' in H2. apply Ok_pair_inj in H2 as [Hws _]. subst ws.
    assert (Hc' : compacted_of Samples.oversized = Ok 0) by reflexivity.
    rewrite Hc' in Hc. injection Hc as <-.
    destruct (H25 Hr Hlong) as [Hlog Hcnt].
    exists s'. repeat split; try assumption; reflexivity.
Defined.

(** Scenario A, run: a state with 205 entries is stored with the entries
    numbered 105 to 204 and a counter of 105. *)
Example scenario_A :
  kingdom (snd (save_world_state (Samples.with_events 205)
                  (Samples.some_world NoContent))) =
  Some (mk_row
          (VDict
             [(Llm.k "kingdom_name", VStr (py "Verdant Vale"));
              (Llm.k "day", VInt 3);
              (k_events_log, VList (Samples.events 105 100));
              (k_events_log_compacted, VInt 105);
              (k_context, VDict [])])
          (py "2025-01-01T00:00:00")).
Proof. vm_compute. reflexivity. Qed.

(** ** The context *)

Lemma dict_get_clamp_key_other (key key' : pystr) (ctx : dict) :
  key_eqb (AStr key') (AStr key) = false ->
  dict_get (AStr key') (clamp_key ctx key) = dict_get (AStr key') ctx.
Proof.
  intros Hk. unfold clamp_key.
  destruct (get (AStr key) ctx) as [[| | | |val0]| |]; try reflexivity.
  destruct (len val0 >? 300); [|reflexivity].
  now apply dict_get_set_other.
Qed.

Lemma dict_get_clamp_key_long (key val : pystr) (ctx : dict) :
  get (AStr key) ctx = VStr val -> 300 < len val ->
  dict_get (AStr key) (clamp_key ctx key) = Some (VStr (slice_to 300 val)).
Proof.
  intros Hg Hlen. unfold clamp_key. rewrite Hg. unfold VStr.
  destruct (Z.gtb_spec (len val) 300); [|lia].
  apply dict_get_set_same.
Qed.

(** The loop cuts a long string under either key to its first 300
    characters. *)
Lemma clamp_all_long (key val : pystr) (ctx : dict) :
  key = py "weather" \/ key = py "news" ->
  get (AStr key) ctx = VStr val -> 300 < len val ->
  dict_get (AStr key) (clamp_all ctx) = Some (VStr (slice_to 300 val)).
Proof.
  intros [-> | ->] Hg Hlen; unfold clamp_all; cbn [fold_left].
  - rewrite dict_get_clamp_key_other by reflexivity.
    now apply dict_get_clamp_key_long.
  - apply dict_get_clamp_key_long; [|assumption].
    rewrite clamp_key_other by reflexivity. assumption.
Qed.

(** The context of a compacted state: [dict] of what was there, clamped. *)
Lemma compact_context (s s' : dict) :
  compact_world_state s = Ok s' ->
  exists ctx, py_dict (py_or (get k_context s) (VDict [])) = Ok ctx /\
              dict_get k_context s' = Some (VDict (clamp_all ctx)).
Proof.
  intros Hc.
  destruct (compact_cases _ _ Hc) as (ws & ev & H2 & Hout).
  destruct (stage2_cases _ _ _ H2) as (ev0 & ctx & _ & Hctx & Hws).
  exists ctx. split; [assumption|].
  assert (Hget : dict_get k_context ws = Some (VDict (clamp_all ctx))).
  { destruct Hws as [(_ & _ & ->)|(_ & _ & prev & _ & ->)]; now dict_lookup. }
  destruct Hout as [[_ ->]|[_ Ha]]; [assumption|].
  destruct (aggressive_trim_cases _ _ _ Ha) as [[_ ->]|(_ & prev & _ & ->)];
    [assumption|].
  unfold k_context in Hget. now dict_lookup.
Qed.

(** Compaction touches three keys only. *)
Lemma compact_other_keys (s s' : dict) (a : atom) :
  compact_world_state s = Ok s' ->
  key_eqb a k_events_log = false ->
  key_eqb a k_events_log_compacted = false ->
  key_eqb a k_context = false ->
  dict_get a s' = dict_get a s.
Proof.
  intros Hc He Hn Hx.
  unfold k_events_log, k_events_log_compacted, k_context in *.
  destruct (compact_cases _ _ Hc) as (ws & ev & H2 & Hout).
  destruct (stage2_cases _ _ _ H2) as (ev0 & ctx & _ & _ & Hws).
  assert (Hget : dict_get a ws = dict_get a s).
  { destruct Hws as [(_ & _ & ->)|(_ & _ & prev & _ & ->)];
      unfold k_events_log, k_events_log_compacted, k_context;
      now rewrite ?dict_get_set_other by assumption. }
  destruct Hout as [[_ ->]|[_ Ha]]; [assumption|].
  destruct (aggressive_trim_cases _ _ _ Ha) as [[_ ->]|(_ & prev & _ & ->)];
    [assumption|].
  unfold k_events_log, k_events_log_compacted, k_context.
  now rewrite ?dict_get_set_other by assumption.
Qed.

(** C7, as stated, fails: compaction reads the log before it comes to the
    context.  With an [events_log] that is the number 7, [list] raises
    [TypeError] and the weather report of 500 characters is replaced by
    nothing: no state is returned. *)
Lemma unreadable_log_blocks_clamp :
  let s := Samples.with_number_log in
  dict_get k_context s =
    Some (VDict [(Llm.k "weather", VStr Samples.long_weather)]) /\
  300 < len Samples.long_weather /\
  compact_world_state s = Err TypeError /\
  fst (save_world_state s (Samples.some_world NoContent)) = Err TypeError.
Proof. cbv zeta. repeat split; vm_compute; reflexivity. Qed.

(** C7, as the code has it.  Whenever compaction returns, a string longer
    than 300 characters under [context.weather] or [context.news] has been
    replaced by exactly its first 300 characters, nothing appended, and that
    is what [save] stores. *)
Theorem context_string_clamped
  (s s' ctx0 : dict) (key val : pystr) :
  key = py "weather" \/ key = py "news" ->
  dict_get k_context s = Some (VDict ctx0) ->
  dict_get (AStr key) ctx0 = Some (VStr val) ->
  300 < len val ->
  compact_world_state s = Ok s' ->
  exists ctx',
    dict_get k_context s' = Some (VDict ctx') /\
    dict_get (AStr key) ctx' = Some (VStr (firstn 300 val)) /\
    (forall w, supabase_configured w = true ->
       exists w',
         save_world_state s w = (Ok (clock w (ticks w)), w') /\
         kingdom w' = Some (mk_row (VDict s') (clock w (ticks w)))).
Proof.
  intros Hkey Hctx Hval Hlen Hs'.
  assert (Hd : py_dict (py_or (get k_context s) (VDict [])) = Ok ctx0).
  { unfold get. rewrite Hctx. apply py_dict_or_dict. }
  destruct (compact_context _ _ Hs') as (ctx & Hd' & Hget).
  rewrite Hd in Hd'. inversion Hd'; subst ctx.
  exists (clamp_all ctx0). repeat split; try assumption.
  - rewrite (clamp_all_long key val ctx0 Hkey); try assumption.
    + change 300 with (Z.of_nat 300). now rewrite slice_to_firstn.
    + unfold get. now rewrite Hval.
  - intros w Hw. rewrite (save_world_state_spec _ _ _ Hw Hs').
    eexists. split; reflexivity.
Qed.

Lemma context_string_clamped_witness :
  let s := Samples.with_weather in
  let ctx0 := [(Llm.k "weather", VStr Samples.long_weather)] in
  let s' := [(Llm.k "day", VInt 3);
             (k_context, VDict [(Llm.k "weather", VStr (repeat 119%N 300))])] in
  (py "weather" = py "weather" \/ py "weather" = py "news") /\
  dict_get k_context s = Some (VDict ctx0) /\
  dict_get (AStr (py "weather")) ctx0 = Some (VStr Samples.long_weather) /\
  300 < len Samples.long_weather /\
  compact_world_state s = Ok s' /\
  exists ctx',
    dict_get k_context s' = Some (VDict ctx') /\
    dict_get (AStr (py "weather")) ctx' =
      Some (VStr (firstn 300 Samples.long_weather)) /\
    (forall w, supabase_configured w = true ->
       exists w',
         save_world_state s w = (Ok (clock w (ticks w)), w') /\
         kingdom w' = Some (mk_row (VDict s') (clock w (ticks w)))).
Proof.
  cbv zeta. split; [left; reflexivity|].
  do 4 (split; [vm_compute; reflexivity|]).
  apply (context_string_clamped Samples.with_weather
           [(Llm.k "day", VInt 3);
            (k_context, VDict [(Llm.k "weather", VStr (repeat 119%N 300))])]
           [(Llm.k "weather", VStr Samples.long_weather)]
           (py "weather") Samples.long_weather);
    solve [left; reflexivity | vm_compute; reflexivity].
Defined.

(** Scenario D, run: a weather report of 500 characters is stored as its
    first 300. *)
Example scenario_D :
  kingdom (snd (save_world_state Samples.with_weather
                  (Samples.some_world NoContent))) =
  Some (mk_row
          (VDict
             [(Llm.k "day", VInt 3);
              (k_context, VDict [(Llm.k "weather", VStr (repeat 119%N 300))])])
          (py "2025-01-01T00:00:00")).
Proof. vm_compute. reflexivity. Qed.




Example string_context_raises :
  compact_world_state [(k_context, VStr (py "sunny"))] = Err ValueError.
Proof. reflexivity. Qed.

(** ** Normalisation of summaries *)

Import Llm.

(** One pass over ["  "] never lengthens the text. *)
Lemma replace_spaces_length (t : pystr) :
  (List.length (replace_from (py "  ") (py " ") 0 t) <= List.length t /\
   List.length (replace_from (py "  ") (py " ") 1 t) <= List.length t)%nat.
Proof.
  induction t as [|c t IH]; [split; cbn; lia|].
  destruct IH as [IH0 IH1]. split.
  - cbn [replace_from].
    destruct (startswith (py "  ") (c :: t)).
    + change (List.length (py "  ") - 1)%nat with 1%nat.
      rewrite length_app. change (List.length (py " ")) with 1%nat.
      cbn [List.length]. lia.
    + cbn [List.length]. lia.
  - cbn [replace_from List.length]. lia.
Qed.

(** A pass that finds two spaces in a row shortens the text. *)
Lemma replace_spaces_shorter (t : pystr) :
  contains (py "  ") t = true ->
  (List.length (replace (py "  ") (py " ") t) < List.length t)%nat.
Proof.
  unfold replace. induction t as [|c t IH]; [discriminate|].
  cbn [contains]. intros H. cbn [replace_from].
  destruct (startswith (py "  ") (c :: t)) eqn:Hs.
  - change (List.length (py "  ") - 1)%nat with 1%nat.
    rewrite length_app. change (List.length (py " ")) with 1%nat.
    destruct t as [|d t]; [cbn in Hs; now rewrite andb_false_r in Hs|].
    cbn [replace_from List.length].
    destruct (replace_spaces_length t) as [H0 _]. lia.
  - cbn [orb] in H. specialize (IH H). cbn [List.length]. lia.
Qed.

Lemma collapse_loop_exits (fuel : nat) (t : pystr) :
  (List.length t <= fuel)%nat ->
  contains (py "  ") (collapse_loop fuel t) = false.
Proof.
  revert t. induction fuel as [|fuel IH]; intros t Hlen.
  - destruct t; [reflexivity|cbn in Hlen; lia].
  - cbn [collapse_loop].
    destruct (contains (py "  ") t) eqn:Hc; [|assumption].
    apply IH. pose proof (replace_spaces_shorter t Hc). lia.
Qed.

(** The loop of lines 26-27 is left within [len(t)] turns: its result holds
    no two spaces in a row. *)
Lemma collapse_spaces_exits (t : pystr) :
  contains (py "  ") (collapse_spaces t) = false.
Proof. apply collapse_loop_exits. lia. Qed.

Lemma lstrip_length (t : pystr) :
  (List.length (lstrip t) <= List.length t)%nat.
Proof.
  induction t as [|c t IH]; [reflexivity|].
  cbn [lstrip]. destruct (isspace c); cbn [List.length]; lia.
Qed.

Lemma rstrip_length (t : pystr) :
  (List.length (rstrip t) <= List.length t)%nat.
Proof.
  unfold rstrip. rewrite length_rev.
  pose proof (lstrip_length (rev t)) as H. now rewrite length_rev in H.
Qed.

(** The hard cap of lines 30-31: the result has at most [max_len]
    characters. *)
Lemma normalize_summary_length (text : any) (max_len : Z) :
  1 <= max_len -> len (_normalize_summary text max_len) <= max_len.
Proof.
  intros Hmax. unfold _normalize_summary.
  destruct text as [[| | | |text]| |]; try (cbn; lia).
  cbv zeta. match goal with |- context [strip ?u] => set (t := strip u) end.
  destruct (Z.gtb_spec (len t) max_len) as [Hgt|Hle]; [|assumption].
  rewrite len_app. change (len [8230%N]) with 1.
  pose proof (rstrip_length (slice_to (max_len - 1) t)) as Hr.
  pose proof (len_slice_to (max_len - 1) t ltac:(lia)) as Hs.
  unfold len in *. lia.
Qed.

Lemma fallbacks_normal :
  _normalize_summary (VStr PARSE_FAILED) 220 = PARSE_FAILED /\
  _normalize_summary (VStr NO_CHANGES) 220 = NO_CHANGES /\
  _normalize_summary (VStr NOTHING_NOTEWORTHY) 220 = NOTHING_NOTEWORTHY.
Proof. repeat split; vm_compute; reflexivity. Qed.

Lemma nonempty_str_inv (v : any) :
  nonempty_str v = true -> exists s, v = VStr s /\ s <> [].
Proof.
  destruct v as [[| | | |[|c s]]| |]; try discriminate.
  intros _. exists (c :: s). split; [reflexivity|discriminate].
Qed.

(** ** Mediation *)

(** What is chosen when the reply is an object without a state object. *)
Lemma choose_without_state (d current : dict) :
  (forall u, get (k "updated_world_state") d <> VDict u) ->
  choose (VDict d) current =
    Ok (current,
        if nonempty_str (get (k "summary") d)
        then get (k "summary") d
        else VStr NO_CHANGES).
Proof.
  intros Hno. unfold choose, parsed_get. cbn [bind].
  destruct (get (k "updated_world_state") d) as [a|l|u] eqn:Hu;
    [| |now destruct (Hno u)];
    destruct (nonempty_str (get (k "summary") d)) eqn:Hs;
    cbn [nonempty_str NO_CHANGES]; try rewrite Hs; reflexivity.
Qed.

(** What [choose] returns is a non-empty string, from the reply or from the
    two fallback messages. *)
Lemma choose_summary (parsed : any) (current st : dict) (sm : any) :
  choose parsed current = Ok (st, sm) ->
  exists chosen, sm = VStr chosen /\ chosen <> [] /\
    (chosen = NO_CHANGES \/ chosen = NOTHING_NOTEWORTHY \/
     exists d, parsed = VDict d /\ get (k "summary") d = VStr chosen).
Proof.
  unfold choose, parsed_get.
  destruct parsed as [a|l|d]; cbn [bind]; try discriminate.
  assert (Hsum : forall v : any,
            exists chosen,
              (if nonempty_str v then v else VStr NOTHING_NOTEWORTHY) = VStr chosen /\
              chosen <> [] /\
              (v = VStr chosen \/ chosen = NOTHING_NOTEWORTHY)).
  { intros v. destruct (nonempty_str v) eqn:Hv.
    - destruct (nonempty_str_inv _ Hv) as (s & -> & Hne).
      exists s. auto.
    - exists NOTHING_NOTEWORTHY. repeat split; [discriminate|now right]. }
  destruct (get (k "updated_world_state") d) as [a|l|u].
  1, 2: destruct (nonempty_str (get (k "summary") d)) eqn:Hs.
  1, 3: rewrite Hs; intros H; inversion H; subst;
        destruct (nonempty_str_inv _ Hs) as (s & Hs' & Hne);
        exists s; repeat split; try assumption; right; right; now exists d.
  1, 2: intros H; inversion H; subst; exists NO_CHANGES;
        repeat split; [discriminate|now left].
  intros H. inversion H; subst.
  destruct (Hsum (get (k "summary") d)) as (chosen & -> & Hne & [Hv|Hv]).
  - exists chosen. repeat split; try assumption. right; right. now exists d.
  - exists chosen. repeat split; try assumption. now (right; left).
Qed.










(** ** [create_kingdom] *)

Import Server.

Lemma dict_get_setdefault (s : pystr) (v : any) (d : dict) :
  dict_get (AStr s) (dict_setdefault (AStr s) v d) =
    Some (match dict_get (AStr s) d with
          | Some v0 => v0
          | None => v
          end).
Proof.
  unfold dict_setdefault. destruct (dict_get (AStr s) d) eqn:H.
  - assumption.
  - apply dict_get_set_same.
Qed.

(** [create_kingdom], step by step: the request, the reading of the reply,
    the default for the name, the saving. *)
Lemma create_kingdom_steps (kingdom_name : pystr) (theme : option pystr)
  (w : world) :
  let payload := user_payload (VDict (init_intent kingdom_name theme)) [] in
  let w1 := mk_world (supabase_configured w) (kingdom w) (clock w) (ticks w)
                     (llm w) (llm_requests w ++ [payload]) in
  create_kingdom kingdom_name theme w =
    match read_completion (llm w payload) [] with
    | Err e => (Err e, w1)
    | Ok (updated, sm) =>
        match save_world_state
                (dict_setdefault (k "kingdom_name") (VStr kingdom_name) updated)
                w1 with
        | (Ok ts, w2) => (Ok (mk_reply sm ts), w2)
        | (Err e, w2) => (Err e, w2)
        end
    end.
Proof.
  cbv zeta. unfold create_kingdom, llm_transform_world_state, mbind,
    chat_completions_create, lift, ret.
  destruct (read_completion _ _) as [[updated sm]|e]; [|reflexivity].
  destruct (save_world_state _ _) as [[ts|e] w2]; reflexivity.
Qed.

Lemma save_world_state_cases (s : dict) (w : world) :
  match save_world_state s w with
  | (Ok ts, w') =>
      supabase_configured w = true /\ ts = clock w (ticks w) /\
      exists s', compact_world_state s = Ok s' /\
        w' = mk_world true (Some (mk_row (VDict s') ts)) (clock w)
                      (S (ticks w)) (llm w) (llm_requests w)
  | (Err e, w') => kingdom w' = kingdom w /\ llm_requests w' = llm_requests w
  end.
Proof.
  destruct w as [cfg row0 clk n f reqs].
  unfold save_world_state, mbind, _get_supabase, _utc_now_iso, lift, upsert, ret.
  cbn. destruct cfg; [|now split].
  destruct (compact_world_state s) as [s'|e]; [|now split].
  repeat split. now exists s'.
Qed.

(** C9, at the input where the code departs from it.  [create_kingdom] is
    asked for "Verdant Vale" and the backend's state carries the name
    "Sunspire": that name is saved and the requested one is recorded
    nowhere, although line 192 announces [# ensure the intended name is
    recorded].  [setdefault] fills in a missing key only. *)
Theorem requested_name_not_forced :
  let w := Samples.some_world (Json Samples.renaming_reply) in
  kingdom (snd (create_kingdom (py "Verdant Vale") None w)) =
    Some (mk_row
            (VDict [(k "kingdom_name", VStr (py "Sunspire"));
                    (k "day", VInt 1);
                    (k_context, VDict [])])
            (py "2025-01-01T00:00:00")) /\
  py "Sunspire" <> py "Verdant Vale".
Proof.
  cbv zeta. split; [vm_compute; reflexivity|discriminate].
Qed.

(** The rest of C9, which holds.  [create_kingdom] sends the backend the
    empty state as the current one, whatever row is stored: the stored row
    has no part in the outcome.  What is saved has a [kingdom_name]: the
    requested one when the mediated state has none, and the mediated state's
    own otherwise, which is where the requested name is lost. *)
Theorem create_kingdom_rebuilds
  (kingdom_name : pystr) (theme : option pystr) (w : world) :
  let payload := user_payload (VDict (init_intent kingdom_name theme)) [] in
  let run := create_kingdom kingdom_name theme in
  (exists p, payload = VDict p /\ get (k "current_world_state") p = VDict []) /\
  llm_requests (snd (run w)) = llm_requests w ++ [payload] /\
  (forall r0, fst (run (with_row r0 w)) = fst (run w) /\
              (forall rep, fst (run w) = Ok rep ->
                           snd (run (with_row r0 w)) = snd (run w))) /\
  (forall rep, fst (run w) = Ok rep ->
     exists updated sm st,
       read_completion (llm w payload) [] = Ok (updated, sm) /\
       summary rep = sm /\
       compact_world_state
         (dict_setdefault (k "kingdom_name") (VStr kingdom_name) updated)
         = Ok st /\
       kingdom (snd (run w)) = Some (mk_row (VDict st) (last_updated rep)) /\
       dict_get (k "kingdom_name") st =
         Some (match dict_get (k "kingdom_name") updated with
               | Some name => name
               | None => VStr kingdom_name
               end)).
Proof.
  cbv zeta. split; [eexists; split; reflexivity|].
  set (payload := user_payload (VDict (init_intent kingdom_name theme)) []).
  assert (Hsteps := create_kingdom_steps kingdom_name theme).
  cbv zeta in Hsteps. fold payload in Hsteps.
  split; [|split].
  - rewrite Hsteps.
    destruct (read_completion _ _) as [[updated sm]|e]; [|reflexivity].
    match goal with |- context [save_world_state ?s ?w1] =>
      pose proof (save_world_state_cases s w1) as Hsave;
      destruct (save_world_state s w1) as [[ts|e] w2]
    end.
    + destruct Hsave as (_ & _ & s' & _ & ->). reflexivity.
    + destruct Hsave as [_ Hreq]. cbn [snd]. rewrite Hreq. reflexivity.
  - intros r0. rewrite (Hsteps (with_row r0 w)), (Hsteps w).
    unfold with_row. cbn [supabase_configured kingdom clock ticks llm llm_requests].
    destruct (read_completion _ _) as [[updated sm]|e];
      [|split; [reflexivity|discriminate]].
    destruct w as [cfg row0 clk n f reqs].
    cbn [supabase_configured kingdom clock ticks llm llm_requests].
    unfold save_world_state, mbind, _get_supabase, _utc_now_iso, lift, upsert, ret.
    cbn [supabase_configured kingdom clock ticks llm llm_requests].
    destruct cfg; [|split; [reflexivity|discriminate]].
    destruct (compact_world_state _) as [s'|e];
      split; try reflexivity; discriminate.
  - intros rep. rewrite Hsteps.
    destruct (read_completion _ _) as [[updated sm]|e]; [|discriminate].
    match goal with |- context [save_world_state ?s ?w1] =>
      pose proof (save_world_state_cases s w1) as Hsave;
      destruct (save_world_state s w1) as [[ts|e] w2]
    end; [|discriminate].
    destruct Hsave as (_ & Hts & s' & Hs' & ->).
    cbn [fst snd]. intros H. inversion H; subst rep. cbn [summary last_updated].
    exists updated, sm, s'. repeat split; try assumption.
    rewrite (compact_other_keys _ _ _ Hs') by reflexivity.
    apply dict_get_setdefault.
Qed.

Lemma create_kingdom_rebuilds_witness :
  let kingdom_name := py "Verdant Vale" in
  let w := Samples.some_world (Json Samples.renaming_reply) in
  let payload := user_payload (VDict (init_intent kingdom_name None)) [] in
  let run := create_kingdom kingdom_name None in
  (exists p, payload = VDict p /\ get (k "current_world_state") p = VDict []) /\
  llm_requests (snd (run w)) = llm_requests w ++ [payload] /\
  (forall r0, fst (run (with_row r0 w)) = fst (run w) /\
              (forall rep, fst (run w) = Ok rep ->
                           snd (run (with_row r0 w)) = snd (run w))) /\
  (forall rep, fst (run w) = Ok rep ->
     exists updated sm st,
       read_completion (llm w payload) [] = Ok (updated, sm) /\
       summary rep = sm /\
       compact_world_state
         (dict_setdefault (k "kingdom_name") (VStr kingdom_name) updated)
         = Ok st /\
       kingdom (snd (run w)) = Some (mk_row (VDict st) (last_updated rep)) /\
       dict_get (k "kingdom_name") st =
         Some (match dict_get (k "kingdom_name") updated with
               | Some name => name
               | None => VStr kingdom_name
               end)).
Proof.
  exact (create_kingdom_rebuilds (py "Verdant Vale") None
           (Samples.some_world (Json Samples.renaming_reply))).
Defined.

(** With a reply that brings no state, the requested name is what is
    saved. *)
Example create_kingdom_default_name :
  let w := with_row (Some (mk_row (VDict (Samples.with_events 3)) (py "then")))
                    (Samples.some_world NoContent) in
  create_kingdom (py "Verdant Vale") (Some (py "cozy")) w =
    (Ok (mk_reply (py "No changes were applied.") (py "2025-01-01T00:00:00")),
     mk_world true
       (Some (mk_row
                (VDict [(k "kingdom_name", VStr (py "Verdant Vale"));
                        (k_context, VDict [])])
                (py "2025-01-01T00:00:00")))
       (clock w) 1 (llm w)
       [user_payload
          (VDict [(k "type", VStr (py "init"));
                  (k "kingdom_name", VStr (py "Verdant Vale"));
                  (k "theme", VStr (py "cozy"))])
          []]).
Proof. vm_compute. reflexivity. Qed.

(** * Further properties of the code *)

(** ** Compaction and the store *)

Import Store.

(** Whatever the input, a string left under [context.weather] or
    [context.news] by a compaction has at most 300 characters. *)
Theorem compacted_context_strings_short
  (s s' ctx : dict) (key val : pystr) :
  compact_world_state s = Ok s' ->
  key = py "weather" \/ key = py "news" ->
  dict_get k_context s' = Some (VDict ctx) ->
  dict_get (AStr key) ctx = Some (VStr val) ->
  len val <= 300.
Proof.
  intros Hc Hkey Hctx Hval.
  destruct (compact_context _ _ Hc) as (ctx0 & _ & Hget).
  rewrite Hget in Hctx. inversion Hctx; subst ctx.
  destruct (clamp_all_short ctx0) as [Hw Hn].
  destruct Hkey as [-> | ->]; [apply Hw|apply Hn]; unfold get; now rewrite Hval.
Qed.

Lemma compacted_context_strings_short_witness :
  let s := Samples.with_weather in
  let ctx := [(Llm.k "weather", VStr (repeat 119%N 300))] in
  let s' := [(Llm.k "day", VInt 3); (k_context, VDict ctx)] in
  compact_world_state s = Ok s' /\
  (py "weather" = py "weather" \/ py "weather" = py "news") /\
  dict_get k_context s' = Some (VDict ctx) /\
  dict_get (AStr (py "weather")) ctx = Some (VStr (repeat 119%N 300)) /\
  len (repeat 119%N 300) <= 300.
Proof.
  cbv zeta. do 4 (split; [solve [left; reflexivity | vm_compute; reflexivity]|]).
  apply (compacted_context_strings_short Samples.with_weather
           [(Llm.k "day", VInt 3);
            (k_context, VDict [(Llm.k "weather", VStr (repeat 119%N 300))])]
           [(Llm.k "weather", VStr (repeat 119%N 300))]
           (py "weather") (repeat 119%N 300));
    solve [left; reflexivity | vm_compute; reflexivity].
Defined.

(** A state that is within every limit is returned as it is: a log of at
    most 200 entries, a context that is a mapping with short weather and
    news, and a serialisation of at most 200,000 characters. *)
Theorem compact_leaves_settled_state (s ctx : dict) (ev : list any) :
  events_of s = Ok ev -> len ev <= MAX_EVENTS ->
  dict_get k_context s = Some (VDict ctx) ->
  short (py "weather") ctx -> short (py "news") ctx ->
  json_size s <= MAX_JSON_BYTES ->
  compact_world_state s = Ok s.
Proof.
  intros Hev Hlen Hctx Hw Hn Hsize.
  assert (Hclamp : clamp_all ctx = ctx).
  { unfold clamp_all. cbn [fold_left].
    rewrite (clamp_key_short _ _ Hw). apply (clamp_key_short _ _ Hn). }
  assert (H2 : stage2 s = Ok (s, ev)).
  { unfold stage2. rewrite (trim_events_small _ _ Hev Hlen). cbn [bind].
    rewrite (clamp_context_fixed s ctx) by now rewrite Hclamp.
    reflexivity. }
  rewrite (compact_after_stage2 _ _ _ H2).
  destruct (dumps_raises (VDict s)); [reflexivity|].
  destruct (Z.gtb_spec (json_size s) MAX_JSON_BYTES); [lia|reflexivity].
Qed.

Lemma compact_leaves_settled_state_witness :
  let ctx := [(Llm.k "weather", VStr (py "12.5 C, clear"))] in
  let s := Samples.with_events 3 ++ [(k_context, VDict ctx)] in
  events_of s = Ok (Samples.events 0 3) /\ len (Samples.events 0 3) <= MAX_EVENTS /\
  dict_get k_context s = Some (VDict ctx) /\
  short (py "weather") ctx /\ short (py "news") ctx /\
  json_size s <= MAX_JSON_BYTES /\
  compact_world_state s = Ok s.
Proof.
  cbv zeta.
  assert (Hw : short (py "weather") [(Llm.k "weather", VStr (py "12.5 C, clear"))]).
  { intros val H. vm_compute in H. inversion H. vm_compute. discriminate. }
  assert (Hn : short (py "news") [(Llm.k "weather", VStr (py "12.5 C, clear"))]).
  { intros val H. vm_compute in H. discriminate. }
  assert (Hsize : json_size (Samples.with_events 3 ++
            [(k_context, VDict [(Llm.k "weather", VStr (py "12.5 C, clear"))])])
            <= MAX_JSON_BYTES).
  { vm_compute. discriminate. }
  split; [reflexivity|]. split; [vm_compute; discriminate|].
  split; [reflexivity|]. split; [exact Hw|]. split; [exact Hn|].
  split; [exact Hsize|].
  apply (compact_leaves_settled_state _
           [(Llm.k "weather", VStr (py "12.5 C, clear"))] (Samples.events 0 3));
    solve [reflexivity | vm_compute; discriminate | assumption].
Defined.

(** An [events_log] that is a true value without a length (a non-zero
    number, [True]) makes compaction raise [TypeError]: [list] is applied to
    it before anything else. *)
Theorem compact_rejects_scalar_log (s : dict) (a : atom) :
  dict_get k_events_log s = Some (VAtom a) ->
  truthy (VAtom a) = true ->
  (forall t, a <> AStr t) ->
  compact_world_state s = Err TypeError.
Proof.
  intros Hget Htrue Hstr.
  unfold compact_world_state, stage2, trim_events, get, py_or.
  rewrite Hget, Htrue.
  destruct a as [| b | z | f | t]; try reflexivity.
  now destruct (Hstr t).
Qed.

Lemma compact_rejects_scalar_log_witness :
  let s := [(Llm.k "day", VInt 3); (k_events_log, VInt 7)] in
  dict_get k_events_log s = Some (VAtom (AInt 7)) /\
  truthy (VAtom (AInt 7)) = true /\
  (forall t, AInt 7 <> AStr t) /\
  compact_world_state s = Err TypeError.
Proof.
  cbv zeta. split; [reflexivity|]. split; [reflexivity|].
  split; [discriminate|].
  apply (compact_rejects_scalar_log _ (AInt 7));
    solve [reflexivity | discriminate].
Defined.

(** A state that compaction rejects is not written: the save raises and
    the row is as it was, the upsert of line 98 coming after the compaction
    of line 97. *)
Theorem rejected_state_is_not_saved (s : dict) (w : world) (e : exn) :
  compact_world_state s = Err e ->
  (exists e', fst (save_world_state s w) = Err e') /\
  kingdom (snd (save_world_state s w)) = kingdom w.
Proof.
  intros Hc. destruct w as [cfg row0 clk n f reqs].
  unfold save_world_state, mbind, _get_supabase, _utc_now_iso, lift, upsert, ret.
  cbn. destruct cfg; cbn.
  - rewrite Hc. cbn. split; [now exists e|reflexivity].
  - split; [now exists RuntimeError|reflexivity].
Qed.

Lemma rejected_state_is_not_saved_witness :
  let s := [(k_context, VStr (py "sunny"))] in
  let w := Server.with_row
             (Some (mk_row (VDict (Samples.with_events 3)) (py "then")))
             (Samples.some_world NoContent) in
  compact_world_state s = Err ValueError /\
  (exists e', fst (save_world_state s w) = Err e') /\
  kingdom (snd (save_world_state s w)) = kingdom w.
Proof.
  cbv zeta. split; [reflexivity|].
  apply (rejected_state_is_not_saved [(k_context, VStr (py "sunny"))] _ ValueError).
  reflexivity.
Defined.

(** ** Loading *)

Lemma load_world_state_existing (no_row : result any) (r : row) (w : world) :
  supabase_configured w = true ->
  kingdom w = Some r ->
  load_world_state no_row w =
    (Ok (match world_state r with VDict d => d | _ => [] end,
         VStr (Env.last_updated r)),
     w).
Proof.
  intros Hcfg Hrow. destruct w as [cfg row0 clk n f reqs].
  cbn in Hcfg, Hrow. subst cfg row0.
  unfold load_world_state, mbind, _get_supabase, select_single, lift, ret.
  cbn. reflexivity.
Qed.

(** With a row stored, [load_world_state] returns its state and time stamp
    and writes nothing; a [world_state] that is not an object is read as the
    empty state, and the bad value stays in the row. *)
Theorem load_reads_existing_row (no_row : result any) (r : row) (w : world) :
  supabase_configured w = true ->
  kingdom w = Some r ->
  load_world_state no_row w =
    (Ok (match world_state r with VDict d => d | _ => [] end,
         VStr (Env.last_updated r)),
     w).
Proof. apply load_world_state_existing. Qed.

Lemma load_reads_existing_row_witness :
  let r := mk_row (VStr (py "not an object")) (py "then") in
  let w := Server.with_row (Some r) (Samples.some_world NoContent) in
  supabase_configured w = true /\ kingdom w = Some r /\
  load_world_state (Err RuntimeError) w = (Ok ([], VStr (py "then")), w).
Proof.
  cbv zeta. split; [reflexivity|]. split; [reflexivity|].
  apply (load_reads_existing_row (Err RuntimeError)
           (mk_row (VStr (py "not an object")) (py "then")));
    reflexivity.
Defined.

(** Without a row: if the query raises, so does the load, and nothing is
    written; if it answers without data, the row is created with an empty
    state and the current time, which the load returns. *)
Theorem load_without_row (no_row : result any) (w : world) :
  supabase_configured w = true ->
  kingdom w = None ->
  (forall e, no_row = Err e -> load_world_state no_row w = (Err e, w)) /\
  (forall data, no_row = Ok data -> truthy data = false ->
     load_world_state no_row w =
       (Ok ([], VStr (clock w (ticks w))),
        mk_world true (Some (mk_row (VDict []) (clock w (ticks w)))) (clock w)
                 (S (ticks w)) (llm w) (llm_requests w))).
Proof.
  intros Hcfg Hrow. destruct w as [cfg row0 clk n f reqs].
  cbn in Hcfg, Hrow. subst cfg row0.
  unfold load_world_state, mbind, _get_supabase, select_single, lift, ret,
    _utc_now_iso, upsert.
  split.
  - intros e ->. reflexivity.
  - intros data -> Hfalse. cbn. unfold py_or. rewrite Hfalse. reflexivity.
Qed.

Lemma load_without_row_witness :
  let w := Samples.some_world NoContent in
  supabase_configured w = true /\ kingdom w = None /\
  (forall e, Ok VNone = Err e ->
     load_world_state (Ok VNone) w = (Err e, w)) /\
  (forall data, Ok VNone = Ok data -> truthy data = false ->
     load_world_state (Ok VNone) w =
       (Ok ([], VStr (clock w (ticks w))),
        mk_world true (Some (mk_row (VDict []) (clock w (ticks w)))) (clock w)
                 (S (ticks w)) (llm w) (llm_requests w))).
Proof.
  cbv zeta. split; [reflexivity|]. split; [reflexivity|].
  apply (load_without_row (Ok VNone) (Samples.some_world NoContent));
    reflexivity.
Defined.

(** Without the Supabase settings both operations raise [RuntimeError]
    before they do anything: no row is read or written and the clock is not
    read. *)
Theorem unconfigured_store_raises (no_row : result any) (s : dict) (w : world) :
  supabase_configured w = false ->
  load_world_state no_row w = (Err RuntimeError, w) /\
  save_world_state s w = (Err RuntimeError, w).
Proof.
  intros Hcfg.
  unfold load_world_state, save_world_state, mbind, _get_supabase.
  rewrite Hcfg. split; reflexivity.
Qed.

(** What a save has stored is settled: saving the stored state again stores
    the same state, under the next reading of the clock. *)
Theorem resave_stores_same_state (s : dict) (w w' : world) (ts : pystr) :
  save_world_state s w = (Ok ts, w') ->
  exists st,
    kingdom w' = Some (mk_row (VDict st) ts) /\
    save_world_state st w' =
      (Ok (clock w' (ticks w')),
       mk_world true (Some (mk_row (VDict st) (clock w' (ticks w')))) (clock w')
                (S (ticks w')) (llm w') (llm_requests w')).
Proof.
  intros Hsave. pose proof (save_world_state_cases s w) as Hcases.
  rewrite Hsave in Hcases. destruct Hcases as (_ & _ & st & Hst & ->).
  exists st. split; [reflexivity|].
  apply save_world_state_spec; [reflexivity|].
  exact (compact_world_state_fixed _ _ Hst).
Qed.

Lemma resave_stores_same_state_witness :
  let s := Samples.with_events 3 in
  let w := Samples.some_world NoContent in
  let ts := py "2025-01-01T00:00:00" in
  let w' := snd (save_world_state s w) in
  save_world_state s w = (Ok ts, w') /\
  exists st,
    kingdom w' = Some (mk_row (VDict st) ts) /\
    save_world_state st w' =
      (Ok (clock w' (ticks w')),
       mk_world true (Some (mk_row (VDict st) (clock w' (ticks w')))) (clock w')
                (S (ticks w')) (llm w') (llm_requests w')).
Proof.
  cbv zeta. split; [reflexivity|].
  apply (resave_stores_same_state (Samples.with_events 3)
           (Samples.some_world NoContent)).
  reflexivity.
Defined.

Lemma unconfigured_store_raises_witness :
  let w := mk_world false None (fun _ => py "now") 0 (fun _ => NoContent) [] in
  supabase_configured w = false /\
  load_world_state (Ok VNone) w = (Err RuntimeError, w) /\
  save_world_state (Samples.with_events 3) w = (Err RuntimeError, w).
Proof.
  cbv zeta. split; [reflexivity|].
  apply (unconfigured_store_raises (Ok VNone) (Samples.with_events 3)).
  reflexivity.
Defined.

(** ** What a normalised summary looks like *)

(** A replacement brings in no character that was not in the text or in the
    replacement. *)
Lemma replace_from_In (old new : pystr) (x : N) (t : pystr) :
  forall skip, In x (replace_from old new skip t) -> In x t \/ In x new.
Proof.
  induction t as [|c t IH]; intros skip; cbn [replace_from]; [intros []|].
  destruct skip as [|skip'].
  - destruct (startswith old (c :: t)).
    + rewrite in_app_iff. intros [H|H]; [now right|].
      destruct (IH _ H); [left; now right|now right].
    + intros [H|H]; [left; now left|].
      destruct (IH _ H); [left; now right|now right].
  - intros H. destruct (IH _ H); [left; now right|now right].
Qed.

Lemma replace_In (old new : pystr) (x : N) (t : pystr) :
  In x (replace old new t) -> In x t \/ In x new.
Proof. apply replace_from_In. Qed.

(** Replacing a character removes it, unless the replacement holds it. *)
Lemma replace_char_gone (c : N) (new t : pystr) :
  In c (replace [c] new t) -> In c new.
Proof.
  unfold replace. induction t as [|d t IH]; cbn [replace_from]; [intros []|].
  cbn [startswith]. destruct (N.eqb_spec c d) as [->|Hne]; cbn [andb].
  - rewrite in_app_iff. intros [H|H]; [assumption|].
    cbn [List.length Nat.sub] in H. now apply IH.
  - intros [H|H]; [congruence|now apply IH].
Qed.

Lemma collapse_loop_In (x : N) (fuel : nat) (t : pystr) :
  In x (collapse_loop fuel t) -> In x t \/ x = 32%N.
Proof.
  revert t. induction fuel as [|fuel IH]; intros t; cbn [collapse_loop];
    [tauto|].
  destruct (contains (py "  ") t); [|tauto].
  intros H. destruct (IH _ H) as [H'|H']; [|now right].
  destruct (replace_In _ _ _ _ H') as [H''|H'']; [now left|].
  right. cbn in H''. destruct H'' as [H''|[]]. now symmetry.
Qed.

(** Stripping keeps a stretch of the text: [lstrip] a suffix, [rstrip] a
    prefix. *)
Lemma lstrip_skipn (t : pystr) : exists m, lstrip t = skipn m t.
Proof.
  induction t as [|c t [m IH]]; [now exists O|].
  cbn [lstrip]. destruct (isspace c).
  - exists (S m). exact IH.
  - now exists O.
Qed.

Lemma rstrip_firstn (t : pystr) : exists m, rstrip t = firstn m t.
Proof.
  unfold rstrip. destruct (lstrip_skipn (rev t)) as [m ->].
  exists (List.length t - m)%nat. rewrite skipn_rev. apply rev_involutive.
Qed.

Lemma slice_to_is_firstn {A : Type} (j : Z) (l : list A) :
  exists m, slice_to j l = firstn m l.
Proof. unfold slice_to. eexists. reflexivity. Qed.

Lemma In_firstn {A : Type} (x : A) (m : nat) (l : list A) :
  In x (firstn m l) -> In x l.
Proof. intros H. rewrite <- (firstn_skipn m l). apply in_or_app. now left. Qed.

Lemma In_skipn {A : Type} (x : A) (m : nat) (l : list A) :
  In x (skipn m l) -> In x l.
Proof. intros H. rewrite <- (firstn_skipn m l). apply in_or_app. now right. Qed.

Lemma strip_In (x : N) (t : pystr) : In x (strip t) -> In x t.
Proof.
  unfold strip. destruct (rstrip_firstn (lstrip t)) as [m ->].
  destruct (lstrip_skipn t) as [m' ->].
  intros H. apply In_firstn in H. now apply In_skipn in H.
Qed.


Import Stages.

Lemma normalize_summary_stages (text : pystr) (max_len : Z) :
  _normalize_summary (VAtom (AStr text)) max_len =
    if len (cleaned text) >? max_len
    then rstrip (slice_to (max_len - 1) (cleaned text)) ++ [8230%N]
    else cleaned text.
Proof. reflexivity. Qed.

Lemma unbulleted_chars (x : N) (text : pystr) :
  In x (unbulleted text) -> x <> 10%N /\ x <> 13%N /\ x <> 8226%N.
Proof.
  unfold unbulleted, bullets. cbn [fold_left]. intros H.
  repeat split; intros ->.
  - do 3 (apply replace_In in H; destruct H as [H|[]]).
    apply replace_In in H. destruct H as [H|[]].
    apply replace_In in H. destruct H as [H|H]; [|cbn in H; intuition discriminate].
    apply replace_char_gone in H. cbn in H. intuition discriminate.
  - do 3 (apply replace_In in H; destruct H as [H|[]]).
    apply replace_In in H. destruct H as [H|[]].
    apply replace_char_gone in H. cbn in H. intuition discriminate.
  - do 3 (apply replace_In in H; destruct H as [H|[]]).
    apply replace_char_gone in H. destruct H.
Qed.

Lemma cleaned_chars (x : N) (text : pystr) :
  In x (cleaned text) -> x <> 10%N /\ x <> 13%N /\ x <> 8226%N.
Proof.
  unfold cleaned, collapse_spaces. intros H. apply strip_In in H.
  apply collapse_loop_In in H. destruct H as [H| ->].
  - now apply unbulleted_chars in H.
  - repeat split; discriminate.
Qed.

Lemma normalize_summary_chars (text : any) (max_len : Z) (x : N) :
  In x (_normalize_summary text max_len) ->
  x <> 10%N /\ x <> 13%N /\ x <> 8226%N.
Proof.
  destruct text as [[| | | |text]| |]; try (intros []).
  rewrite normalize_summary_stages.
  destruct (len (cleaned text) >? max_len); [|apply cleaned_chars].
  rewrite in_app_iff. intros [H|[<-|[]]]; [|repeat split; discriminate].
  destruct (rstrip_firstn (slice_to (max_len - 1) (cleaned text))) as [m Hm].
  rewrite Hm in H. apply In_firstn in H.
  destruct (slice_to_is_firstn (max_len - 1) (cleaned text)) as [m' Hm'].
  rewrite Hm' in H. apply In_firstn in H. now apply cleaned_chars in H.
Qed.

(** A normalised summary is one line without bullet dots: it holds no line
    feed, no carriage return and no ["•"]. *)
Theorem normalized_is_one_line (text : any) (max_len : Z) :
  ~ In 10%N (_normalize_summary text max_len) /\
  ~ In 13%N (_normalize_summary text max_len) /\
  ~ In 8226%N (_normalize_summary text max_len).
Proof.
  repeat split; intros H; apply normalize_summary_chars in H;
    intuition congruence.
Qed.

(** *** No two spaces in a row *)

Lemma startswith_firstn (sub : pystr) (m : nat) (t : pystr) :
  startswith sub (firstn m t) = true -> startswith sub t = true.
Proof.
  revert m t. induction sub as [|c sub IH]; intros m t; [reflexivity|].
  destruct m as [|m]; destruct t as [|d t]; cbn [firstn startswith];
    try discriminate.
  intros H. apply andb_prop in H as [Hc Hs]. rewrite Hc. cbn [andb].
  now apply IH in Hs.
Qed.

Lemma contains_firstn (sub : pystr) (m : nat) (t : pystr) :
  contains sub t = false -> contains sub (firstn m t) = false.
Proof.
  revert m. induction t as [|d t IH]; intros m.
  - now rewrite firstn_nil.
  - cbn [contains]. intros H. apply orb_false_elim in H as [Hs Hc].
    destruct m as [|m].
    + cbn [firstn contains]. destruct sub; [discriminate Hs|reflexivity].
    + cbn [firstn contains]. rewrite (IH m Hc), orb_false_r.
      destruct (startswith sub (d :: firstn m t)) eqn:E; [|reflexivity].
      apply (startswith_firstn sub (S m) (d :: t)) in E. congruence.
Qed.

Lemma contains_skipn (sub : pystr) (m : nat) (t : pystr) :
  contains sub t = false -> contains sub (skipn m t) = false.
Proof.
  revert t. induction m as [|m IH]; intros t H; [assumption|].
  destruct t as [|d t]; [assumption|].
  cbn [skipn]. apply IH. cbn [contains] in H.
  now apply orb_false_elim in H as [_ H].
Qed.

Lemma contains_spaces_snoc (p : pystr) (c : N) :
  c <> 32%N -> contains (py "  ") p = false ->
  contains (py "  ") (p ++ [c]) = false.
Proof.
  intros Hc. induction p as [|a p IH]; intros H.
  - change (py "  ") with [32%N; 32%N]. cbn [app contains startswith].
    destruct (N.eqb_spec 32 c); [congruence|reflexivity].
  - cbn [contains app] in *. apply orb_false_elim in H as [Hs Hp].
    rewrite (IH Hp), orb_false_r.
    change (py "  ") with [32%N; 32%N] in *. cbn [startswith] in *.
    destruct (N.eqb_spec 32 a); cbn [andb] in *; [|reflexivity].
    destruct p as [|b p]; cbn [app startswith] in *.
    + destruct (N.eqb_spec 32 c); [congruence|reflexivity].
    + assumption.
Qed.

Lemma cleaned_no_double_space (text : pystr) :
  contains (py "  ") (cleaned text) = false.
Proof.
  unfold cleaned, strip.
  destruct (rstrip_firstn (lstrip (collapse_spaces (unbulleted text)))) as [m ->].
  destruct (lstrip_skipn (collapse_spaces (unbulleted text))) as [m' ->].
  apply contains_firstn, contains_skipn, collapse_spaces_exits.
Qed.

Lemma normalize_summary_single_spaces (text : any) (max_len : Z) :
  contains (py "  ") (_normalize_summary text max_len) = false.
Proof.
  destruct text as [[| | | |text]| |]; try reflexivity.
  rewrite normalize_summary_stages.
  destruct (len (cleaned text) >? max_len); [|apply cleaned_no_double_space].
  apply contains_spaces_snoc; [discriminate|].
  destruct (rstrip_firstn (slice_to (max_len - 1) (cleaned text))) as [m ->].
  destruct (slice_to_is_firstn (max_len - 1) (cleaned text)) as [m' ->].
  apply contains_firstn, contains_firstn, cleaned_no_double_space.
Qed.

(** A normalised summary holds no two spaces in a row. *)
Theorem normalized_has_single_spaces (text : any) (max_len : Z) :
  contains (py "  ") (_normalize_summary text max_len) = false.
Proof. apply normalize_summary_single_spaces. Qed.

(** The cap of lines 30-31 holds: for a limit of at least one character, a
    normalised summary has at most [max_len] characters (220 by default). *)
Theorem normalized_within_limit (text : any) (max_len : Z) :
  1 <= max_len -> len (_normalize_summary text max_len) <= max_len.
Proof. apply normalize_summary_length. Qed.

Lemma normalized_within_limit_witness :
  1 <= 10 /\
  _normalize_summary (VStr (py "abcdefgh ijkl")) 10 = py "abcdefgh" ++ [8230%N] /\
  len (_normalize_summary (VStr (py "abcdefgh ijkl")) 10) <= 10.
Proof.
  split; [lia|]. split; [reflexivity|].
  apply (normalized_within_limit (VStr (py "abcdefgh ijkl")) 10). lia.
Defined.

(** *** No white space at the ends *)

Lemma lstrip_starts_clean (t : pystr) : starts_clean (lstrip t).
Proof.
  induction t as [|c t IH]; [exact I|].
  cbn [lstrip]. destruct (isspace c) eqn:E; [assumption|exact E].
Qed.

Lemma lstrip_of_starts_clean (t : pystr) : starts_clean t -> lstrip t = t.
Proof. destruct t as [|c t]; [reflexivity|]. cbn. now intros ->. Qed.

Lemma firstn_starts_clean (m : nat) (t : pystr) :
  starts_clean t -> starts_clean (firstn m t).
Proof. destruct m, t; cbn; auto. Qed.

Lemma rstrip_idem (t : pystr) : rstrip (rstrip t) = rstrip t.
Proof.
  unfold rstrip. rewrite rev_involutive.
  now rewrite (lstrip_of_starts_clean _ (lstrip_starts_clean (rev t))).
Qed.

Lemma rstrip_snoc (p : pystr) (c : N) :
  isspace c = false -> rstrip (p ++ [c]) = p ++ [c].
Proof.
  intros Hc. unfold rstrip. rewrite rev_unit. cbn [lstrip]. rewrite Hc.
  cbn [rev]. now rewrite rev_involutive.
Qed.

Lemma strip_starts_clean (t : pystr) : starts_clean (strip t).
Proof.
  unfold strip. destruct (rstrip_firstn (lstrip t)) as [m ->].
  apply firstn_starts_clean, lstrip_starts_clean.
Qed.

Lemma strip_idem (t : pystr) : strip (strip t) = strip t.
Proof.
  unfold strip at 1. rewrite (lstrip_of_starts_clean _ (strip_starts_clean t)).
  unfold strip. apply rstrip_idem.
Qed.

(** A normalised summary neither starts nor ends with white space:
    stripping it changes nothing. *)
Theorem normalized_is_stripped (text : any) (max_len : Z) :
  strip (_normalize_summary text max_len) = _normalize_summary text max_len.
Proof.
  destruct text as [[| | | |text]| |]; try reflexivity.
  rewrite normalize_summary_stages.
  destruct (len (cleaned text) >? max_len); [|apply strip_idem].
  set (q := rstrip (slice_to (max_len - 1) (cleaned text))).
  assert (Hq : starts_clean (q ++ [8230%N])).
  { assert (Hq' : starts_clean q).
    { unfold q.
      destruct (rstrip_firstn (slice_to (max_len - 1) (cleaned text))) as [m ->].
      destruct (slice_to_is_firstn (max_len - 1) (cleaned text)) as [m' ->].
      do 2 apply firstn_starts_clean. apply strip_starts_clean. }
    destruct q; [reflexivity|exact Hq']. }
  unfold strip. rewrite (lstrip_of_starts_clean _ Hq).
  now apply rstrip_snoc.
Qed.

(** *** Text that needs no cleaning *)

Lemma replace_absent (old new t : pystr) :
  contains old t = false -> replace old new t = t.
Proof.
  unfold replace. induction t as [|c t IH]; [reflexivity|].
  cbn [contains replace_from]. intros H. apply orb_false_elim in H as [Hs Hc].
  rewrite Hs. now rewrite (IH Hc).
Qed.

(** A text that is already clean comes back unchanged: no line break, none
    of the four bullet markers, no two spaces in a row, no white space at
    the ends, and within the limit. *)
Theorem clean_summary_unchanged (t : pystr) (max_len : Z) :
  contains [10%N] t = false ->
  contains [13%N] t = false ->
  (forall b, In b bullets -> contains b t = false) ->
  contains (py "  ") t = false ->
  strip t = t ->
  len t <= max_len ->
  _normalize_summary (VStr t) max_len = t.
Proof.
  intros Hlf Hcr Hb Hsp Hstrip Hlen.
  assert (Hun : unbulleted t = t).
  { unfold unbulleted, bullets in *. cbn [fold_left].
    rewrite (replace_absent _ _ _ Hlf), (replace_absent _ _ _ Hcr).
    rewrite (replace_absent [8226%N]) by (apply Hb; cbn; tauto).
    rewrite (replace_absent (py "- ")) by (apply Hb; cbn; tauto).
    rewrite (replace_absent [8211%N; 32%N]) by (apply Hb; cbn; tauto).
    apply replace_absent. apply Hb. cbn; tauto. }
  assert (Hcl : cleaned t = t).
  { unfold cleaned. rewrite Hun. unfold collapse_spaces.
    destruct (List.length t); cbn [collapse_loop]; [|rewrite Hsp]; exact Hstrip. }
  unfold VStr. rewrite normalize_summary_stages, Hcl.
  destruct (Z.gtb_spec (len t) max_len); [lia|reflexivity].
Qed.

Lemma clean_summary_unchanged_witness :
  let t := py "The mill turns, and the realm hums." in
  contains [10%N] t = false /\
  contains [13%N] t = false /\
  (forall b, In b bullets -> contains b t = false) /\
  contains (py "  ") t = false /\
  strip t = t /\
  len t <= 220 /\
  _normalize_summary (VStr t) 220 = t.
Proof.
  cbv zeta.
  assert (Hb : forall b, In b bullets ->
             contains b (py "The mill turns, and the realm hums.") = false).
  { intros b [<-|[<-|[<-|[<-|[]]]]]; reflexivity. }
  split; [reflexivity|]. split; [reflexivity|]. split; [exact Hb|].
  split; [reflexivity|]. split; [reflexivity|]. split; [vm_compute; discriminate|].
  apply (clean_summary_unchanged (py "The mill turns, and the realm hums.") 220);
    solve [reflexivity | exact Hb | vm_compute; discriminate].
Defined.

(** ** The mediator on every reply *)

(** What a call of the mediator does to the world: one request goes out,
    nothing else changes. *)
Lemma llm_transform_run (intent : any) (current : dict) (w : world) :
  llm_transform_world_state intent current w =
    (read_completion (llm w (user_payload intent current)) current,
     mk_world (supabase_configured w) (kingdom w) (clock w) (ticks w) (llm w)
              (llm_requests w ++ [user_payload intent current])).
Proof.
  unfold llm_transform_world_state, mbind, chat_completions_create, lift.
  cbn [llm]. destruct (read_completion _ _); reflexivity.
Qed.

Lemma choose_state (parsed : any) (current st : dict) (sm : any) :
  choose parsed current = Ok (st, sm) ->
  st = current \/
  exists d, parsed = VDict d /\ get (k "updated_world_state") d = VDict st.
Proof.
  unfold choose, parsed_get.
  destruct parsed as [a|l|d]; cbn [bind]; try discriminate.
  destruct (get (k "updated_world_state") d) as [a|l|u] eqn:Hu;
    intros H; inversion H; subst; auto.
  right. now exists d.
Qed.

(** Every summary the reading of a reply returns is a normalised one. *)
Lemma read_completion_summary (c : completion) (current st : dict) (sm : pystr) :
  read_completion c current = Ok (st, sm) ->
  exists chosen, sm = _normalize_summary (VStr chosen) 220.
Proof.
  destruct c as [| |parsed]; unfold read_completion.
  - destruct (choose (VDict []) current) as [[st0 sm0]|e] eqn:Hch;
      cbn [bind]; [|discriminate].
    intros H. inversion H; subst.
    destruct (choose_summary _ _ _ _ Hch) as (chosen & -> & _).
    now exists chosen.
  - intros H. inversion H; subst. exists PARSE_FAILED.
    symmetry. apply fallbacks_normal.
  - destruct (choose parsed current) as [[st0 sm0]|e] eqn:Hch;
      cbn [bind]; [|discriminate].
    intros H. inversion H; subst.
    destruct (choose_summary _ _ _ _ Hch) as (chosen & -> & _).
    now exists chosen.
Qed.

Lemma read_completion_state (c : completion) (current st : dict) (sm : pystr) :
  read_completion c current = Ok (st, sm) ->
  st = current \/
  exists d, c = Json (VDict d) /\ get (k "updated_world_state") d = VDict st.
Proof.
  destruct c as [| |parsed]; unfold read_completion.
  - destruct (choose (VDict []) current) as [[st0 sm0]|e] eqn:Hch;
      cbn [bind]; [|discriminate].
    intros H. inversion H; subst.
    destruct (choose_state _ _ _ _ Hch) as [->|(d & Hd & Hu)]; [now left|].
    inversion Hd; subst d. discriminate.
  - intros H. inversion H. now left.
  - destruct (choose parsed current) as [[st0 sm0]|e] eqn:Hch;
      cbn [bind]; [|discriminate].
    intros H. inversion H; subst.
    destruct (choose_state _ _ _ _ Hch) as [->|(d & -> & Hu)]; [now left|].
    right. now exists d.
Qed.

(** When the reply is an object that carries a state object, that state is
    the one returned, whatever it holds; the summary is the reply's,
    normalised, or ["The kingdom stirs, but nothing noteworthy happened."]
    when the reply's is missing, not a string or empty. *)
Theorem valid_state_is_adopted
  (intent : any) (current d u : dict) (w : world) :
  llm w (user_payload intent current) = Json (VDict d) ->
  get (k "updated_world_state") d = VDict u ->
  fst (llm_transform_world_state intent current w) =
    Ok (u,
        if nonempty_str (get (k "summary") d)
        then _normalize_summary (get (k "summary") d) 220
        else NOTHING_NOTEWORTHY).
Proof.
  intros Hreply Hu. rewrite llm_transform_run, Hreply. cbn [fst].
  unfold read_completion, choose, parsed_get. cbn [bind]. rewrite Hu.
  destruct (nonempty_str (get (k "summary") d)); cbn [bind]; [reflexivity|].
  change (nonempty_str (VStr NOTHING_NOTEWORTHY)) with true. cbv iota.
  now rewrite (proj2 (proj2 fallbacks_normal)).
Qed.

Lemma valid_state_is_adopted_witness :
  let d := [(k "updated_world_state",
             VDict [(k "kingdom_name", VStr (py "Sunspire")); (k "day", VInt 1)]);
            (k "summary", VStr (py "A realm is born."))] in
  let u := [(k "kingdom_name", VStr (py "Sunspire")); (k "day", VInt 1)] in
  let w := Samples.some_world (Json Samples.renaming_reply) in
  llm w (user_payload (VDict []) (Samples.with_events 3)) = Json (VDict d) /\
  get (k "updated_world_state") d = VDict u /\
  fst (llm_transform_world_state (VDict []) (Samples.with_events 3) w) =
    Ok (u, py "A realm is born.").
Proof.
  cbv zeta. split; [reflexivity|]. split; [reflexivity|].
  apply (valid_state_is_adopted (VDict []) (Samples.with_events 3)
           [(k "updated_world_state",
             VDict [(k "kingdom_name", VStr (py "Sunspire")); (k "day", VInt 1)]);
            (k "summary", VStr (py "A realm is born."))]
           [(k "kingdom_name", VStr (py "Sunspire")); (k "day", VInt 1)]
           (Samples.some_world (Json Samples.renaming_reply)));
    reflexivity.
Defined.

(** Whatever the backend replies, a result of the mediator is safe to use:
    the state is the current one or the reply's own state object, and the
    summary has at most 220 characters, on one line, without doubled
    spaces. *)
Theorem mediated_result_is_safe
  (intent : any) (current st : dict) (sm : pystr) (w : world) :
  fst (llm_transform_world_state intent current w) = Ok (st, sm) ->
  (st = current \/
   exists d, llm w (user_payload intent current) = Json (VDict d) /\
             get (k "updated_world_state") d = VDict st) /\
  len sm <= 220 /\ ~ In 10%N sm /\ ~ In 13%N sm /\
  contains (py "  ") sm = false.
Proof.
  rewrite llm_transform_run. cbn [fst]. intros H.
  split; [exact (read_completion_state _ _ _ _ H)|].
  destruct (read_completion_summary _ _ _ _ H) as [chosen ->].
  split; [apply normalize_summary_length; lia|].
  split; [|split].
  - intros Hin. apply normalize_summary_chars in Hin. intuition congruence.
  - intros Hin. apply normalize_summary_chars in Hin. intuition congruence.
  - apply normalize_summary_single_spaces.
Qed.

Lemma mediated_result_is_safe_witness :
  let w := Samples.some_world (Json Samples.renaming_reply) in
  let st := [(k "kingdom_name", VStr (py "Sunspire")); (k "day", VInt 1)] in
  let sm := py "A realm is born." in
  fst (llm_transform_world_state (VDict []) [] w) = Ok (st, sm) /\
  (st = [] \/
   exists d, llm w (user_payload (VDict []) []) = Json (VDict d) /\
             get (k "updated_world_state") d = VDict st) /\
  len sm <= 220 /\ ~ In 10%N sm /\ ~ In 13%N sm /\
  contains (py "  ") sm = false.
Proof.
  cbv zeta. split; [reflexivity|].
  apply (mediated_result_is_safe (VDict []) []
           [(k "kingdom_name", VStr (py "Sunspire")); (k "day", VInt 1)]
           (py "A realm is born.")
           (Samples.some_world (Json Samples.renaming_reply))).
  reflexivity.
Defined.

(** A reply that is empty, not JSON, or a JSON object is read without an
    exception, whatever the object holds: lines 101-120 return a state and a
    summary. *)
Theorem object_reply_is_read
  (intent : any) (current : dict) (w : world) :
  llm w (user_payload intent current) = NoContent \/
  llm w (user_payload intent current) = BadJson \/
  (exists d, llm w (user_payload intent current) = Json (VDict d)) ->
  exists st sm,
    read_completion (llm w (user_payload intent current)) current = Ok (st, sm) /\
    fst (llm_transform_world_state intent current w) = Ok (st, sm).
Proof.
  intros Hreply. rewrite llm_transform_run. cbn [fst].
  assert (Hobj : forall d, exists st sm,
            read_completion (Json (VDict d)) current = Ok (st, sm)).
  { intros d. unfold read_completion, choose, parsed_get. cbn [bind].
    destruct (get (k "updated_world_state") d); cbn [bind];
      destruct (nonempty_str (get (k "summary") d)); cbn [bind];
      do 2 eexists; reflexivity. }
  destruct Hreply as [-> | [-> | [d ->]]].
  - destruct (Hobj []) as (st & sm & H). exists st, sm. split; exact H.
  - do 2 eexists. split; reflexivity.
  - destruct (Hobj d) as (st & sm & H). exists st, sm. split; exact H.
Qed.

Lemma object_reply_is_read_witness :
  let intent := VDict [(k "type", VStr (py "query"))] in
  let current := Samples.with_events 3 in
  let w := Samples.some_world (Json Samples.renaming_reply) in
  (llm w (user_payload intent current) = NoContent \/
   llm w (user_payload intent current) = BadJson \/
   (exists d, llm w (user_payload intent current) = Json (VDict d))) /\
  exists st sm,
    read_completion (llm w (user_payload intent current)) current = Ok (st, sm) /\
    fst (llm_transform_world_state intent current w) = Ok (st, sm).
Proof.
  cbv zeta.
  assert (H : forall (intent : any) (current : dict),
            llm (Samples.some_world (Json Samples.renaming_reply))
                (user_payload intent current) = NoContent \/
            llm (Samples.some_world (Json Samples.renaming_reply))
                (user_payload intent current) = BadJson \/
            (exists d, llm (Samples.some_world (Json Samples.renaming_reply))
                           (user_payload intent current) = Json (VDict d))).
  { intros intent current. right. right. eexists. reflexivity. }
  split; [apply H|].
  apply (object_reply_is_read (VDict [(k "type", VStr (py "query"))])
           (Samples.with_events 3)
           (Samples.some_world (Json Samples.renaming_reply))).
  apply H.
Defined.

(** ** The tools *)

Import Tools.

(** The common course of the three mediated tools, with a row stored. *)
Lemma run_tool_steps (no_row : result any) (t : mediated_tool) (r : row)
  (w : world) :
  supabase_configured w = true ->
  kingdom w = Some r ->
  let s := match world_state r with VDict d => d | _ => [] end in
  let payload := user_payload (tool_intent t) s in
  let w1 := mk_world (supabase_configured w) (kingdom w) (clock w) (ticks w)
                     (llm w) (llm_requests w ++ [payload]) in
  run_tool no_row t w =
    match read_completion (llm w payload) s with
    | Err e => (Err e, w1)
    | Ok (updated, sm) =>
        match save_world_state updated w1 with
        | (Ok ts, w2) => (Ok (summary_answer sm ts), w2)
        | (Err e, w2) => (Err e, w2)
        end
    end.
Proof.
  intros Hcfg Hrow. cbv zeta.
  destruct t; unfold run_tool, _perform_kingdom_action, _perform_kingdom_query,
    apply_cheat, mbind;
    rewrite (load_world_state_existing no_row r w Hcfg Hrow);
    rewrite llm_transform_run; cbn [tool_intent];
    (destruct (read_completion _ _) as [[updated sm]|e]; [|reflexivity]);
    (destruct (save_world_state _ _) as [[ts|e] w2]; reflexivity).
Qed.

Lemma run_tool_success (no_row : result any) (t : mediated_tool)
  (s updated st : dict) (lu sm : pystr) (w : world) :
  supabase_configured w = true ->
  kingdom w = Some (mk_row (VDict s) lu) ->
  read_completion (llm w (user_payload (tool_intent t) s)) s = Ok (updated, sm) ->
  compact_world_state updated = Ok st ->
  run_tool no_row t w =
    (Ok (summary_answer sm (clock w (ticks w))),
     mk_world true (Some (mk_row (VDict st) (clock w (ticks w)))) (clock w)
              (S (ticks w)) (llm w)
              (llm_requests w ++ [user_payload (tool_intent t) s])).
Proof.
  intros Hcfg Hrow Hread Hc.
  rewrite (run_tool_steps no_row t _ w Hcfg Hrow). cbn [world_state].
  rewrite Hread.
  match goal with |- context [save_world_state updated ?w1] =>
    rewrite (save_world_state_spec updated st w1 Hcfg Hc)
  end.
  reflexivity.
Qed.

(** How the mediated tools compose: the stored state goes to the backend
    with the intent, once; the state that comes back is compacted and
    stored; the answer carries the summary and the time of the save. *)
Theorem mediated_tool_pipeline (no_row : result any) (t : mediated_tool)
  (s updated st : dict) (lu sm : pystr) (w : world) :
  supabase_configured w = true ->
  kingdom w = Some (mk_row (VDict s) lu) ->
  read_completion (llm w (user_payload (tool_intent t) s)) s = Ok (updated, sm) ->
  compact_world_state updated = Ok st ->
  run_tool no_row t w =
    (Ok (summary_answer sm (clock w (ticks w))),
     mk_world true (Some (mk_row (VDict st) (clock w (ticks w)))) (clock w)
              (S (ticks w)) (llm w)
              (llm_requests w ++ [user_payload (tool_intent t) s])).
Proof. apply run_tool_success. Qed.

Lemma mediated_tool_pipeline_witness :
  let t := Action (py "collect_taxes") None in
  let s := Samples.with_events 3 in
  let updated := [(k "kingdom_name", VStr (py "Sunspire")); (k "day", VInt 1)] in
  let st := updated ++ [(k_context, VDict [])] in
  let w := Server.with_row (Some (mk_row (VDict s) (py "then")))
             (Samples.some_world (Json Samples.renaming_reply)) in
  supabase_configured w = true /\
  kingdom w = Some (mk_row (VDict s) (py "then")) /\
  read_completion (llm w (user_payload (tool_intent t) s)) s =
    Ok (updated, py "A realm is born.") /\
  compact_world_state updated = Ok st /\
  run_tool (Err RuntimeError) t w =
    (Ok (summary_answer (py "A realm is born.") (clock w (ticks w))),
     mk_world true (Some (mk_row (VDict st) (clock w (ticks w)))) (clock w)
              (S (ticks w)) (llm w)
              (llm_requests w ++ [user_payload (tool_intent t) s])).
Proof.
  cbv zeta. do 4 (split; [reflexivity|]).
  apply (mediated_tool_pipeline (Err RuntimeError)
           (Action (py "collect_taxes") None) (Samples.with_events 3)
           [(k "kingdom_name", VStr (py "Sunspire")); (k "day", VInt 1)]
           ([(k "kingdom_name", VStr (py "Sunspire")); (k "day", VInt 1)]
              ++ [(k_context, VDict [])])
           (py "then") (py "A realm is born."));
    reflexivity.
Defined.

(** A reply that cannot be used leaves the document as it is: when the
    stored state is settled (as every saved state is) and the reply is
    unparsable, empty, or an object without a state object, the tool stores
    the same state again and answers with a summary. *)
Theorem malformed_reply_keeps_document (no_row : result any)
  (t : mediated_tool) (s : dict) (lu : pystr) (w : world) :
  supabase_configured w = true ->
  kingdom w = Some (mk_row (VDict s) lu) ->
  compact_world_state s = Ok s ->
  (llm w (user_payload (tool_intent t) s) = BadJson \/
   llm w (user_payload (tool_intent t) s) = NoContent \/
   exists d, llm w (user_payload (tool_intent t) s) = Json (VDict d) /\
             forall u, get (k "updated_world_state") d <> VDict u) ->
  exists sm,
    fst (run_tool no_row t w) = Ok (summary_answer sm (clock w (ticks w))) /\
    kingdom (snd (run_tool no_row t w)) =
      Some (mk_row (VDict s) (clock w (ticks w))).
Proof.
  intros Hcfg Hrow Hs Hreply.
  assert (Hread : exists sm,
            read_completion (llm w (user_payload (tool_intent t) s)) s =
              Ok (s, sm)).
  { destruct Hreply as [-> | [-> | (d & -> & Hno)]]; unfold read_completion.
    - now eexists.
    - rewrite choose_without_state by (intros u; discriminate).
      cbn [bind]. now eexists.
    - rewrite (choose_without_state _ _ Hno). cbn [bind]. now eexists. }
  destruct Hread as [sm Hread]. exists sm.
  rewrite (run_tool_success no_row t s s s lu sm w Hcfg Hrow Hread Hs).
  split; reflexivity.
Qed.

Lemma malformed_reply_keeps_document_witness :
  let t := Query (py "How is the harvest?") in
  let s := Samples.with_events 3 ++ [(k_context, VDict [])] in
  let w := Server.with_row (Some (mk_row (VDict s) (py "then")))
             (Samples.some_world BadJson) in
  supabase_configured w = true /\
  kingdom w = Some (mk_row (VDict s) (py "then")) /\
  compact_world_state s = Ok s /\
  (llm w (user_payload (tool_intent t) s) = BadJson \/
   llm w (user_payload (tool_intent t) s) = NoContent \/
   exists d, llm w (user_payload (tool_intent t) s) = Json (VDict d) /\
             forall u, get (k "updated_world_state") d <> VDict u) /\
  exists sm,
    fst (run_tool (Err RuntimeError) t w) =
      Ok (summary_answer sm (clock w (ticks w))) /\
    kingdom (snd (run_tool (Err RuntimeError) t w)) =
      Some (mk_row (VDict s) (clock w (ticks w))).
Proof.
  cbv zeta. do 3 (split; [reflexivity|]). split; [left; reflexivity|].
  apply (malformed_reply_keeps_document (Err RuntimeError)
           (Query (py "How is the harvest?"))
           (Samples.with_events 3 ++ [(k_context, VDict [])]) (py "then"));
    solve [reflexivity | left; reflexivity].
Defined.

(** Without the Supabase settings every tool that goes through the store
    stops at its first step with [RuntimeError]: nothing is written, the
    backend gets no request, the context providers' answers are not used. *)
Theorem tools_stop_without_store (no_row : result any) (w : world)
  (t : mediated_tool)
  (fetch_weather : pystr -> option pystr) (fetch_news : option pystr)
  (city : pystr) (reference_city climate_theme : option pystr)
  (lat lon : option pyfloat) :
  supabase_configured w = false ->
  run_tool no_row t w = (Err RuntimeError, w) /\
  get_world_state no_row w = (Err RuntimeError, w) /\
  set_realm_location no_row reference_city lat lon climate_theme w =
    (Err RuntimeError, w) /\
  update_weather_context no_row fetch_weather city w = (Err RuntimeError, w) /\
  update_news_context no_row fetch_news w = (Err RuntimeError, w).
Proof.
  intros Hcfg.
  assert (Hload : load_world_state no_row w = (Err RuntimeError, w)).
  { unfold load_world_state, mbind, _get_supabase. now rewrite Hcfg. }
  repeat split;
    try destruct t;
    unfold run_tool, _perform_kingdom_action, _perform_kingdom_query,
      apply_cheat, get_world_state, set_realm_location, update_weather_context,
      update_news_context, mbind;
    now rewrite Hload.
Qed.

Lemma tools_stop_without_store_witness :
  let w := mk_world false None (fun _ => py "now") 0 (fun _ => NoContent) [] in
  supabase_configured w = false /\
  run_tool (Ok VNone) (Query (py "news?")) w = (Err RuntimeError, w) /\
  get_world_state (Ok VNone) w = (Err RuntimeError, w) /\
  set_realm_location (Ok VNone) (Some (py "Budapest")) None None None w =
    (Err RuntimeError, w) /\
  update_weather_context (Ok VNone) (fun _ => Some (py "clear")) (py "Budapest") w
    = (Err RuntimeError, w) /\
  update_news_context (Ok VNone) (Some (py "headline")) w = (Err RuntimeError, w).
Proof.
  cbv zeta. split; [reflexivity|].
  apply (tools_stop_without_store (Ok VNone)
           (mk_world false None (fun _ => py "now") 0 (fun _ => NoContent) [])
           (Query (py "news?")) (fun _ => Some (py "clear"))
           (Some (py "headline")) (py "Budapest") (Some (py "Budapest"))
           None None None).
  reflexivity.
Defined.

(** [create_kingdom] is different: it asks the backend first and only then
    reaches for the store.  When the reply has been read and the Supabase
    settings are missing, the tool fails with [RuntimeError] after the
    request, and nothing is stored. *)
Theorem create_kingdom_asks_before_store
  (kingdom_name : pystr) (theme : option pystr) (w : world)
  (updated : dict) (sm : pystr) :
  supabase_configured w = false ->
  read_completion
    (llm w (user_payload (VDict (init_intent kingdom_name theme)) [])) [] =
    Ok (updated, sm) ->
  create_kingdom kingdom_name theme w =
    (Err RuntimeError,
     mk_world false (kingdom w) (clock w) (ticks w) (llm w)
       (llm_requests w ++
          [user_payload (VDict (init_intent kingdom_name theme)) []])).
Proof.
  intros Hcfg Hread. rewrite create_kingdom_steps, Hread.
  unfold save_world_state, mbind, _get_supabase.
  cbn [supabase_configured]. rewrite Hcfg. reflexivity.
Qed.

Lemma create_kingdom_asks_before_store_witness :
  let w := mk_world false None (fun _ => py "now") 0
             (fun _ => Json Samples.renaming_reply) [] in
  supabase_configured w = false /\
  read_completion
    (llm w (user_payload (VDict (init_intent (py "Verdant Vale") None)) [])) [] =
    Ok ([(k "kingdom_name", VStr (py "Sunspire")); (k "day", VInt 1)],
        py "A realm is born.") /\
  create_kingdom (py "Verdant Vale") None w =
    (Err RuntimeError,
     mk_world false (kingdom w) (clock w) (ticks w) (llm w)
       (llm_requests w ++
          [user_payload (VDict (init_intent (py "Verdant Vale") None)) []])).
Proof.
  cbv zeta. split; [reflexivity|]. split; [reflexivity|].
  apply (create_kingdom_asks_before_store (py "Verdant Vale") None
           (mk_world false None (fun _ => py "now") 0
              (fun _ => Json Samples.renaming_reply) [])
           [(k "kingdom_name", VStr (py "Sunspire")); (k "day", VInt 1)]
           (py "A realm is born."));
    reflexivity.
Defined.

(** ** The tools that write into the context *)

Lemma clamp_key_other_atom (a : atom) (key : pystr) (ctx : dict) :
  key_eqb a (AStr key) = false ->
  dict_get a (clamp_key ctx key) = dict_get a ctx.
Proof.
  intros Hk. unfold clamp_key.
  destruct (get (AStr key) ctx) as [[| | | |val0]| |]; try reflexivity.
  destruct (len val0 >? 300); [|reflexivity].
  now apply dict_get_set_other.
Qed.

(** The loop leaves every key but the two alone. *)
Lemma clamp_all_other_atom (a : atom) (ctx : dict) :
  key_eqb a (AStr (py "weather")) = false ->
  key_eqb a (AStr (py "news")) = false ->
  dict_get a (clamp_all ctx) = dict_get a ctx.
Proof.
  intros Hw Hn. unfold clamp_all. cbn [fold_left].
  now rewrite !clamp_key_other_atom.
Qed.

(** Under either key a string comes out of the loop as its first 300
    characters, which is all of it when it is short. *)
Lemma clamp_all_string (key val : pystr) (ctx : dict) :
  key = py "weather" \/ key = py "news" ->
  dict_get (AStr key) ctx = Some (VStr val) ->
  dict_get (AStr key) (clamp_all ctx) = Some (VStr (firstn 300 val)).
Proof.
  intros Hkey Hval.
  assert (Hget : get (AStr key) ctx = VStr val) by (unfold get; now rewrite Hval).
  destruct (Z_le_gt_dec (len val) 300) as [Hle|Hgt].
  - rewrite firstn_all2 by (unfold len in Hle; lia).
    assert (Hshort : short key ctx).
    { intros v Hv. rewrite Hget in Hv. inversion Hv. now subst. }
    destruct Hkey as [-> | ->]; unfold clamp_all; cbn [fold_left].
    + rewrite dict_get_clamp_key_other by reflexivity.
      now rewrite (clamp_key_short _ _ Hshort).
    + assert (Hshort' : short (py "news") (clamp_key ctx (py "weather"))).
      { intros v. rewrite clamp_key_other by reflexivity. apply Hshort. }
      rewrite (clamp_key_short _ _ Hshort').
      now rewrite dict_get_clamp_key_other by reflexivity.
  - rewrite (clamp_all_long key val ctx Hkey Hget) by lia.
    change 300 with (Z.of_nat 300). now rewrite slice_to_firstn.
Qed.

(** Writing a key into the context of a state and compacting the result:
    the context compaction leaves is the clamped copy of the written one. *)
Lemma context_write_compacted (key : pystr) (value : any) (s ctx0 st : dict) :
  py_dict (py_or (get k_context s) (VDict [])) = Ok ctx0 ->
  let ws := dict_set k_context (VDict (dict_set (AStr key) value ctx0)) s in
  with_context_key key value s = Ok ws /\
  (compact_world_state ws = Ok st ->
   dict_get k_context st =
     Some (VDict (clamp_all (dict_set (AStr key) value ctx0)))).
Proof.
  intros Hctx. cbv zeta.
  set (ctx1 := dict_set (AStr key) value ctx0).
  set (ws := dict_set k_context (VDict ctx1) s).
  split; [unfold with_context_key; rewrite Hctx; reflexivity|].
  intros Hst.
  assert (Hctx1 : py_dict (py_or (get k_context ws) (VDict [])) = Ok ctx1).
  { unfold ws, k_context. rewrite get_set_same. apply py_dict_or_dict. }
  destruct (compact_context _ _ Hst) as (ctx & Hd & Hget).
  rewrite Hctx1 in Hd. inversion Hd; subst ctx. exact Hget.
Qed.

(** [set_realm_location] with a row stored, when the compaction of the
    written state returns [st]: the location the tool built is what the
    answer reports and what the stored context holds under [location]; the
    other keys of the context are as they were, weather and news apart,
    which are clamped. *)
Theorem set_realm_location_stores_location (no_row : result any)
  (reference_city climate_theme : option pystr) (lat lon : option pyfloat)
  (s ctx0 st : dict) (lu : pystr) (w : world) :
  supabase_configured w = true ->
  kingdom w = Some (mk_row (VDict s) lu) ->
  py_dict (py_or (get k_context s) (VDict [])) = Ok ctx0 ->
  let location := build_location reference_city lat lon climate_theme in
  let now := clock w (ticks w) in
  compact_world_state
    (dict_set k_context
       (VDict (dict_set (k "location") (VDict location) ctx0)) s) = Ok st ->
  exists ctx',
    fst (set_realm_location no_row reference_city lat lon climate_theme w) =
      Ok (VDict [(k "ok", VBool true); (k "location", VDict location);
                 (k "last_updated", VStr now)]) /\
    kingdom (snd (set_realm_location no_row reference_city lat lon
                    climate_theme w)) = Some (mk_row (VDict st) now) /\
    dict_get k_context st = Some (VDict ctx') /\
    dict_get (k "location") ctx' = Some (VDict location) /\
    (forall a, key_eqb a (k "location") = false ->
               key_eqb a (k "weather") = false ->
               key_eqb a (k "news") = false ->
               dict_get a ctx' = dict_get a ctx0).
Proof.
  intros Hcfg Hrow Hctx. cbv zeta.
  set (location := build_location reference_city lat lon climate_theme).
  intros Hst. change (k "location") with (AStr (py "location")) in Hst.
  destruct (context_write_compacted (py "location") (VDict location) s ctx0 st
              Hctx) as (Hws & Hget).
  specialize (Hget Hst).
  exists (clamp_all (dict_set (AStr (py "location")) (VDict location) ctx0)).
  unfold set_realm_location, mbind, lift, ret.
  rewrite (load_world_state_existing no_row _ w Hcfg Hrow). cbn [world_state].
  fold location. rewrite Hws.
  rewrite (save_world_state_spec _ _ w Hcfg Hst). cbn [fst snd kingdom].
  split; [reflexivity|]. split; [reflexivity|]. split; [assumption|]. split.
  - rewrite clamp_all_other_atom by reflexivity. apply dict_get_set_same.
  - intros a Hl Hw Hn. rewrite (clamp_all_other_atom a) by assumption.
    now apply dict_get_set_other.
Qed.

Lemma set_realm_location_stores_location_witness :
  let s := Samples.with_weather in
  let ctx0 := [(k "weather", VStr Samples.long_weather)] in
  let w := Server.with_row (Some (mk_row (VDict s) (py "then")))
             (Samples.some_world NoContent) in
  let location := build_location (Some (py "Budapest")) None None None in
  let st := [(k "day", VInt 3);
             (k_context, VDict [(k "weather", VStr (repeat 119%N 300));
                                (k "location", VDict location)])] in
  let now := clock w (ticks w) in
  supabase_configured w = true /\
  kingdom w = Some (mk_row (VDict s) (py "then")) /\
  py_dict (py_or (get k_context s) (VDict [])) = Ok ctx0 /\
  compact_world_state
    (dict_set k_context
       (VDict (dict_set (k "location") (VDict location) ctx0)) s) = Ok st /\
  exists ctx',
    fst (set_realm_location (Err RuntimeError) (Some (py "Budapest")) None None
           None w) =
      Ok (VDict [(k "ok", VBool true); (k "location", VDict location);
                 (k "last_updated", VStr now)]) /\
    kingdom (snd (set_realm_location (Err RuntimeError) (Some (py "Budapest"))
                    None None None w)) = Some (mk_row (VDict st) now) /\
    dict_get k_context st = Some (VDict ctx') /\
    dict_get (k "location") ctx' = Some (VDict location) /\
    (forall a, key_eqb a (k "location") = false ->
               key_eqb a (k "weather") = false ->
               key_eqb a (k "news") = false ->
               dict_get a ctx' = dict_get a ctx0).
Proof.
  cbv zeta. do 3 (split; [reflexivity|]). split; [vm_compute; reflexivity|].
  apply (set_realm_location_stores_location (Err RuntimeError)
           (Some (py "Budapest")) None None None Samples.with_weather
           [(k "weather", VStr Samples.long_weather)] _ (py "then"));
    solve [reflexivity | vm_compute; reflexivity].
Defined.

(** The two context updates with a row stored, when the compaction of the
    written state returns [st]: the answer reports the text the provider
    returned, whole, while the stored context holds its first 300
    characters. *)
Theorem context_update_stores_clamped (no_row : result any)
  (fetch_weather : pystr -> option pystr) (fetch_news : option pystr)
  (city : pystr) (s ctx0 : dict) (lu : pystr) (w : world) :
  supabase_configured w = true ->
  kingdom w = Some (mk_row (VDict s) lu) ->
  py_dict (py_or (get k_context s) (VDict [])) = Ok ctx0 ->
  let now := clock w (ticks w) in
  (forall text st, fetch_weather city = Some text -> text <> [] ->
     compact_world_state
       (dict_set k_context
          (VDict (dict_set (k "weather") (VStr text) ctx0)) s) = Ok st ->
     exists ctx',
       fst (update_weather_context no_row fetch_weather city w) =
         Ok (VDict [(k "ok", VBool true); (k "weather", VStr text);
                    (k "last_updated", VStr now)]) /\
       kingdom (snd (update_weather_context no_row fetch_weather city w)) =
         Some (mk_row (VDict st) now) /\
       dict_get k_context st = Some (VDict ctx') /\
       dict_get (k "weather") ctx' = Some (VStr (firstn 300 text))) /\
  (forall text st, fetch_news = Some text -> text <> [] ->
     compact_world_state
       (dict_set k_context
          (VDict (dict_set (k "news") (VStr text) ctx0)) s) = Ok st ->
     exists ctx',
       fst (update_news_context no_row fetch_news w) =
         Ok (VDict [(k "ok", VBool true); (k "news", VStr text);
                    (k "last_updated", VStr now)]) /\
       kingdom (snd (update_news_context no_row fetch_news w)) =
         Some (mk_row (VDict st) now) /\
       dict_get k_context st = Some (VDict ctx') /\
       dict_get (k "news") ctx' = Some (VStr (firstn 300 text))).
Proof.
  intros Hcfg Hrow Hctx. cbv zeta. split.
  - intros text st Hfetch Hne Hst.
    change (k "weather") with (AStr (py "weather")) in Hst.
    destruct (context_write_compacted (py "weather") (VStr text) s ctx0 st
                Hctx) as (Hws & Hget).
    specialize (Hget Hst).
    exists (clamp_all (dict_set (AStr (py "weather")) (VStr text) ctx0)).
    unfold update_weather_context, mbind, lift, ret.
    rewrite (load_world_state_existing no_row _ w Hcfg Hrow). cbn [world_state].
    rewrite Hfetch. destruct text as [|ch text]; [congruence|].
    rewrite Hws. rewrite (save_world_state_spec _ _ w Hcfg Hst).
    cbn [fst snd kingdom].
    split; [reflexivity|]. split; [reflexivity|]. split; [assumption|].
    apply clamp_all_string; [now left|apply dict_get_set_same].
  - intros text st Hfetch Hne Hst.
    change (k "news") with (AStr (py "news")) in Hst.
    destruct (context_write_compacted (py "news") (VStr text) s ctx0 st
                Hctx) as (Hws & Hget).
    specialize (Hget Hst).
    exists (clamp_all (dict_set (AStr (py "news")) (VStr text) ctx0)).
    unfold update_news_context, mbind, lift, ret.
    rewrite (load_world_state_existing no_row _ w Hcfg Hrow). cbn [world_state].
    rewrite Hfetch. destruct text as [|ch text]; [congruence|].
    rewrite Hws. rewrite (save_world_state_spec _ _ w Hcfg Hst).
    cbn [fst snd kingdom].
    split; [reflexivity|]. split; [reflexivity|]. split; [assumption|].
    apply clamp_all_string; [now right|apply dict_get_set_same].
Qed.

(** When the provider returns nothing, or an empty text, a context update
    answers [ok: False] and writes nothing of its own: the world is as
    [load_world_state] left it, which is as it was when a row is stored. *)
Theorem failed_fetch_writes_nothing (no_row : result any)
  (fetch_weather : pystr -> option pystr) (fetch_news : option pystr)
  (city : pystr) (w w1 : world) (loaded : dict * any) :
  load_world_state no_row w = (Ok loaded, w1) ->
  (fetch_weather city = None \/ fetch_weather city = Some [] ->
   update_weather_context no_row fetch_weather city w =
     (Ok (VDict [(k "ok", VBool false);
                 (k "message", VStr (py "Could not fetch weather"))]), w1)) /\
  (fetch_news = None \/ fetch_news = Some [] ->
   update_news_context no_row fetch_news w =
     (Ok (VDict [(k "ok", VBool false);
                 (k "message", VStr (py "Could not fetch news"))]), w1)) /\
  (forall r, kingdom w = Some r -> w1 = w).
Proof.
  intros Hload. split; [|split].
  - intros [H|H]; unfold update_weather_context, mbind, ret;
      rewrite Hload; destruct loaded as [ws lu]; rewrite H; reflexivity.
  - intros [H|H]; unfold update_news_context, mbind, ret;
      rewrite Hload; destruct loaded as [ws lu]; rewrite H; reflexivity.
  - intros r Hrow.
    destruct (supabase_configured w) eqn:Hcfg.
    + rewrite (load_world_state_existing no_row r w Hcfg Hrow) in Hload.
      now inversion Hload.
    + unfold load_world_state, mbind, _get_supabase in Hload.
      rewrite Hcfg in Hload. discriminate.
Qed.

Lemma context_update_stores_clamped_witness :
  let fetch_weather := fun _ : pystr => Some Samples.long_weather in
  let fetch_news := Some (py "Today's featured article: Tiny Kingdom") in
  let s := [(k "day", VInt 3)] in
  let w := Server.with_row (Some (mk_row (VDict s) (py "then")))
             (Samples.some_world NoContent) in
  let now := clock w (ticks w) in
  let st := [(k "day", VInt 3);
             (k_context, VDict [(k "weather", VStr (repeat 119%N 300))])] in
  supabase_configured w = true /\
  kingdom w = Some (mk_row (VDict s) (py "then")) /\
  py_dict (py_or (get k_context s) (VDict [])) = Ok [] /\
  fetch_weather (py "Budapest") = Some Samples.long_weather /\
  Samples.long_weather <> [] /\
  compact_world_state
    (dict_set k_context
       (VDict (dict_set (k "weather") (VStr Samples.long_weather) [])) s) =
    Ok st /\
  exists ctx',
    fst (update_weather_context (Err RuntimeError) fetch_weather
           (py "Budapest") w) =
      Ok (VDict [(k "ok", VBool true); (k "weather", VStr Samples.long_weather);
                 (k "last_updated", VStr now)]) /\
    kingdom (snd (update_weather_context (Err RuntimeError) fetch_weather
                    (py "Budapest") w)) =
      Some (mk_row (VDict st) now) /\
    dict_get k_context st = Some (VDict ctx') /\
    dict_get (k "weather") ctx' = Some (VStr (firstn 300 Samples.long_weather)).
Proof.
  cbv zeta. do 4 (split; [reflexivity|]). split; [discriminate|].
  split; [vm_compute; reflexivity|].
  apply (context_update_stores_clamped (Err RuntimeError)
           (fun _ : pystr => Some Samples.long_weather)
           (Some (py "Today's featured article: Tiny Kingdom"))
           (py "Budapest") [(k "day", VInt 3)] [] (py "then")
           (Server.with_row (Some (mk_row (VDict [(k "day", VInt 3)]) (py "then")))
              (Samples.some_world NoContent))
           eq_refl eq_refl eq_refl);
    solve [reflexivity | discriminate | vm_compute; reflexivity].
Defined.

(** The weather of 500 characters, run through the tool: the answer has all
    of it, the row its first 300 characters. *)
Example update_weather_context_run :
  let w := Server.with_row
             (Some (mk_row (VDict [(k "day", VInt 3)]) (py "then")))
             (Samples.some_world NoContent) in
  let out := update_weather_context (Err RuntimeError)
               (fun _ => Some Samples.long_weather) (py "Budapest") w in
  fst out =
    Ok (VDict [(k "ok", VBool true); (k "weather", VStr Samples.long_weather);
               (k "last_updated", VStr (py "2025-01-01T00:00:00"))]) /\
  kingdom (snd out) =
    Some (mk_row
            (VDict [(k "day", VInt 3);
                    (k_context, VDict [(k "weather", VStr (repeat 119%N 300))])])
            (py "2025-01-01T00:00:00")).
Proof. cbv zeta. split; vm_compute; reflexivity. Qed.

(** With no row stored, the failed fetch comes after the load has created
    the empty row; with a row stored, the world is untouched. *)
Lemma failed_fetch_writes_nothing_witness :
  let fetch_weather := fun _ : pystr => @None pystr in
  let fetch_news := Some (@nil N) in
  let w := Samples.some_world NoContent in
  let w1 := mk_world true (Some (mk_row (VDict []) (clock w 0%nat))) (clock w)
              1 (llm w) [] in
  load_world_state (Ok VNone) w = (Ok ([], VStr (clock w 0%nat)), w1) /\
  (fetch_weather (py "Atlantis") = None \/ fetch_weather (py "Atlantis") = Some [] ->
   update_weather_context (Ok VNone) fetch_weather (py "Atlantis") w =
     (Ok (VDict [(k "ok", VBool false);
                 (k "message", VStr (py "Could not fetch weather"))]), w1)) /\
  (fetch_news = None \/ fetch_news = Some [] ->
   update_news_context (Ok VNone) fetch_news w =
     (Ok (VDict [(k "ok", VBool false);
                 (k "message", VStr (py "Could not fetch news"))]), w1)) /\
  (forall r, kingdom w = Some r -> w1 = w).
Proof.
  cbv zeta. split; [reflexivity|].
  apply (failed_fetch_writes_nothing (Ok VNone)
           (fun _ : pystr => @None pystr) (Some (@nil N)) (py "Atlantis")
           (Samples.some_world NoContent) _
           ([], VStr (clock (Samples.some_world NoContent) 0%nat))).
  reflexivity.
Defined.

(** ** Media lookup *)

Import Media.

(** What Openverse contributes is always a string that starts with
    ["http"]. *)
Theorem openverse_gives_http_url (res : response) (v : any) :
  from_openverse res = Return (Some v) ->
  exists text, v = VStr text /\ startswith (py "http") text = true.
Proof.
  assert (Hloop : forall item fields,
            openverse_url item fields = Return (Some v) ->
            exists text, v = VStr text /\ startswith (py "http") text = true).
  { intros item fields. induction fields as [|key rest IH]; [discriminate|].
    cbn [openverse_url]. destruct (dot_get key item) as [val|e]; cbn [obind];
      [|discriminate].
    destruct val as [[| | | |text]| |]; try exact IH.
    destruct (startswith (py "http") text) eqn:Hs; [|exact IH].
    intros H. inversion H; subst. now exists text. }
  unfold from_openverse. destruct (status_code res =? 200); [|discriminate].
  destruct (json_or_empty res) as [o|e]; cbn [obind]; [|discriminate].
  destruct (dot_get "results" o) as [results|e]; cbn [obind]; [|discriminate].
  destruct (truthy (py_or results (VList []))); [|discriminate].
  destruct (first (py_or results (VList []))) as [item|e]; cbn [obind];
    [|discriminate].
  apply Hloop.
Qed.

Lemma openverse_gives_http_url_witness :
  let res := mk_response 200
               (Some (VDict [(Llm.k "results",
                  VList [VDict [(Llm.k "url", VStr (py "ftp://x/dragon.png"));
                                (Llm.k "thumbnail",
                                 VStr (py "https://x/dragon_small.png"))]])])) in
  from_openverse res = Return (Some (VStr (py "https://x/dragon_small.png"))) /\
  exists text, VStr (py "https://x/dragon_small.png") = VStr text /\
               startswith (py "http") text = true.
Proof.
  cbv zeta. split; [reflexivity|].
  apply (openverse_gives_http_url
           (mk_response 200
              (Some (VDict [(Llm.k "results",
                 VList [VDict [(Llm.k "url", VStr (py "ftp://x/dragon.png"));
                               (Llm.k "thumbnail",
                                VStr (py "https://x/dragon_small.png"))]])])))).
  reflexivity.
Defined.

(** What Giphy contributes is the [url] of one of the three renditions, a
    true value, and every rendition asked before it had no true [url]. *)
Theorem giphy_takes_first_rendition (images : any) (u : any) :
  giphy_url images ["downsized_medium"; "downsized"; "original"]%string =
    Return (Some u) ->
  truthy u = true /\
  exists before key after,
    ["downsized_medium"; "downsized"; "original"]%string =
      before ++ key :: after /\
    (rendition <- dot_get key images ;;
     dot_get "url" (py_or rendition (VDict [])))%outcome = Return u /\
    forall earlier, In earlier before ->
      exists url,
        (rendition <- dot_get earlier images ;;
         dot_get "url" (py_or rendition (VDict [])))%outcome = Return url /\
        truthy url = false.
Proof.
  generalize ["downsized_medium"; "downsized"; "original"]%string.
  intros renditions. induction renditions as [|key rest IH]; [discriminate|].
  cbn [giphy_url].
  destruct (dot_get key images) as [rendition|e] eqn:Hr; cbn [obind];
    [|discriminate].
  destruct (dot_get "url" (py_or rendition (VDict []))) as [url|e] eqn:Hu;
    cbn [obind]; [|discriminate].
  destruct (truthy url) eqn:Ht.
  - intros H. inversion H; subst. split; [assumption|].
    exists [], key, rest. split; [reflexivity|]. split.
    + rewrite Hr. cbn [obind]. exact Hu.
    + intros earlier [].
  - intros H. destruct (IH H) as (Htrue & before & key' & after & -> & Hkey & Hbefore).
    split; [assumption|].
    exists (key :: before), key', after. split; [reflexivity|].
    split; [assumption|].
    intros earlier [<-|Hin]; [|now apply Hbefore].
    exists url. rewrite Hr. cbn [obind]. now split.
Qed.

Lemma giphy_takes_first_rendition_witness :
  let images :=
    VDict [(Llm.k "original", VDict [(Llm.k "url", VStr (py "https://g/o.gif"))]);
           (Llm.k "downsized", VDict [(Llm.k "url", VStr (py "https://g/d.gif"))]);
           (Llm.k "downsized_medium", VDict [(Llm.k "url", VStr [])])] in
  let u := VStr (py "https://g/d.gif") in
  giphy_url images ["downsized_medium"; "downsized"; "original"]%string =
    Return (Some u) /\
  truthy u = true /\
  exists before key after,
    ["downsized_medium"; "downsized"; "original"]%string =
      before ++ key :: after /\
    (rendition <- dot_get key images ;;
     dot_get "url" (py_or rendition (VDict [])))%outcome = Return u /\
    forall earlier, In earlier before ->
      exists url,
        (rendition <- dot_get earlier images ;;
         dot_get "url" (py_or rendition (VDict [])))%outcome = Return url /\
        truthy url = false.
Proof.
  cbv zeta. split; [reflexivity|].
  apply (giphy_takes_first_rendition
           (VDict [(Llm.k "original", VDict [(Llm.k "url", VStr (py "https://g/o.gif"))]);
                   (Llm.k "downsized", VDict [(Llm.k "url", VStr (py "https://g/d.gif"))]);
                   (Llm.k "downsized_medium", VDict [(Llm.k "url", VStr [])])])).
  reflexivity.
Defined.

(** When no service answers with status 200 (Giphy is not asked without a
    key), no body is read: [fetch_media_url] returns [None] and
    [find_media_url] answers that no media was found. *)
Theorem no_service_no_media (giphy_key : option pystr)
  (giphy openverse commons : response) :
  (giphy_key = None \/ giphy_key = Some [] \/ status_code giphy <> 200) ->
  status_code openverse <> 200 ->
  status_code commons <> 200 ->
  fetch_media_url giphy_key giphy openverse commons = Return VNone /\
  find_media_url giphy_key giphy openverse commons =
    Return (VDict [(Llm.k "ok", VBool false);
                   (Llm.k "message", VStr (py "No media found"))]).
Proof.
  intros Hg Ho Hc.
  assert (Hfetch : fetch_media_url giphy_key giphy openverse commons = Return VNone).
  { unfold fetch_media_url, from_giphy, from_openverse, from_commons.
    apply Z.eqb_neq in Ho, Hc. rewrite Ho, Hc.
    destruct Hg as [-> | [-> | Hg]]; try reflexivity.
    apply Z.eqb_neq in Hg. rewrite Hg.
    destruct giphy_key as [[|c key]|]; reflexivity. }
  split; [assumption|]. unfold find_media_url. now rewrite Hfetch.
Qed.

Lemma no_service_no_media_witness :
  let down := mk_response 503 None in
  (Some (py "key") = None \/ Some (py "key") = Some [] \/ status_code down <> 200) /\
  status_code down <> 200 /\ status_code down <> 200 /\
  fetch_media_url (Some (py "key")) down down down = Return VNone /\
  find_media_url (Some (py "key")) down down down =
    Return (VDict [(Llm.k "ok", VBool false);
                   (Llm.k "message", VStr (py "No media found"))]).
Proof.
  cbv zeta. split; [right; right; discriminate|].
  split; [discriminate|]. split; [discriminate|].
  apply (no_service_no_media (Some (py "key")) (mk_response 503 None)
           (mk_response 503 None) (mk_response 503 None));
    solve [right; right; discriminate | discriminate].
Defined.

(** A status of 200 with a body that is not JSON is not absorbed: the
    [ValueError] of [json()] comes out of [fetch_media_url]. *)
Example unreadable_body_raises :
  fetch_media_url None (mk_response 200 None) (mk_response 200 None)
    (mk_response 503 None) = Raise (Exn ValueError).
Proof. reflexivity. Qed.
